(** * OpenCTI certificate validator: a shallow embedding of
      [validate-certificates.py] and the properties of its run.

    The script is sequential glue around three collaborators: the
    filesystem ([Path.exists]), the [openssl] command line
    ([subprocess.run]) and the TLS client ([socket] / [ssl]).  They are
    gathered in a [World] record of oracles; the script itself is written
    in a small monad that reads the world, records every effect in a
    trace and propagates Python exceptions. *)

From Stdlib Require Import List String Ascii ZArith Bool Lia.
From Stdlib Require Import DecimalString.
Import ListNotations.

Local Open Scope string_scope.
Local Open Scope Z_scope.

(** ** Python values and dictionaries *)

(** The inner dictionaries of the validity results hold booleans,
    integers and text under string keys. *)
Inductive Value : Type :=
| VBool (b : bool)
| VInt (z : Z)
| VStr (s : string).

(** Truth value of an object, as [if x] and [all] use it. *)
Definition truthy (v : Value) : bool :=
  match v with
  | VBool b => b
  | VInt z => negb (z =? 0)
  | VStr s => negb (s =? "")%string
  end.

(** [isinstance(x, int)] together with the integer it denotes: [bool] is
    a subclass of [int] in Python. *)
Definition as_int (v : Value) : option Z :=
  match v with
  | VBool b => Some (if b then 1 else 0)
  | VInt z => Some z
  | VStr _ => None
  end.

Definition str_of_Z (z : Z) : string := NilZero.string_of_int (Z.to_int z).

(** [str(x)], as an f-string inserts it. *)
Definition str_of_value (v : Value) : string :=
  match v with
  | VBool b => if b then "True" else "False"
  | VInt z => str_of_Z z
  | VStr s => s
  end.

(** A [dict] keeps its keys in insertion order; assigning to a key that
    is present replaces the value in place. *)
Module Dict.
Section Dict.
Context {V : Type}.

Definition t : Type := list (string * V).

Definition empty : t := [].

Fixpoint get (d : t) (k : string) : option V :=
  match d with
  | [] => None
  | (k', v) :: r => if (k' =? k)%string then Some v else get r k
  end.

Definition get_default (d : t) (k : string) (dflt : V) : V :=
  match get d k with
  | Some v => v
  | None => dflt
  end.

Fixpoint set (d : t) (k : string) (v : V) : t :=
  match d with
  | [] => [(k, v)]
  | (k', v') :: r =>
      if (k' =? k)%string then (k', v) :: r else (k', v') :: set r k v
  end.

Definition keys (d : t) : list string := map fst d.
Definition values (d : t) : list V := map snd d.
Definition items (d : t) : list (string * V) := d.
End Dict.
Arguments t : clear implicits.
End Dict.

(** [all(xs)] and [sum(1 for x in xs if p(x))]. *)
Definition all (xs : list bool) : bool := forallb (fun b => b) xs.

Definition count_if {A : Type} (p : A -> bool) (xs : list A) : Z :=
  Z.of_nat (List.length (filter p xs)).

(** ** Text helpers *)

(** A Python [str] is kept as its UTF-8 encoding.  The characters for
    which [str.isspace] holds are U+0009 to U+000D, U+001C to U+0020,
    U+0085, U+00A0, U+1680, U+2000 to U+200A, U+2028, U+2029, U+202F,
    U+205F and U+3000; they take one, two or three bytes. *)
Definition is_space (c : ascii) : bool :=
  let n := nat_of_ascii c in
  ((9 <=? n) && (n <=? 13) || (28 <=? n) && (n <=? 32))%nat.

Definition is_space2 (a b : ascii) : bool :=
  let x := nat_of_ascii a in
  let y := nat_of_ascii b in
  ((x =? 194) && ((y =? 133) || (y =? 160)))%nat.

Definition is_space3 (a b c : ascii) : bool :=
  let x := nat_of_ascii a in
  let y := nat_of_ascii b in
  let z := nat_of_ascii c in
  ((x =? 225) && (y =? 154) && (z =? 128)
   || (x =? 226) && (y =? 128)
      && ((128 <=? z) && (z <=? 138) || (z =? 168) || (z =? 169) || (z =? 175))
   || (x =? 226) && (y =? 129) && (z =? 159)
   || (x =? 227) && (y =? 128) && (z =? 128))%nat.

(** The text is exactly one white-space character. *)
Definition is_space_char (s : string) : bool :=
  match s with
  | String a EmptyString => is_space a
  | String a (String b EmptyString) => is_space2 a b
  | String a (String b (String c EmptyString)) => is_space3 a b c
  | _ => false
  end.

Fixpoint lstrip (s : string) : string :=
  match s with
  | String a r =>
      if is_space a then lstrip r
      else match r with
           | String b r' =>
               if is_space2 a b then lstrip r'
               else match r' with
                    | String c r'' => if is_space3 a b c then lstrip r'' else s
                    | EmptyString => s
                    end
           | EmptyString => s
           end
  | EmptyString => EmptyString
  end.

(** Once the white space at the end of the rest is gone, what is left
    ends in white space only if it is a single white-space character. *)
Fixpoint rstrip (s : string) : string :=
  match s with
  | String c r =>
      let s' := String c (rstrip r) in
      if is_space_char s' then EmptyString else s'
  | EmptyString => EmptyString
  end.

(** [s.strip()] *)
Definition strip (s : string) : string := rstrip (lstrip s).

(** [s.split(sep)] for a one-character separator. *)
Fixpoint split (sep : ascii) (s : string) : list string :=
  match s with
  | EmptyString => [EmptyString]
  | String c r =>
      if Ascii.eqb c sep then EmptyString :: split sep r
      else match split sep r with
           | h :: t => String c h :: t
           | [] => [String c EmptyString]
           end
  end.

Definition upper_char (c : ascii) : ascii :=
  let n := nat_of_ascii c in
  if ((97 <=? n) && (n <=? 122))%nat then ascii_of_nat (n - 32) else c.

(** [s.upper()] on ASCII text. *)
Fixpoint upper (s : string) : string :=
  match s with
  | EmptyString => EmptyString
  | String c r => String (upper_char c) (upper r)
  end.

(** ** ANSI colours (class [Colors]) *)
Module Colors.
Definition ESC : string := String (ascii_of_nat 27) EmptyString.
Definition RED : string := ESC ++ "[0;31m".
Definition GREEN : string := ESC ++ "[0;32m".
Definition YELLOW : string := ESC ++ "[1;33m".
Definition BLUE : string := ESC ++ "[0;34m".
Definition NC : string := ESC ++ "[0m".
End Colors.

Definition NL : string := String (ascii_of_nat 10) EmptyString.

(** ** The outside world *)

(** A [pathlib.Path] on a POSIX system, as pathlib parses it: a root
    (empty, ["/"] or ["//"]) and the components that are neither empty
    nor ["."]. *)
Record Path : Type := mkPath { root : string; parts : list string }.

Fixpoint leading_slashes (s : string) : nat :=
  match s with
  | String c r => if Ascii.eqb c "/" then S (leading_slashes r) else O
  | EmptyString => O
  end.

Definition is_component (x : string) : bool :=
  negb (x =? "")%string && negb (x =? ".")%string.

(** [Path(s)]: exactly two leading slashes are kept as the root ["//"],
    any other number of them is the root ["/"]. *)
Definition Path_of (s : string) : Path :=
  {| root := match leading_slashes s with
             | O => ""
             | S (S O) => "//"
             | _ => "/"
             end;
     parts := filter is_component (split "/" s) |}.

(** [p / c]: an absolute [c] replaces [p]. *)
Definition Path_join (p : Path) (c : string) : Path :=
  let q := Path_of c in
  if (root q =? "")%string
  then {| root := root p; parts := (parts p ++ parts q)%list |}
  else q.

Notation "p // c" := (Path_join p c) (at level 40, left associativity).

(** [str(p)], the text the operating system is given. *)
Definition Path_str (p : Path) : string :=
  match root p, parts p with
  | EmptyString, [] => "."
  | r, ps => r ++ String.concat "/" ps
  end.

(** The exception classes the script tells apart, and the text [str(e)]
    of a raised exception. *)
Inductive ExcClass : Type :=
| SocketTimeout
| ConnectionRefusedError
| PermissionError
| IndexError
| ValueError
| OtherException.

Record PyException : Type := mkExc { exc_class : ExcClass; exc_text : string }.

(** What ends a computation early: an [Exception], which
    [except Exception] catches, or the [SystemExit] of [sys.exit]. *)
Inductive Raised : Type :=
| Exc (e : PyException)
| SystemExit (code : Z).

(** [subprocess.CompletedProcess] with captured text output. *)
Record CompletedProcess : Type :=
  mkProc { returncode : Z; stdout : string; stderr : string }.

(** The collaborators of one run; their answers do not change while the
    run lasts.  [path_stat s] is [Path.exists()] on the path of text
    [s]: the answer, or the [OSError] it lets through.  [Path.exists]
    turns the errors [ENOENT], [ENOTDIR], [EBADF] and [ELOOP] of the
    underlying [stat] into the answer [False] and re-raises any other,
    such as the [PermissionError] for a directory that cannot be
    searched.  Times are microseconds on the naive local time line, and
    [strptime] returns the parsed date on that line or the [ValueError]
    it raises.  [tls_handshake host port timeout] stands for the library
    calls in the body of the probe: context creation,
    [socket.create_connection], [wrap_socket] and [getpeercert]; it is
    [None] when all of them succeed and the raised exception otherwise. *)
Record World : Type := mkWorld {
  path_stat : string -> PyException + bool;
  subprocess_run : list string -> PyException + CompletedProcess;
  strptime : string -> string -> PyException + Z;
  datetime_now : Z;
  tls_handshake : string -> Z -> Z -> option PyException
}.

(** Observable effects, in the order they happen. *)
Inductive Event : Type :=
| EPrint (line : string)
| EStat (p : Path)
| ERun (cmd : list string)
| EConnect (host : string) (port : Z) (timeout : Z).

Definition Trace : Type := list Event.

(** What [p.exists()] gives in a world, and the worlds in which it never
    raises. *)
Definition stat (w : World) (p : Path) : PyException + bool := path_stat w (Path_str p).

Definition path_exists (w : World) (p : Path) : bool :=
  match stat w p with
  | inr b => b
  | inl _ => false
  end.

Definition readable (w : World) : Prop := forall s, exists b, path_stat w s = inr b.

(** ** The monad of the script *)

Definition M (A : Type) : Type := World -> (Raised + A) * Trace.

Definition ret {A : Type} (a : A) : M A := fun _ => (inr a, []).

Definition bind {A B : Type} (m : M A) (k : A -> M B) : M B :=
  fun w =>
    match m w with
    | (inl e, t) => (inl e, t)
    | (inr a, t) => let (r, t') := k a w in (r, (t ++ t')%list)
    end.

Notation "x <- m ;; k" := (bind m (fun x => k))
  (at level 61, m at next level, right associativity).
Notation "m ;; k" := (bind m (fun _ => k))
  (at level 61, right associativity).

Definition raise {A : Type} (e : PyException) : M A := fun _ => (inl (Exc e), []).

(** [sys.exit(code)] *)
Definition sys_exit {A : Type} (code : Z) : M A := fun _ => (inl (SystemExit code), []).

(** [try: body  except <Exception classes> as e: handler e].  [SystemExit]
    is not an [Exception] and passes through. *)
Definition try_except {A : Type} (body : M A) (handler : PyException -> M A) : M A :=
  fun w =>
    match body w with
    | (inl (Exc e), t) => let (r, t') := handler e w in (r, (t ++ t')%list)
    | other => other
    end.

Definition lift {A : Type} (r : PyException + A) : Raised + A :=
  match r with
  | inl e => inl (Exc e)
  | inr a => inr a
  end.

Definition print (line : string) : M unit := fun _ => (inr tt, [EPrint line]).

(** [p.exists()] *)
Definition exists_ (p : Path) : M bool :=
  fun w => (lift (path_stat w (Path_str p)), [EStat p]).

Definition run (cmd : list string) : M CompletedProcess :=
  fun w => (lift (subprocess_run w cmd), [ERun cmd]).

Definition datetime_strptime (s fmt : string) : M Z := fun w => (lift (strptime w s fmt), []).

Definition now : M Z := fun w => (inr (datetime_now w), []).

Definition connect (host : string) (port timeout : Z) : M unit :=
  fun w =>
    (match tls_handshake w host port timeout with
     | Some e => inl (Exc e)
     | None => inr tt
     end, [EConnect host port timeout]).

(** [xs[i]] *)
Definition index {A : Type} (xs : list A) (i : nat) : M A :=
  match nth_error xs i with
  | Some x => ret x
  | None => raise (mkExc IndexError "list index out of range")
  end.

(** [a and b] on conditions with effects: [b] runs only when [a] holds. *)
Definition and_then (a b : M bool) : M bool :=
  x <- a ;; if x then b else ret false.

(** [for x in xs: body], threading the object the body updates. *)
Fixpoint for_each {X S : Type} (xs : list X) (body : X -> S -> M S) (s : S) : M S :=
  match xs with
  | [] => ret s
  | x :: r => s' <- body x s ;; for_each r body s'
  end.

Definition when (c : bool) (m : M unit) : M unit := if c then m else ret tt.

(** The status the process ends with. *)
Definition exit_status {A : Type} (r : (Raised + A) * Trace) : Z :=
  match fst r with
  | inl (SystemExit code) => code
  | inl (Exc _) => 1
  | inr _ => 0
  end.

Definition trace_of {A : Type} (r : (Raised + A) * Trace) : Trace := snd r.

(** ** class CertificateValidator *)

Record CertificateValidator : Type := mkValidator {
  ssl_dir : Path;
  services : Dict.t Z
}.

(** [__init__] *)
Definition init (ssl_dir : string) : CertificateValidator :=
  {| ssl_dir := Path_of ssl_dir;
     services := [("redis", 6380); ("elasticsearch", 9200); ("minio", 9000);
                  ("rabbitmq", 5671); ("opencti", 8080)] |}.

Import Colors.

(** The body of the loop of [validate_certificate_files]. *)
Definition validate_service (self : CertificateValidator) (service : string)
    (results : Dict.t bool) : M (Dict.t bool) :=
  let cert_file := ssl_dir self // service // (service ++ ".crt") in
  let key_file := ssl_dir self // service // (service ++ ".key") in
  let ca_file := ssl_dir self // service // "ca.crt" in
  ok <- and_then (and_then (exists_ cert_file) (exists_ key_file)) (exists_ ca_file) ;;
  if ok then
    print (GREEN ++ "✓ " ++ service ++ " certificates found" ++ NC) ;;
    ret (Dict.set results service true)
  else
    print (RED ++ "✗ " ++ service ++ " certificates missing" ++ NC) ;;
    ret (Dict.set results service false).

Definition validate_certificate_files (self : CertificateValidator) : M (Dict.t bool) :=
  print (BLUE ++ "Validating certificate files..." ++ NC) ;;
  let results := Dict.empty in
  let ca_cert := ssl_dir self // "ca" // "ca.crt" in
  let ca_key := ssl_dir self // "ca" // "ca.key" in
  ok <- and_then (exists_ ca_cert) (exists_ ca_key) ;;
  results <- (if ok then
                print (GREEN ++ "✓ CA certificate and key found" ++ NC) ;;
                ret (Dict.set results "ca" true)
              else
                print (RED ++ "✗ CA certificate or key missing" ++ NC) ;;
                ret (Dict.set results "ca" false)) ;;
  for_each (Dict.keys (services self)) (validate_service self) results.

Definition microseconds_per_day : Z := 86400 * 1000000.

(** The body of the loop of [check_certificate_validity]. *)
Definition check_service (self : CertificateValidator) (ca_cert : Path)
    (service : string) (results : Dict.t (Dict.t Value)) : M (Dict.t (Dict.t Value)) :=
  let cert_file := ssl_dir self // service // (service ++ ".crt") in
  cert_ok <- exists_ cert_file ;;
  if negb cert_ok then
    ret (Dict.set results service
           [("valid", VBool false); ("reason", VStr "Certificate file not found")])
  else
    try_except
      (let cmd := ["openssl"; "verify"; "-CAfile"; Path_str ca_cert; Path_str cert_file] in
       result <- run cmd ;;
       if returncode result =? 0 then
         print (GREEN ++ "✓ " ++ service ++ " certificate is valid" ++ NC) ;;
         let exp_cmd := ["openssl"; "x509"; "-in"; Path_str cert_file; "-noout"; "-enddate"] in
         exp_result <- run exp_cmd ;;
         if returncode exp_result =? 0 then
           exp_date_str <- index (split "=" (strip (stdout exp_result))) 1 ;;
           exp_date <- datetime_strptime exp_date_str "%b %d %H:%M:%S %Y %Z" ;;
           today <- now ;;
           let days_left := (exp_date - today) / microseconds_per_day in
           ret (Dict.set results service
                  [("valid", VBool true); ("expires", VStr exp_date_str);
                   ("days_left", VInt days_left)])
         else
           ret (Dict.set results service
                  [("valid", VBool true); ("expires", VStr "Unknown")])
       else
         print (RED ++ "✗ " ++ service ++ " certificate verification failed" ++ NC) ;;
         ret (Dict.set results service
                [("valid", VBool false); ("reason", VStr (strip (stderr result)))]))
      (fun e =>
         print (RED ++ "✗ Error checking " ++ service ++ ": " ++ exc_text e ++ NC) ;;
         ret (Dict.set results service
                [("valid", VBool false); ("reason", VStr (exc_text e))])).

Definition check_certificate_validity (self : CertificateValidator)
    : M (Dict.t (Dict.t Value)) :=
  print (NL ++ BLUE ++ "Checking certificate validity..." ++ NC) ;;
  let results := Dict.empty in
  let ca_cert := ssl_dir self // "ca" // "ca.crt" in
  ca_ok <- exists_ ca_cert ;;
  if negb ca_ok then
    print (RED ++ "CA certificate not found" ++ NC) ;;
    ret results
  else
    for_each (Dict.keys (services self)) (check_service self ca_cert) results.

(** The body of the loop of [test_ssl_connectivity]; the three [except]
    clauses are tried in the order of the source. *)
Definition probe_service (host : string) (item : string * Z)
    (results : Dict.t bool) : M (Dict.t bool) :=
  let (service, port) := item in
  try_except
    (connect host port 5 ;;
     print (GREEN ++ "✓ " ++ service ++ " SSL connection successful" ++ NC) ;;
     ret (Dict.set results service true))
    (fun e =>
       match exc_class e with
       | SocketTimeout =>
           print (YELLOW ++ "⚠ " ++ service
                  ++ " connection timeout (service may be down)" ++ NC) ;;
           ret (Dict.set results service false)
       | ConnectionRefusedError =>
           print (YELLOW ++ "⚠ " ++ service
                  ++ " connection refused (service not running)" ++ NC) ;;
           ret (Dict.set results service false)
       | _ =>
           print (RED ++ "✗ " ++ service ++ " SSL connection failed: "
                  ++ exc_text e ++ NC) ;;
           ret (Dict.set results service false)
       end).

Definition test_ssl_connectivity (self : CertificateValidator) (host : string)
    : M (Dict.t bool) :=
  print (NL ++ BLUE ++ "Testing SSL connectivity..." ++ NC) ;;
  let results := Dict.empty in
  for_each (Dict.items (services self)) (probe_service host) results.

(** Truth value of what [d.get(k)] returns; a missing key gives [None]. *)
Definition truthy_get (o : option Value) : bool :=
  match o with
  | Some v => truthy v
  | None => false
  end.

Definition flag_get (o : option bool) : bool :=
  match o with
  | Some b => b
  | None => false
  end.

Definition glyph (b : bool) : string := if b then "✓" else "✗".

(** The colour of the expiry band. *)
Definition band_color (days_left : Z) : string :=
  if days_left <? 30 then RED
  else if days_left <? 90 then YELLOW
  else GREEN.

(** The "Validity" line of a service block of the report. *)
Definition validity_line (validity : Dict.t Value) : string :=
  if truthy_get (Dict.get validity "valid") then
    let days_left := Dict.get_default validity "days_left" (VStr "Unknown") in
    match as_int days_left with
    | Some d =>
        let color := band_color d in
        "  Validity: " ++ color ++ "✓ (expires in " ++ str_of_value days_left
          ++ " days)" ++ NC
    | None => "  Validity: " ++ GREEN ++ "✓" ++ NC
    end
  else "  Validity: " ++ RED ++ "✗" ++ NC.

(** The per-service block of the detailed results. *)
Definition report_service (file_results : Dict.t bool)
    (validity_results : Dict.t (Dict.t Value)) (connectivity_results : Dict.t bool)
    (service : string) (_ : unit) : M unit :=
  print (NL ++ upper service ++ ":") ;;
  print ("  Files: " ++ glyph (flag_get (Dict.get file_results service))) ;;
  let validity := Dict.get_default validity_results service Dict.empty in
  print (validity_line validity) ;;
  print ("  Connection: " ++ glyph (flag_get (Dict.get connectivity_results service))).

(** The body of the closing loop over expiring certificates. *)
Definition report_expiring (item : string * Dict.t Value) (_ : unit) : M unit :=
  let (service, validity) := item in
  if truthy_get (Dict.get validity "valid") then
    match Dict.get validity "days_left" with
    | Some days_left =>
        match as_int days_left with
        | Some d =>
            when (d <? 30)
              (print (RED ++ "• " ++ service ++ " certificate expires in "
                      ++ str_of_value days_left ++ " days - renew soon!" ++ NC))
        | None => ret tt
        end
    | None => ret tt
    end
  else ret tt.

Definition generate_report (self : CertificateValidator) (file_results : Dict.t bool)
    (validity_results : Dict.t (Dict.t Value)) (connectivity_results : Dict.t bool)
    : M unit :=
  print (NL ++ BLUE ++ "Certificate Validation Report" ++ NC) ;;
  print (BLUE ++ "============================" ++ NC) ;;
  let total_services := Z.of_nat (List.length (services self)) in
  let files_ok := count_if (fun v => v) (Dict.values file_results) in
  let certs_valid :=
    count_if (fun v => truthy (Dict.get_default v "valid" (VBool false)))
      (Dict.values validity_results) in
  let connections_ok := count_if (fun v => v) (Dict.values connectivity_results) in
  print (NL ++ "Summary:") ;;
  print ("Certificate files: " ++ str_of_Z files_ok ++ "/"
         ++ str_of_Z (total_services + 1)) ;;
  print ("Valid certificates: " ++ str_of_Z certs_valid ++ "/"
         ++ str_of_Z total_services) ;;
  print ("SSL connections: " ++ str_of_Z connections_ok ++ "/"
         ++ str_of_Z total_services) ;;
  print (NL ++ "Detailed Results:") ;;
  for_each (Dict.keys (services self))
    (report_service file_results validity_results connectivity_results) tt ;;
  print (NL ++ BLUE ++ "Recommendations:" ++ NC) ;;
  when (files_ok <? total_services + 1)
    (print (YELLOW ++ "• Run generate-ssl-certs.sh to create missing certificates"
            ++ NC)) ;;
  when (certs_valid <? total_services)
    (print (YELLOW ++ "• Some certificates are invalid - check OpenSSL errors above"
            ++ NC)) ;;
  when (connections_ok <? total_services)
    (print (YELLOW
            ++ "• Some services are not accessible - check if Docker containers are running"
            ++ NC)) ;;
  for_each (Dict.items validity_results) report_expiring tt.

(** The directory [main] works on: [sys.argv[1]] when given, ["ssl"]
    otherwise. *)
Definition argv_ssl_dir (argv : list string) : string :=
  if (1 <? List.length argv)%nat then nth 1 argv "" else "ssl".

(** [main], with [sys.argv] as its argument. *)
Definition main (argv : list string) : M unit :=
  let ssl_dir_arg := argv_ssl_dir argv in
  let validator := init ssl_dir_arg in
  root_ok <- exists_ (ssl_dir validator) ;;
  (if negb root_ok then
     print (RED ++ "SSL directory '" ++ ssl_dir_arg ++ "' not found." ++ NC) ;;
     print (YELLOW ++ "Run generate-ssl-certs.sh first to create certificates." ++ NC) ;;
     sys_exit 1
   else ret tt) ;;
  file_results <- validate_certificate_files validator ;;
  validity_results <- check_certificate_validity validator ;;
  connectivity_results <- test_ssl_connectivity validator "localhost" ;;
  generate_report validator file_results validity_results connectivity_results ;;
  if all (Dict.values file_results)
     && all (map (fun v => truthy (Dict.get_default v "valid" (VBool false)))
               (Dict.values validity_results))
  then
    print (NL ++ GREEN ++ "All certificates are valid!" ++ NC) ;;
    sys_exit 0
  else
    print (NL ++ YELLOW ++ "Some issues found - check the report above." ++ NC) ;;
    sys_exit 1.

(** ** What one loop iteration contributes

    Every iteration of the three checking loops stores one entry under
    the service name and does not read the results gathered so far.  The
    entry and the effects of an iteration are read off a run of the loop
    body on an empty dictionary. *)

Definition value_or {A : Type} (r : (Raised + A) * Trace) (dflt : A) : A :=
  match fst r with
  | inr a => a
  | inl _ => dflt
  end.

Definition validate_entry (self : CertificateValidator) (w : World) (service : string) : bool :=
  flag_get (Dict.get (value_or (validate_service self service Dict.empty w) Dict.empty) service).

Definition validate_trace (self : CertificateValidator) (w : World) (service : string) : Trace :=
  trace_of (validate_service self service Dict.empty w).

Definition check_entry (self : CertificateValidator) (ca_cert : Path) (w : World)
    (service : string) : Dict.t Value :=
  Dict.get_default (value_or (check_service self ca_cert service Dict.empty w) Dict.empty)
    service Dict.empty.

Definition check_trace (self : CertificateValidator) (ca_cert : Path) (w : World)
    (service : string) : Trace :=
  trace_of (check_service self ca_cert service Dict.empty w).

Definition probe_entry (host : string) (w : World) (item : string * Z) : bool :=
  flag_get (Dict.get (value_or (probe_service host item Dict.empty w) Dict.empty) (fst item)).

Definition probe_trace (host : string) (w : World) (item : string * Z) : Trace :=
  trace_of (probe_service host item Dict.empty w).

(** The connection attempts of a trace, in order. *)
Definition probes (t : Trace) : list (string * Z) :=
  flat_map (fun ev => match ev with
                      | EConnect host port _ => [(host, port)]
                      | _ => []
                      end) t.

(** The commands handed to [subprocess.run] in a trace, in order. *)
Definition commands (t : Trace) : list (list string) :=
  flat_map (fun ev => match ev with
                      | ERun cmd => [cmd]
                      | _ => []
                      end) t.

(** The paths probed with [Path.exists] in a trace, in order. *)
Definition stats (t : Trace) : list Path :=
  flat_map (fun ev => match ev with
                      | EStat p => [p]
                      | _ => []
                      end) t.

(** The same world with another TLS stack behind the probes. *)
Definition with_tls (w : World) (h : string -> Z -> Z -> option PyException) : World :=
  {| path_stat := path_stat w;
     subprocess_run := subprocess_run w;
     strptime := strptime w;
     datetime_now := datetime_now w;
     tls_handshake := h |}.

(** ** Naming the parts of a run *)

Definition service_names : list string :=
  ["redis"; "elasticsearch"; "minio"; "rabbitmq"; "opencti"].

Definition names (self : CertificateValidator) : list string := Dict.keys (services self).

Definition ca_cert_path (self : CertificateValidator) : Path := ssl_dir self // "ca" // "ca.crt".

Definition ca_key_path (self : CertificateValidator) : Path := ssl_dir self // "ca" // "ca.key".

Definition cert_path (self : CertificateValidator) (service : string) : Path :=
  ssl_dir self // service // (service ++ ".crt").

Definition is_print (ev : Event) : bool :=
  match ev with
  | EPrint _ => true
  | _ => false
  end.

Definition is_print_or_stat (ev : Event) : bool :=
  match ev with
  | EPrint _ | EStat _ => true
  | _ => false
  end.

(** The two [openssl] invocations of the validity check. *)
Definition verify_cmd (self : CertificateValidator) (service : string) : list string :=
  ["openssl"; "verify"; "-CAfile"; Path_str (ca_cert_path self);
   Path_str (cert_path self service)].

Definition enddate_cmd (self : CertificateValidator) (service : string) : list string :=
  ["openssl"; "x509"; "-in"; Path_str (cert_path self service); "-noout"; "-enddate"].

Definition enddate_format : string := "%b %d %H:%M:%S %Y %Z".

(** ** Sample worlds *)

Definition is_verify (cmd : list string) : bool :=
  match nth_error cmd 1 with
  | Some word => (word =? "verify")%string
  | None => false
  end.

(** Every asset is in place under ["ssl"], every certificate verifies and
    expires a little over 200 days from now, every service answers. *)
Definition world_healthy : World :=
  {| path_stat := fun _ => inr true;
     subprocess_run := fun cmd =>
       if is_verify cmd then inr (mkProc 0 "OK" "")
       else inr (mkProc 0 ("notAfter=Jun 30 12:00:00 2027 GMT" ++ NL) "");
     strptime := fun _ _ => inr (201 * microseconds_per_day);
     datetime_now := 1000;
     tls_handshake := fun _ _ _ => None |}.

(** Nothing on disk at all. *)
Definition world_no_root : World :=
  {| path_stat := fun _ => inr false;
     subprocess_run := subprocess_run world_healthy;
     strptime := strptime world_healthy;
     datetime_now := 1000;
     tls_handshake := tls_handshake world_healthy |}.

(** The root directory is there, the CA certificate is not; no service
    is listening. *)
Definition world_no_ca : World :=
  {| path_stat := fun s => inr (negb (s =? "ssl/ca/ca.crt")%string);
     subprocess_run := subprocess_run world_healthy;
     strptime := strptime world_healthy;
     datetime_now := 1000;
     tls_handshake := fun _ _ _ =>
       Some (mkExc ConnectionRefusedError "[Errno 111] Connection refused") |}.

(** The certificate of redis is missing. *)
Definition world_no_redis_cert : World :=
  {| path_stat := fun s => inr (negb (s =? "ssl/redis/redis.crt")%string);
     subprocess_run := subprocess_run world_healthy;
     strptime := strptime world_healthy;
     datetime_now := 1000;
     tls_handshake := tls_handshake world_healthy |}.

(** Every certificate verifies, the end date is printed, but its text is
    not in the expected format. *)
Definition world_bad_date : World :=
  {| path_stat := fun _ => inr true;
     subprocess_run := fun cmd =>
       if is_verify cmd then inr (mkProc 0 "OK" "")
       else inr (mkProc 0 ("notAfter=30 juin 2027" ++ NL) "");
     strptime := fun _ _ =>
       inl (mkExc ValueError
              "time data '30 juin 2027' does not match format '%b %d %H:%M:%S %Y %Z'");
     datetime_now := 1000;
     tls_handshake := fun _ _ _ => None |}.

(** Every certificate verifies, but the end date cannot be read out. *)
Definition world_no_enddate : World :=
  {| path_stat := fun _ => inr true;
     subprocess_run := fun cmd =>
       if is_verify cmd then inr (mkProc 0 "OK" "")
       else inr (mkProc 1 "" "unable to load certificate");
     strptime := strptime world_healthy;
     datetime_now := 1000;
     tls_handshake := fun _ _ _ => None |}.

(** ** More names for the parts of a run *)

Definition key_path (self : CertificateValidator) (service : string) : Path :=
  ssl_dir self // service // (service ++ ".key").

Definition ca_copy_path (self : CertificateValidator) (service : string) : Path :=
  ssl_dir self // service // "ca.crt".

(** The commands one iteration of the validity loop is to run: none
    without the certificate file, the verification alone when it fails or
    cannot be started, the verification and then the end-date query when
    it succeeds. *)
Definition expected_commands (self : CertificateValidator) (w : World)
    (service : string) : list (list string) :=
  if path_exists w (cert_path self service) then
    match subprocess_run w (verify_cmd self service) with
    | inr out =>
        if returncode out =? 0
        then [verify_cmd self service; enddate_cmd self service]
        else [verify_cmd self service]
    | inl _ => [verify_cmd self service]
    end
  else [].

(** The counters of [generate_report], under the names of its local
    variables. *)
Definition total_services (self : CertificateValidator) : Z :=
  Z.of_nat (List.length (services self)).

Definition files_ok (file_results : Dict.t bool) : Z :=
  count_if (fun v => v) (Dict.values file_results).

Definition certs_valid (validity_results : Dict.t (Dict.t Value)) : Z :=
  count_if (fun v => truthy (Dict.get_default v "valid" (VBool false)))
    (Dict.values validity_results).

Definition connections_ok (connectivity_results : Dict.t bool) : Z :=
  count_if (fun v => v) (Dict.values connectivity_results).

(** The two shapes of a validity entry. *)
Definition valid_shape (e : Dict.t Value) : Prop :=
  Dict.get e "valid" = Some (VBool true)
  /\ (exists text, Dict.get e "expires" = Some (VStr text))
  /\ Dict.get e "reason" = None
  /\ (Dict.get e "days_left" = None \/ exists days, Dict.get e "days_left" = Some (VInt days)).

Definition invalid_shape (e : Dict.t Value) : Prop :=
  Dict.get e "valid" = Some (VBool false)
  /\ (exists text, Dict.get e "reason" = Some (VStr text))
  /\ Dict.get e "expires" = None
  /\ Dict.get e "days_left" = None.

(** No [=] sign in a text. *)
Fixpoint no_equals (s : string) : bool :=
  match s with
  | EmptyString => true
  | String c r => negb (Ascii.eqb c "=") && no_equals r
  end.

(** [xs] is the beginning of [ys], and [ys] goes on. *)
Fixpoint strict_prefix (xs ys : list string) : bool :=
  match xs, ys with
  | [], _ :: _ => true
  | x :: xs', y :: ys' => (x =? y)%string && strict_prefix xs' ys'
  | _, _ => false
  end.

(** [p] lies below the directory [dir]: the same root, the components of
    [dir] and then some more. *)
Definition under (dir : Path) (p : Path) : bool :=
  (root p =? root dir)%string && strict_prefix (parts dir) (parts p).

(** [xs] occurs in [l] as a run of consecutive elements. *)
Definition infix {A : Type} (xs l : list A) : Prop :=
  exists pre post, l = (pre ++ xs ++ post)%list.

(** The three lines a failed probe can log, by the class of the
    exception. *)
Definition probe_failure_line (service : string) (e : PyException) : string :=
  match exc_class e with
  | SocketTimeout =>
      YELLOW ++ "⚠ " ++ service ++ " connection timeout (service may be down)" ++ NC
  | ConnectionRefusedError =>
      YELLOW ++ "⚠ " ++ service ++ " connection refused (service not running)" ++ NC
  | _ => RED ++ "✗ " ++ service ++ " SSL connection failed: " ++ exc_text e ++ NC
  end.

(** The line a probe logs. *)
Definition probe_line (host : string) (w : World) (item : string * Z) : string :=
  match tls_handshake w host (snd item) 5 with
  | None => GREEN ++ "✓ " ++ fst item ++ " SSL connection successful" ++ NC
  | Some e => probe_failure_line (fst item) e
  end.

(** ** More sample worlds *)

(** The CA certificate is there, its key is not. *)
Definition world_no_ca_key : World :=
  {| path_stat := fun s => inr (negb (s =? "ssl/ca/ca.key")%string);
     subprocess_run := subprocess_run world_healthy;
     strptime := strptime world_healthy;
     datetime_now := 1000;
     tls_handshake := tls_handshake world_healthy |}.

(** No certificate chains to the CA. *)
Definition world_verify_fails : World :=
  {| path_stat := fun _ => inr true;
     subprocess_run := fun _ =>
       inr (mkProc 2 ""
              ("error 20 at 0 depth lookup: unable to get local issuer certificate" ++ NL));
     strptime := strptime world_healthy;
     datetime_now := 1000;
     tls_handshake := tls_handshake world_healthy |}.

(** The [openssl] program is not installed. *)
Definition world_no_openssl : World :=
  {| path_stat := fun _ => inr true;
     subprocess_run := fun _ =>
       inl (mkExc OtherException "[Errno 2] No such file or directory: 'openssl'");
     strptime := strptime world_healthy;
     datetime_now := 1000;
     tls_handshake := tls_handshake world_healthy |}.

(** Every certificate verifies and expires in a little over ten days;
    connections to every service time out. *)
Definition world_expiring : World :=
  {| path_stat := fun _ => inr true;
     subprocess_run := subprocess_run world_healthy;
     strptime := fun _ _ => inr (11 * microseconds_per_day);
     datetime_now := 1000;
     tls_handshake := fun _ _ _ => Some (mkExc SocketTimeout "timed out") |}.

(** The directory of redis cannot be searched: [exists()] on anything
    below it lets the [PermissionError] through. *)
Definition world_denied : World :=
  {| path_stat := fun s =>
       if prefix "ssl/redis/" s
       then inl (mkExc PermissionError ("[Errno 13] Permission denied: '" ++ s ++ "'"))
       else inr true;
     subprocess_run := subprocess_run world_healthy;
     strptime := strptime world_healthy;
     datetime_now := 1000;
     tls_handshake := tls_handshake world_healthy |}.

(** The same world, except that [exists()] answers [False] where it
    would raise. *)
Definition repair (w : World) : World :=
  {| path_stat := fun s => inr (match path_stat w s with
                                | inr b => b
                                | inl _ => false
                                end);
     subprocess_run := subprocess_run w;
     strptime := strptime w;
     datetime_now := datetime_now w;
     tls_handshake := tls_handshake w |}.

(** ** Predicates on a run *)

(** In [w], every event of [m] satisfies [P], and [m] leaves through
    [sys.exit] only with a status that [E] allows. *)
Definition behaves {A : Type} (E : Z -> Prop) (P : Event -> Prop) (m : M A) (w : World)
    : Prop :=
  Forall P (snd (m w)) /\ forall code, fst (m w) = inl (SystemExit code) -> E code.

(** An event that stays with the directory [dir] and with [openssl]. *)
Definition confined (dir : Path) (ev : Event) : Prop :=
  match ev with
  | EStat p => p = dir \/ under dir p = true
  | ERun cmd => hd "" cmd = "openssl"
  | _ => True
  end.

(** A component that [Path] keeps as it is. *)
Definition plain (c : string) : Prop := Path_of c = {| root := ""; parts := [c] |}.

(** ** Dictionaries *)

Section DictFacts.
Context {V : Type}.
Implicit Types (d : Dict.t V) (k : string) (v : V).

Lemma get_set d k v k' :
  Dict.get (Dict.set d k v) k' = if (k =? k')%string then Some v else Dict.get d k'.
Proof.
  induction d as [|[k0 v0] d IH]; simpl.
  - reflexivity.
  - destruct (k0 =? k)%string eqn:E0; simpl.
    + apply String.eqb_eq in E0; subst k0.
      destruct (k =? k')%string; reflexivity.
    + rewrite IH. destruct (k0 =? k')%string eqn:E1; [|reflexivity].
      apply String.eqb_eq in E1; subst k0. rewrite String.eqb_sym, E0. reflexivity.
Qed.

Lemma set_fresh d k v :
  ~ In k (Dict.keys d) -> Dict.set d k v = (d ++ [(k, v)])%list.
Proof.
  induction d as [|[k0 v0] d IH]; simpl; intros Hk.
  - reflexivity.
  - destruct (k0 =? k)%string eqn:E0.
    + apply String.eqb_eq in E0. tauto.
    + rewrite IH by tauto. reflexivity.
Qed.

(** Storing one entry per key of a duplicate-free list of fresh keys
    appends the entries in the order of the list. *)
Lemma fold_set_fresh {X : Type} (key : X -> string) (entry : X -> V) (xs : list X) :
  forall d,
    NoDup (Dict.keys d ++ map key xs) ->
    fold_left (fun r x => Dict.set r (key x) (entry x)) xs d
    = (d ++ map (fun x => (key x, entry x)) xs)%list.
Proof.
  induction xs as [|x xs IH]; simpl; intros d Hnd.
  - now rewrite app_nil_r.
  - assert (Hx : ~ In (key x) (Dict.keys d)).
    { intros Hin. apply NoDup_remove_2 in Hnd. apply Hnd.
      apply in_or_app. now left. }
    rewrite (set_fresh d _ _ Hx), IH.
    + now rewrite <- app_assoc.
    + unfold Dict.keys in *. rewrite map_app, <- app_assoc. exact Hnd.
Qed.

Lemma get_map_entry {X : Type} (key : X -> string) (entry : X -> V) (xs : list X) x :
  (forall y, In y xs -> key y = key x -> entry y = entry x) ->
  In x xs ->
  Dict.get (map (fun x => (key x, entry x)) xs) (key x) = Some (entry x).
Proof.
  induction xs as [|y xs IH]; simpl; intros Hsame Hin; [tauto|].
  destruct (key y =? key x)%string eqn:E0.
  - apply String.eqb_eq in E0. f_equal. apply Hsame; auto.
  - destruct Hin as [->|Hin]; [now rewrite String.eqb_refl in E0|].
    apply IH; auto.
Qed.

Lemma keys_map_entry {X : Type} (key : X -> string) (entry : X -> V) (xs : list X) :
  Dict.keys (map (fun x => (key x, entry x)) xs) = map key xs.
Proof. unfold Dict.keys. rewrite map_map. reflexivity. Qed.

End DictFacts.

Lemma all_true_iff (d : Dict.t bool) :
  all (Dict.values d) = true <-> (forall k b, In (k, b) d -> b = true).
Proof.
  unfold all, Dict.values. rewrite forallb_forall. split.
  - intros H k b Hin. apply (H b). apply (in_map snd) in Hin. exact Hin.
  - intros H b Hin. apply in_map_iff in Hin as [[k b'] [<- Hin]]. eapply H; eauto.
Qed.

(** ** The monad *)

Lemma bind_returns {A B : Type} (m : M A) (k : A -> M B) w a t :
  m w = (inr a, t) ->
  bind m k w = (fst (k a w), (t ++ snd (k a w))%list).
Proof. unfold bind. intros ->. destruct (k a w). reflexivity. Qed.

(** A loop whose body stores one entry per element, whatever the
    dictionary it is given, stores them all and never raises. *)
Lemma for_each_sets {X V : Type} (body : X -> Dict.t V -> M (Dict.t V))
    (key : X -> string) (entry : X -> V) (tr : X -> Trace) (w : World) :
  (forall x r, body x r w = (inr (Dict.set r (key x) (entry x)), tr x)) ->
  forall xs r,
    for_each xs body r w
    = (inr (fold_left (fun r x => Dict.set r (key x) (entry x)) xs r),
       List.concat (map tr xs)).
Proof.
  intros Hbody. induction xs as [|x xs IH]; intros r; simpl.
  - reflexivity.
  - rewrite (bind_returns _ _ _ _ _ (Hbody x r)), IH. reflexivity.
Qed.

(** A loop whose body only has effects. *)
Lemma for_each_unit {X : Type} (body : X -> unit -> M unit) (tr : X -> Trace) (w : World) :
  (forall x, body x tt w = (inr tt, tr x)) ->
  forall xs, for_each xs body tt w = (inr tt, List.concat (map tr xs)).
Proof.
  intros Hbody. induction xs as [|x xs IH]; simpl.
  - reflexivity.
  - rewrite (bind_returns _ _ _ _ _ (Hbody x)), IH. reflexivity.
Qed.

Lemma bind_raises {A B : Type} (m : M A) (k : A -> M B) w e t :
  m w = (inl e, t) -> bind m k w = (inl e, t).
Proof. unfold bind. intros ->. reflexivity. Qed.

(** ** Worlds in which [exists()] answers *)

Lemma stat_true w p : stat w p = inr true -> path_exists w p = true.
Proof. unfold path_exists. now intros ->. Qed.

Lemma stat_false w p : stat w p = inr false -> path_exists w p = false.
Proof. unfold path_exists. now intros ->. Qed.

Lemma stat_readable w (Hr : readable w) p : stat w p = inr (path_exists w p).
Proof.
  unfold path_exists, stat. destruct (Hr (Path_str p)) as [b ->]. reflexivity.
Qed.

Lemma readable_with_tls w h : readable w -> readable (with_tls w h).
Proof. intros Hr s. exact (Hr s). Qed.

(** ** The loop bodies *)

#[local] Arguments String.append : simpl never.
#[local] Arguments nth_error : simpl never.
#[local] Arguments strip : simpl never.
#[local] Arguments Path_str : simpl never.
#[local] Arguments Path_join : simpl never.
#[local] Arguments Path_of : simpl never.

Ltac unfold_script :=
  unfold validate_entry, validate_trace, check_entry, check_trace, probe_entry,
    probe_trace, value_or, trace_of, Dict.get_default, flag_get,
    validate_service, check_service, probe_service, and_then, try_except, bind,
    exists_, run, print, connect, datetime_strptime, now, index, lift, raise, ret,
    Dict.empty, path_exists, stat;
  cbn [fst snd].

(** Case analysis on the answers of the world, in the order the script
    asks for them. *)
Ltac ask_world :=
  repeat (cbn;
          match goal with
          | |- context [path_stat ?w ?s] => destruct (path_stat w s) as [?|[|]] eqn:?
          | |- context [subprocess_run ?w ?c] =>
              destruct (subprocess_run w c) as [?|[? ? ?]] eqn:?
          | |- context [(?rc =? 0)%Z] => destruct (rc =? 0)%Z eqn:?
          | |- context [nth_error (split ?c ?s) ?i] =>
              destruct (nth_error (split c s) i) eqn:?
          | |- context [strptime ?w ?s ?f] => destruct (strptime w s f) eqn:?
          | |- context [tls_handshake ?w ?h ?p ?t] =>
              destruct (tls_handshake w h p t) as [[[] ?]|] eqn:?
          end);
  cbn; rewrite ?String.eqb_refl.

(** A case in which [exists()] raised does not arise in a readable
    world. *)
Ltac unreadable :=
  exfalso;
  match goal with
  | Hr : readable ?w, H : path_stat ?w ?s = inl _ |- _ =>
      let b := fresh in let Hb := fresh in
      destruct (Hr s) as [b Hb]; congruence
  end.

Lemma validate_service_acts self w (Hr : readable w) service r :
  validate_service self service r w
  = (inr (Dict.set r service (validate_entry self w service)),
     validate_trace self w service).
Proof. unfold_script. ask_world; first [unreadable|reflexivity]. Qed.

Lemma check_service_acts self ca_cert w (Hr : readable w) service r :
  check_service self ca_cert service r w
  = (inr (Dict.set r service (check_entry self ca_cert w service)),
     check_trace self ca_cert w service).
Proof. unfold_script. ask_world; first [unreadable|reflexivity]. Qed.

Lemma probe_service_acts host w item r :
  probe_service host item r w
  = (inr (Dict.set r (fst item) (probe_entry host w item)), probe_trace host w item).
Proof. destruct item as [service port]. unfold_script. ask_world; reflexivity. Qed.

(** ** The four methods *)

Lemma validate_certificate_files_spec self w (Hr : readable w) :
  exists t0,
    validate_certificate_files self w
    = (inr (fold_left (fun r s => Dict.set r s (validate_entry self w s)) (names self)
              [("ca", path_exists w (ca_cert_path self) && path_exists w (ca_key_path self))]),
       (t0 ++ List.concat (map (validate_trace self w) (names self)))%list)
    /\ forallb is_print_or_stat t0 = true.
Proof.
  unfold validate_certificate_files, ca_cert_path, ca_key_path, names.
  pose proof (for_each_sets (validate_service self) (fun s => s) (validate_entry self w)
                (validate_trace self w) w
                (fun x r => validate_service_acts self w Hr x r)) as Hloop.
  unfold and_then, bind, exists_, print, ret, Dict.empty, path_exists, stat, lift.
  cbn [fst snd].
  destruct (path_stat w (Path_str (ssl_dir self // "ca" // "ca.crt"))) as [?|[|]] eqn:?;
    [unreadable| |];
    [destruct (path_stat w (Path_str (ssl_dir self // "ca" // "ca.key"))) as [?|[|]] eqn:?;
     [unreadable| |]|];
    cbn; rewrite Hloop;
    match goal with
    | |- exists _, (_, ?a :: ?b :: ?c :: ?d :: List.concat _) = _ /\ _ =>
        exists [a; b; c; d]
    | |- exists _, (_, ?a :: ?b :: ?c :: List.concat _) = _ /\ _ =>
        exists [a; b; c]
    end; split; reflexivity.
Qed.

Lemma check_certificate_validity_no_ca self w :
  stat w (ca_cert_path self) = inr false ->
  check_certificate_validity self w
  = (inr Dict.empty,
     [EPrint (NL ++ BLUE ++ "Checking certificate validity..." ++ NC);
      EStat (ca_cert_path self);
      EPrint (RED ++ "CA certificate not found" ++ NC)]).
Proof.
  unfold check_certificate_validity, ca_cert_path, bind, exists_, print, ret, stat.
  intros ->. reflexivity.
Qed.

Lemma check_certificate_validity_spec self w (Hr : readable w) :
  stat w (ca_cert_path self) = inr true ->
  check_certificate_validity self w
  = (inr (fold_left (fun r s => Dict.set r s (check_entry self (ca_cert_path self) w s))
            (names self) Dict.empty),
     EPrint (NL ++ BLUE ++ "Checking certificate validity..." ++ NC)
     :: EStat (ca_cert_path self)
     :: List.concat (map (check_trace self (ca_cert_path self) w) (names self))).
Proof.
  unfold check_certificate_validity, ca_cert_path, names, bind, exists_, print, stat.
  intros ->. cbn.
  rewrite (for_each_sets (check_service self _) (fun s => s) _ _ w
             (fun x r => check_service_acts self _ w Hr x r)).
  reflexivity.
Qed.

Lemma test_ssl_connectivity_spec self host w :
  test_ssl_connectivity self host w
  = (inr (fold_left (fun r item => Dict.set r (fst item) (probe_entry host w item))
            (services self) Dict.empty),
     EPrint (NL ++ BLUE ++ "Testing SSL connectivity..." ++ NC)
     :: List.concat (map (probe_trace host w) (services self))).
Proof.
  unfold test_ssl_connectivity, Dict.items, bind, print. cbn.
  rewrite (for_each_sets (probe_service host) fst _ _ w
             (fun x r => probe_service_acts host w x r)).
  reflexivity.
Qed.

(** What one probe does: a single connection attempt, and [true] exactly
    when the handshake went through. *)
Lemma probe_entry_handshake host w service port :
  probe_entry host w (service, port)
  = match tls_handshake w host port 5 with
    | None => true
    | Some _ => false
    end.
Proof. unfold_script. ask_world; reflexivity. Qed.

Lemma probe_trace_probes host w item : probes (probe_trace host w item) = [(host, snd item)].
Proof. destruct item as [service port]. unfold_script. ask_world; reflexivity. Qed.

Lemma probe_trace_quiet host w item :
  commands (probe_trace host w item) = [] /\ stats (probe_trace host w item) = [].
Proof. destruct item as [service port]. unfold_script. ask_world; split; reflexivity. Qed.


(** ** Traces *)

Lemma flat_map_concat_map {A B C : Type} (g : B -> list C) (f : A -> list B) (xs : list A) :
  flat_map g (List.concat (map f xs)) = flat_map (fun x => flat_map g (f x)) xs.
Proof.
  induction xs as [|x xs IH]; simpl.
  - reflexivity.
  - now rewrite flat_map_app, IH.
Qed.

Lemma flat_map_nil {A B : Type} (g : A -> list B) (xs : list A) :
  (forall x, In x xs -> g x = []) -> flat_map g xs = [].
Proof.
  induction xs as [|x xs IH]; simpl; intros H.
  - reflexivity.
  - rewrite (H x), IH; auto.
Qed.

Lemma flat_map_singleton {A B : Type} (g : A -> list B) (h : A -> B) (xs : list A) :
  (forall x, In x xs -> g x = [h x]) -> flat_map g xs = map h xs.
Proof.
  induction xs as [|x xs IH]; simpl; intros H.
  - reflexivity.
  - rewrite (H x), IH; auto.
Qed.

Lemma commands_app (t t' : Trace) :
  commands (t ++ t')%list = (commands t ++ commands t')%list.
Proof. apply flat_map_app. Qed.

Lemma probes_app (t t' : Trace) :
  probes (t ++ t')%list = (probes t ++ probes t')%list.
Proof. apply flat_map_app. Qed.

Lemma commands_stat p t : commands (EStat p :: t) = commands t.
Proof. reflexivity. Qed.

Lemma probes_stat p t : probes (EStat p :: t) = probes t.
Proof. reflexivity. Qed.

(** Printing and looking at the filesystem is neither a connection
    attempt nor a verifier invocation. *)
Lemma print_or_stat_quiet t :
  forallb is_print_or_stat t = true -> probes t = [] /\ commands t = [].
Proof.
  intros H. rewrite forallb_forall in H.
  split; apply flat_map_nil; intros ev Hin; specialize (H ev Hin);
    destruct ev; simpl in *; congruence.
Qed.

Lemma prints_quiet t :
  forallb is_print t = true -> probes t = [] /\ commands t = [] /\ stats t = [].
Proof.
  intros H. rewrite forallb_forall in H.
  repeat split; apply flat_map_nil; intros ev Hin; specialize (H ev Hin);
    destruct ev; simpl in *; congruence.
Qed.

Lemma validate_trace_quiet self w service :
  forallb is_print_or_stat (validate_trace self w service) = true.
Proof. unfold_script. ask_world; reflexivity. Qed.

Lemma check_trace_probes self ca_cert w service :
  probes (check_trace self ca_cert w service) = [].
Proof. unfold_script. ask_world; reflexivity. Qed.

(** The only commands an iteration of the validity loop may run are the
    two [openssl] invocations on the certificate of its own service, and
    only when that certificate file exists. *)
Lemma check_trace_commands self ca_cert w service cmd :
  In cmd (commands (check_trace self ca_cert w service)) ->
  path_exists w (cert_path self service) = true
  /\ (cmd = ["openssl"; "verify"; "-CAfile"; Path_str ca_cert;
             Path_str (cert_path self service)]
      \/ cmd = ["openssl"; "x509"; "-in"; Path_str (cert_path self service);
                "-noout"; "-enddate"]).
Proof.
  unfold cert_path. unfold_script. ask_world; cbn; intuition congruence.
Qed.

(** ** The report *)

Lemma report_service_acts fr vr cr service w :
  report_service fr vr cr service tt w
  = (inr tt,
     [EPrint (NL ++ upper service ++ ":");
      EPrint ("  Files: " ++ glyph (flag_get (Dict.get fr service)));
      EPrint (validity_line (Dict.get_default vr service Dict.empty));
      EPrint ("  Connection: " ++ glyph (flag_get (Dict.get cr service)))]).
Proof. reflexivity. Qed.

Lemma report_expiring_acts item w :
  report_expiring item tt w = (inr tt, trace_of (report_expiring item tt w))
  /\ forallb is_print (trace_of (report_expiring item tt w)) = true.
Proof.
  destruct item as [service validity]. unfold report_expiring, trace_of, when.
  destruct (truthy_get _); [|split; reflexivity].
  destruct (Dict.get validity "days_left") as [days_left|]; [|split; reflexivity].
  destruct (as_int days_left) as [d|]; [|split; reflexivity].
  destruct (d <? 30); split; reflexivity.
Qed.

Lemma forallb_concat_map {A B : Type} (p : B -> bool) (f : A -> list B) (xs : list A) :
  (forall x, forallb p (f x) = true) -> forallb p (List.concat (map f xs)) = true.
Proof.
  intros H. induction xs as [|x xs IH]; simpl.
  - reflexivity.
  - now rewrite forallb_app, H, IH.
Qed.

(** The report never raises, only prints, and holds the validity line of
    every configured service. *)
Lemma generate_report_spec self fr vr cr w :
  exists t,
    generate_report self fr vr cr w = (inr tt, t)
    /\ forallb is_print t = true
    /\ (forall service,
          In service (names self) ->
          In (EPrint (validity_line (Dict.get_default vr service Dict.empty))) t).
Proof.
  unfold generate_report, names.
  set (files_ok := count_if _ (Dict.values fr)).
  set (certs_valid := count_if _ (Dict.values vr)).
  set (connections_ok := count_if _ (Dict.values cr)).
  set (total := Z.of_nat _).
  pose proof (for_each_unit (report_service fr vr cr) _ w
                (fun x => report_service_acts fr vr cr x w)) as Hblocks.
  pose proof (for_each_unit report_expiring _ w
                (fun x => proj1 (report_expiring_acts x w))) as Hexp.
  unfold Dict.items, bind, when, print, ret.
  rewrite Hblocks, Hexp.
  destruct (files_ok <? total + 1), (certs_valid <? total), (connections_ok <? total);
    cbn [fst snd app]; eexists; (split; [reflexivity|]); split.
  all: try (intros service Hin; do 7 right; apply in_or_app; left;
            apply in_concat; eexists; split; [apply in_map; exact Hin|];
            simpl; tauto).
  all: cbn [forallb is_print andb]; rewrite forallb_app; apply andb_true_iff; split;
    [apply forallb_concat_map; reflexivity|];
    cbn [forallb is_print andb];
    apply (forallb_concat_map is_print (fun x => trace_of (report_expiring x tt w)));
    intros x; apply report_expiring_acts.
Qed.

(** ** The run of [main] *)

(** When the root directory exists, [main] runs the three checks and the
    report in turn and leaves through [sys.exit] with the outcome of the
    test on the file and validity results. *)
Lemma main_phases argv w fr t1 vr t2 cr t3 t4 :
  let validator := init (argv_ssl_dir argv) in
  stat w (ssl_dir validator) = inr true ->
  validate_certificate_files validator w = (inr fr, t1) ->
  check_certificate_validity validator w = (inr vr, t2) ->
  test_ssl_connectivity validator "localhost" w = (inr cr, t3) ->
  generate_report validator fr vr cr w = (inr tt, t4) ->
  let ok := all (Dict.values fr)
            && all (map (fun v => truthy (Dict.get_default v "valid" (VBool false)))
                      (Dict.values vr)) in
  main argv w
  = (inl (SystemExit (if ok then 0 else 1)),
     (EStat (ssl_dir validator)
      :: t1 ++ t2 ++ t3 ++ t4
      ++ [EPrint (if ok
                  then NL ++ GREEN ++ "All certificates are valid!" ++ NC
                  else NL ++ YELLOW ++ "Some issues found - check the report above."
                       ++ NC)])%list).
Proof.
  intros validator Hroot Hfiles Hvalid Hconn Hreport ok.
  unfold main. fold validator.
  assert (Hstat : exists_ (ssl_dir validator) w = (inr true, [EStat (ssl_dir validator)]))
    by (unfold exists_; unfold stat in Hroot; now rewrite Hroot).
  rewrite (bind_returns _ _ _ _ _ Hstat). cbn [negb].
  assert (Hskip : ret tt w = (inr tt, @nil Event)) by reflexivity.
  rewrite (bind_returns _ _ _ _ _ Hskip).
  rewrite (bind_returns _ _ _ _ _ Hfiles), (bind_returns _ _ _ _ _ Hvalid),
    (bind_returns _ _ _ _ _ Hconn), (bind_returns _ _ _ _ _ Hreport).
  fold ok. destruct ok; cbn; repeat (rewrite <- ?app_assoc; f_equal).
Qed.


(** ** The results of a validator made by [init] *)

Lemma names_init d : names (init d) = service_names.
Proof. reflexivity. Qed.

Lemma service_names_fresh : NoDup ("ca" :: service_names).
Proof.
  unfold service_names.
  repeat (constructor; [simpl; intuition discriminate|]). constructor.
Qed.

Lemma file_results_init d w (Hr : readable w) :
  exists t1,
    validate_certificate_files (init d) w
    = (inr (("ca", path_exists w (ca_cert_path (init d))
                   && path_exists w (ca_key_path (init d)))
            :: map (fun s => (s, validate_entry (init d) w s)) service_names), t1)
    /\ probes t1 = [] /\ commands t1 = [].
Proof.
  destruct (validate_certificate_files_spec (init d) w Hr) as (t0 & Heq & Ht0).
  rewrite names_init in Heq.
  rewrite (fold_set_fresh (fun s => s) _ service_names) in Heq
    by (cbn [Dict.keys map fst app]; rewrite map_id; exact service_names_fresh).
  eexists. split; [exact Heq|].
  apply print_or_stat_quiet. rewrite forallb_app, Ht0.
  apply forallb_concat_map. intros s. apply validate_trace_quiet.
Qed.

Lemma validity_results_init d w (Hr : readable w) :
  stat w (ca_cert_path (init d)) = inr true ->
  check_certificate_validity (init d) w
  = (inr (map (fun s => (s, check_entry (init d) (ca_cert_path (init d)) w s))
            service_names),
     EPrint (NL ++ BLUE ++ "Checking certificate validity..." ++ NC)
     :: EStat (ca_cert_path (init d))
     :: List.concat (map (check_trace (init d) (ca_cert_path (init d)) w) service_names)).
Proof.
  intros Hca. rewrite (check_certificate_validity_spec _ _ Hr Hca), names_init.
  rewrite (fold_set_fresh (fun s => s) _ service_names).
  - reflexivity.
  - cbn [Dict.keys Dict.empty map fst app]. rewrite map_id.
    exact (proj2 (proj1 (NoDup_cons_iff _ _) service_names_fresh)).
Qed.

Lemma connectivity_results_init d host w :
  test_ssl_connectivity (init d) host w
  = (inr (map (fun item => (fst item, probe_entry host w item)) (services (init d))),
     EPrint (NL ++ BLUE ++ "Testing SSL connectivity..." ++ NC)
     :: List.concat (map (probe_trace host w) (services (init d)))).
Proof.
  rewrite test_ssl_connectivity_spec.
  rewrite (fold_set_fresh fst _ (services (init d))).
  - reflexivity.
  - exact (proj2 (proj1 (NoDup_cons_iff _ _) service_names_fresh)).
Qed.

Lemma connectivity_trace_probes host w (svcs : Dict.t Z) line :
  probes (EPrint line :: List.concat (map (probe_trace host w) svcs))
  = map (fun item => (host, snd item)) svcs.
Proof.
  change (probes (List.concat (map (probe_trace host w) svcs))
          = map (fun item => (host, snd item)) svcs).
  unfold probes. rewrite (flat_map_concat_map _ (probe_trace host w) svcs).
  apply flat_map_singleton. intros item _. apply probe_trace_probes.
Qed.

Lemma connectivity_trace_quiet host w (svcs : Dict.t Z) line :
  commands (EPrint line :: List.concat (map (probe_trace host w) svcs)) = [].
Proof.
  change (commands (List.concat (map (probe_trace host w) svcs)) = []).
  unfold commands. rewrite (flat_map_concat_map _ (probe_trace host w) svcs).
  apply flat_map_nil. intros item _. apply probe_trace_quiet.
Qed.

Lemma validity_trace_probes self ca_cert w (svcs : list string) line :
  probes (EPrint line :: EStat ca_cert
          :: List.concat (map (check_trace self ca_cert w) svcs)) = [].
Proof.
  change (probes (List.concat (map (check_trace self ca_cert w) svcs)) = []).
  unfold probes. rewrite (flat_map_concat_map _ (check_trace self ca_cert w) svcs).
  apply flat_map_nil. intros s _. apply check_trace_probes.
Qed.

(** Every entry of the validity results carries a boolean under
    ["valid"]. *)
Lemma check_entry_valid self ca_cert w (Hr : readable w) service :
  exists b, Dict.get (check_entry self ca_cert w service) "valid" = Some (VBool b).
Proof. unfold_script. ask_world; first [unreadable|eexists; reflexivity]. Qed.

Lemma all_valid_iff (vr : Dict.t (Dict.t Value)) :
  (forall k d, In (k, d) vr -> exists b, Dict.get d "valid" = Some (VBool b)) ->
  all (map (fun v => truthy (Dict.get_default v "valid" (VBool false))) (Dict.values vr))
  = true
  <-> (forall k d, In (k, d) vr -> Dict.get d "valid" = Some (VBool true)).
Proof.
  intros Hwf. unfold all, Dict.values. rewrite forallb_forall. split.
  - intros H k d Hin. destruct (Hwf k d Hin) as [b Hb].
    assert (Hd : truthy (Dict.get_default d "valid" (VBool false)) = true).
    { apply H. rewrite map_map. apply in_map_iff. exists (k, d). auto. }
    unfold Dict.get_default in Hd. rewrite Hb in Hd. simpl in Hd. now subst b.
  - intros H b Hin. rewrite map_map in Hin.
    apply in_map_iff in Hin as [[k d] [<- Hin]]. cbn [snd].
    unfold Dict.get_default. now rewrite (H k d Hin).
Qed.

(** The validity results, whether or not the CA certificate is there. *)
Lemma validity_results_cases d w (Hr : readable w) :
  exists vr t2,
    check_certificate_validity (init d) w = (inr vr, t2)
    /\ probes t2 = []
    /\ (forall k e, In (k, e) vr -> exists b, Dict.get e "valid" = Some (VBool b))
    /\ Dict.keys vr
       = (if path_exists w (ca_cert_path (init d)) then service_names else [])
    /\ (path_exists w (ca_cert_path (init d)) = false -> vr = [] /\ commands t2 = []).
Proof.
  pose proof (stat_readable w Hr (ca_cert_path (init d))) as Hstat.
  destruct (path_exists w (ca_cert_path (init d))) eqn:Hca.
  - do 2 eexists. split; [apply (validity_results_init d w Hr), Hstat|].
    split; [apply validity_trace_probes|]. split; [|split].
    + intros k e Hin. apply in_map_iff in Hin as (s & [= <- <-] & _).
      apply check_entry_valid, Hr.
    + apply (keys_map_entry (fun s => s)) .
    + discriminate.
  - do 2 eexists. split; [apply check_certificate_validity_no_ca, Hstat|].
    repeat split; try reflexivity. intros k e [].
Qed.

(** The whole run when the root directory exists: the four phases come
    back, [main] leaves with the status the exit test gives, and only
    the connectivity phase opens connections. *)
Lemma main_run_summary argv w (Hr : readable w) :
  let validator := init (argv_ssl_dir argv) in
  stat w (ssl_dir validator) = inr true ->
  exists fr t1 vr t2 cr t3 t4,
    validate_certificate_files validator w = (inr fr, t1)
    /\ check_certificate_validity validator w = (inr vr, t2)
    /\ test_ssl_connectivity validator "localhost" w = (inr cr, t3)
    /\ generate_report validator fr vr cr w = (inr tt, t4)
    /\ (let ok := all (Dict.values fr)
                  && all (map (fun v => truthy (Dict.get_default v "valid" (VBool false)))
                            (Dict.values vr)) in
        main argv w
        = (inl (SystemExit (if ok then 0 else 1)),
           (EStat (ssl_dir validator)
            :: t1 ++ t2 ++ t3 ++ t4
            ++ [EPrint (if ok
                        then NL ++ GREEN ++ "All certificates are valid!" ++ NC
                        else NL ++ YELLOW
                             ++ "Some issues found - check the report above." ++ NC)])%list))
    /\ probes t1 = [] /\ commands t1 = []
    /\ probes t2 = []
    /\ probes t3 = map (fun item => ("localhost", snd item)) (services validator)
    /\ commands t3 = []
    /\ forallb is_print t4 = true.
Proof.
  intros validator Hroot. subst validator.
  destruct (file_results_init (argv_ssl_dir argv) w Hr) as (t1 & Hfiles & Hp1 & Hc1).
  destruct (validity_results_cases (argv_ssl_dir argv) w Hr) as (vr & t2 & Hvalid & Hp2 & _).
  pose proof (connectivity_results_init (argv_ssl_dir argv) "localhost" w) as Hconn.
  match type of Hfiles with _ = (inr ?fr, _) =>
    match type of Hconn with _ = (inr ?cr, _) =>
      destruct (generate_report_spec (init (argv_ssl_dir argv)) fr vr cr w)
        as (t4 & Hreport & Hprints & _)
    end
  end.
  do 7 eexists.
  split; [exact Hfiles|]. split; [exact Hvalid|]. split; [exact Hconn|].
  split; [exact Hreport|].
  split; [exact (main_phases argv w _ _ _ _ _ _ _ Hroot Hfiles Hvalid Hconn Hreport)|].
  repeat split; auto.
  - apply connectivity_trace_probes.
  - apply connectivity_trace_quiet.
Qed.

Lemma pair_inr_inj {A : Type} (a a' : A) (t t' : Trace) :
  (@inr Raised A a, t) = (inr a', t') -> a = a' /\ t = t'.
Proof. intros [= -> ->]. auto. Qed.


(** ** What a run may do, step by step *)

Section Behaves.
Context (E : Z -> Prop) (P : Event -> Prop) (w : World).

Lemma behaves_ret {A : Type} (a : A) : behaves E P (ret a) w.
Proof. split; [constructor|discriminate]. Qed.

Lemma behaves_print line : P (EPrint line) -> behaves E P (print line) w.
Proof. intros H. split; [repeat constructor; exact H|discriminate]. Qed.

Lemma behaves_exists p : P (EStat p) -> behaves E P (exists_ p) w.
Proof.
  intros H. split; [repeat constructor; exact H|].
  unfold exists_, lift. cbn. destruct (path_stat w (Path_str p)); discriminate.
Qed.

Lemma behaves_run cmd : P (ERun cmd) -> behaves E P (run cmd) w.
Proof.
  intros H. split; [repeat constructor; exact H|].
  unfold run, lift. cbn. destruct (subprocess_run w cmd); discriminate.
Qed.

Lemma behaves_connect host port timeout :
  P (EConnect host port timeout) -> behaves E P (connect host port timeout) w.
Proof.
  intros H. split; [repeat constructor; exact H|].
  unfold connect. cbn. destruct (tls_handshake w host port timeout); discriminate.
Qed.

Lemma behaves_strptime s fmt : behaves E P (datetime_strptime s fmt) w.
Proof.
  split; [constructor|]. unfold datetime_strptime, lift. cbn.
  destruct (strptime w s fmt); discriminate.
Qed.

Lemma behaves_now : behaves E P now w.
Proof. split; [constructor|discriminate]. Qed.

Lemma behaves_index {A : Type} (xs : list A) i : behaves E P (index xs i) w.
Proof.
  unfold index. destruct (nth_error xs i); split; try constructor; discriminate.
Qed.

Lemma behaves_sys_exit {A : Type} code : E code -> behaves E P (@sys_exit A code) w.
Proof. intros H. split; [constructor|]. intros c [= <-]. exact H. Qed.

Lemma behaves_bind {A B : Type} (m : M A) (k : A -> M B) :
  behaves E P m w -> (forall a, behaves E P (k a) w) -> behaves E P (bind m k) w.
Proof.
  intros [Hm Hem] Hk. unfold behaves, bind in *.
  destruct (m w) as [[e|a] t]; cbn [fst snd] in *.
  - split; [exact Hm|]. intros code [= ->]. now apply Hem.
  - specialize (Hk a). destruct (k a w) as [r t']. cbn [fst snd] in *.
    destruct Hk as [Hk Hek]. split; [apply Forall_app; auto|exact Hek].
Qed.

Lemma behaves_try_except {A : Type} (body : M A) (handler : PyException -> M A) :
  behaves E P body w -> (forall e, behaves E P (handler e) w) ->
  behaves E P (try_except body handler) w.
Proof.
  intros [Hb Heb] Hh. unfold behaves, try_except in *.
  destruct (body w) as [[[e|code]|a] t]; cbn [fst snd] in *.
  - specialize (Hh e). destruct (handler e w) as [r t']. cbn [fst snd] in *.
    destruct Hh as [Hh Heh]. split; [apply Forall_app; auto|exact Heh].
  - split; [exact Hb|exact Heb].
  - split; [exact Hb|discriminate].
Qed.

Lemma behaves_for_each {X S : Type} (xs : list X) (body : X -> S -> M S) :
  (forall x s, In x xs -> behaves E P (body x s) w) ->
  forall s, behaves E P (for_each xs body s) w.
Proof.
  induction xs as [|x xs IH]; intros Hbody s; cbn [for_each].
  - apply behaves_ret.
  - apply behaves_bind; [apply Hbody; now left|].
    intros s'. apply IH. intros y s'' Hy. apply Hbody. now right.
Qed.

End Behaves.

(** Takes a script apart down to its effects. *)
Ltac behave :=
  repeat first
    [ apply behaves_bind; [|intros ?]
    | apply behaves_ret
    | apply behaves_print
    | apply behaves_exists
    | apply behaves_run
    | apply behaves_connect
    | apply behaves_strptime
    | apply behaves_now
    | apply behaves_index
    | apply behaves_sys_exit
    | apply behaves_try_except; [|intros ?]
    | match goal with
      | |- behaves _ _ (if ?c then _ else _) _ => destruct c
      | |- behaves _ _ (match ?x with _ => _ end) _ => destruct x
      | |- behaves _ _ (let (_, _) := ?x in _) _ => destruct x
      end ].

Lemma validate_service_behaves E P self service r w :
  (forall p, P (EStat p)) -> (forall line, P (EPrint line)) ->
  behaves E P (validate_service self service r) w.
Proof. intros Hs Hp. unfold validate_service, and_then. behave; auto. Qed.

Lemma validate_certificate_files_behaves E P self w :
  (forall p, P (EStat p)) -> (forall line, P (EPrint line)) ->
  behaves E P (validate_certificate_files self) w.
Proof.
  intros Hs Hp. unfold validate_certificate_files, and_then. behave; auto.
  apply behaves_for_each. intros x s _. now apply validate_service_behaves.
Qed.

Lemma check_service_behaves E P self ca_cert service r w :
  (forall p, P (EStat p)) -> (forall line, P (EPrint line)) -> (forall cmd, P (ERun cmd)) ->
  behaves E P (check_service self ca_cert service r) w.
Proof. intros Hs Hp Hc. unfold check_service. behave; auto. Qed.

Lemma check_certificate_validity_behaves E P self w :
  (forall p, P (EStat p)) -> (forall line, P (EPrint line)) -> (forall cmd, P (ERun cmd)) ->
  behaves E P (check_certificate_validity self) w.
Proof.
  intros Hs Hp Hc. unfold check_certificate_validity. behave; auto.
  apply behaves_for_each. intros x s _. now apply check_service_behaves.
Qed.

(** The two checks never leave through [sys.exit]: what they raise is an
    exception of [exists()]. *)
Lemma checks_raise_exceptions self w :
  (forall code t, validate_certificate_files self w <> (inl (SystemExit code), t))
  /\ (forall code t, check_certificate_validity self w <> (inl (SystemExit code), t)).
Proof.
  split; intros code t Heq.
  - destruct (validate_certificate_files_behaves (fun _ => False) (fun _ => True) self w)
      as [_ H]; auto.
    apply (H code). now rewrite Heq.
  - destruct (check_certificate_validity_behaves (fun _ => False) (fun _ => True) self w)
      as [_ H]; auto.
    apply (H code). now rewrite Heq.
Qed.

(** ** Runs in which [exists()] may raise *)

Lemma for_each_ext {X S : Type} (body : X -> S -> M S) (w w' : World) :
  (forall x s, body x s w = body x s w') ->
  forall xs s, for_each xs body s w = for_each xs body s w'.
Proof.
  intros Hbody. induction xs as [|x xs IH]; intros s; cbn [for_each]; [reflexivity|].
  unfold bind. rewrite Hbody. destruct (body x s w') as [[e|s'] t]; [reflexivity|].
  now rewrite IH.
Qed.

(** A loop that comes back has kept what every iteration keeps. *)
Lemma for_each_returns_inv {X S : Type} (I : S -> Prop) (body : X -> S -> M S)
    (w : World) (xs : list X) :
  (forall x s s' t, In x xs -> I s -> body x s w = (inr s', t) -> I s') ->
  forall s s' t, I s -> for_each xs body s w = (inr s', t) -> I s'.
Proof.
  induction xs as [|x xs IH]; intros Hbody s s' t Hs; cbn [for_each].
  - intros [= <- _]. exact Hs.
  - unfold bind. destruct (body x s w) as [[e|s1] t1] eqn:Hx; [discriminate|].
    destruct (for_each xs body s1 w) as [r t2] eqn:Hrest. intros [= -> _].
    apply (IH (fun y u u' v Hy => Hbody y u u' v (or_intror Hy)) s1 s' t2); auto.
    apply (Hbody x s s1 t1); auto. now left.
Qed.

Lemma validate_service_ignores_tls self service r w h :
  validate_service self service r (with_tls w h) = validate_service self service r w.
Proof. unfold_script. ask_world; reflexivity. Qed.

Lemma check_service_ignores_tls self ca_cert service r w h :
  check_service self ca_cert service r (with_tls w h)
  = check_service self ca_cert service r w.
Proof. unfold_script. ask_world; reflexivity. Qed.

(** The file and validity checks never touch the TLS stack. *)
Lemma checks_ignore_tls_stack self w h :
  validate_certificate_files self (with_tls w h) = validate_certificate_files self w
  /\ check_certificate_validity self (with_tls w h) = check_certificate_validity self w.
Proof.
  split.
  - unfold validate_certificate_files, and_then, bind, exists_, print, ret, lift.
    repeat (cbn;
            match goal with
            | |- context [path_stat w ?s] => destruct (path_stat w s) as [?|[|]]
            end);
      cbn;
      rewrite ?(for_each_ext (validate_service self) (with_tls w h) w
                  (fun x s => validate_service_ignores_tls self x s w h));
      reflexivity.
  - unfold check_certificate_validity, bind, exists_, print, ret, lift.
    repeat (cbn;
            match goal with
            | |- context [path_stat w ?s] => destruct (path_stat w s) as [?|[|]]
            end);
      cbn;
      rewrite ?(for_each_ext (check_service self _) (with_tls w h) w
                  (fun x s => check_service_ignores_tls self _ x s w h));
      reflexivity.
Qed.

Lemma in_set {V : Type} (d : Dict.t V) s v k e :
  In (k, e) (Dict.set d s v) -> In (k, e) d \/ (k = s /\ e = v).
Proof.
  induction d as [|[k0 v0] d IH]; cbn [Dict.set].
  - intros [[= <- <-]|[]]. now right.
  - destruct (k0 =? s)%string eqn:E0.
    + apply String.eqb_eq in E0. subst k0.
      intros [[= <- <-]|Hin]; [now right|left; now right].
    + intros [Hin|Hin]; [left; now left|].
      destruct (IH Hin) as [H|H]; [left; now right|now right].
Qed.

Lemma check_service_returns self ca_cert service r w r' t :
  check_service self ca_cert service r w = (inr r', t) ->
  exists e, r' = Dict.set r service e
            /\ exists b, Dict.get e "valid" = Some (VBool b).
Proof.
  unfold_script. ask_world; intros Heq; try discriminate Heq;
    injection Heq as <- _; eexists; (split; [reflexivity|eexists; reflexivity]).
Qed.

Lemma validate_service_returns self service r w r' t :
  validate_service self service r w = (inr r', t) ->
  exists b, r' = Dict.set r service b.
Proof.
  unfold_script. ask_world; intros Heq; try discriminate Heq;
    injection Heq as <- _; eexists; reflexivity.
Qed.

(** Whenever the validity check comes back, every entry carries a
    boolean under ["valid"]. *)
Lemma check_returns_valid_flags self w vr t :
  check_certificate_validity self w = (inr vr, t) ->
  forall k e, In (k, e) vr -> exists b, Dict.get e "valid" = Some (VBool b).
Proof.
  unfold check_certificate_validity, bind, exists_, print, ret, lift. cbn [fst snd].
  destruct (path_stat w (Path_str (ssl_dir self // "ca" // "ca.crt"))) as [?|[|]];
    cbn; [discriminate| |intros [= <- _] k e []].
  destruct (for_each _ _ _ w) as [[x|vr'] t'] eqn:Hloop; [discriminate|].
  intros [= <- _].
  refine (for_each_returns_inv
            (fun d => forall k e, In (k, e) d -> exists b, Dict.get e "valid" = Some (VBool b))
            _ w _ _ Dict.empty vr' t' _ Hloop).
  - intros x s s' t0 _ Hs Hbody k e Hin.
    apply check_service_returns in Hbody as (e' & -> & Hwf).
    apply in_set in Hin as [Hin|[_ ->]]; [eauto|exact Hwf].
  - intros k e [].
Qed.

(** Whenever the file check comes back, its entry ["ca"] says whether
    the CA certificate and key exist. *)
Lemma validate_returns_ca self w fr t :
  ~ In "ca" (names self) ->
  validate_certificate_files self w = (inr fr, t) ->
  Dict.get fr "ca"
  = Some (path_exists w (ca_cert_path self) && path_exists w (ca_key_path self)).
Proof.
  intros Hfresh.
  assert (Hkeep : forall v s0 s' t',
             Dict.get s0 "ca" = Some v ->
             for_each (Dict.keys (services self)) (validate_service self) s0 w = (inr s', t') ->
             Dict.get s' "ca" = Some v).
  { intros v s0 s' t' Hs0 Hloop.
    refine (for_each_returns_inv (fun d => Dict.get d "ca" = Some v) _ w _ _ s0 s' t'
              Hs0 Hloop).
    intros x s s1 t0 Hx Hs Hbody.
    apply validate_service_returns in Hbody as (b & ->).
    rewrite get_set. destruct (x =? "ca")%string eqn:Ex; [|exact Hs].
    apply String.eqb_eq in Ex. subst x. contradiction. }
  unfold validate_certificate_files, ca_cert_path, ca_key_path, and_then, bind, exists_,
    print, ret, lift, path_exists, stat, Dict.empty.
  cbn [fst snd].
  repeat (cbn;
          match goal with
          | |- context [path_stat w ?s] => destruct (path_stat w s) as [?|[|]]
          end);
    cbn; try discriminate;
    (destruct (for_each _ _ _ w) as [[x|fr'] t'] eqn:Hloop; try discriminate;
     intros [= <- _]; eapply Hkeep; [|exact Hloop]; reflexivity).
Qed.

Lemma exit_status_raised {A : Type} (e : Raised) (t : Trace) :
  (forall code, e <> SystemExit code) -> exit_status (@inl Raised A e, t) = 1.
Proof. intros H. unfold exit_status. cbn. destruct e; [reflexivity|]. now destruct (H code). Qed.

(** The exit status of a run whose root directory exists, whatever
    [exists()] does afterwards: 1 when one of the two checks raises,
    else the outcome of the exit test. *)
Lemma main_outcome argv w :
  stat w (ssl_dir (init (argv_ssl_dir argv))) = inr true ->
  exit_status (main argv w)
  = match validate_certificate_files (init (argv_ssl_dir argv)) w with
    | (inr fr, _) =>
        match check_certificate_validity (init (argv_ssl_dir argv)) w with
        | (inr vr, _) =>
            if all (Dict.values fr)
               && all (map (fun v => truthy (Dict.get_default v "valid" (VBool false)))
                         (Dict.values vr))
            then 0 else 1
        | (inl _, _) => 1
        end
    | (inl _, _) => 1
    end.
Proof.
  intros Hroot. set (validator := init (argv_ssl_dir argv)) in *.
  destruct (checks_raise_exceptions validator w) as [Hnx1 Hnx2].
  destruct (validate_certificate_files validator w) as [[e|fr] t1] eqn:Hfiles.
  - unfold main. fold validator.
    assert (Hstat : exists_ (ssl_dir validator) w = (inr true, [EStat (ssl_dir validator)]))
      by (unfold exists_; unfold stat in Hroot; now rewrite Hroot).
    rewrite (bind_returns _ _ _ _ _ Hstat). cbn [negb].
    assert (Hskip : ret tt w = (inr tt, @nil Event)) by reflexivity.
    rewrite (bind_returns _ _ _ _ _ Hskip), (bind_raises _ _ _ _ _ Hfiles).
    cbn [fst snd]. apply exit_status_raised. intros code ->. exact (Hnx1 code t1 eq_refl).
  - destruct (check_certificate_validity validator w) as [[e|vr] t2] eqn:Hvalid.
    + unfold main. fold validator.
      assert (Hstat : exists_ (ssl_dir validator) w = (inr true, [EStat (ssl_dir validator)]))
        by (unfold exists_; unfold stat in Hroot; now rewrite Hroot).
      rewrite (bind_returns _ _ _ _ _ Hstat). cbn [negb].
      assert (Hskip : ret tt w = (inr tt, @nil Event)) by reflexivity.
      rewrite (bind_returns _ _ _ _ _ Hskip), (bind_returns _ _ _ _ _ Hfiles),
        (bind_raises _ _ _ _ _ Hvalid).
      cbn [fst snd]. apply exit_status_raised. intros code ->. exact (Hnx2 code t2 eq_refl).
    + pose proof (test_ssl_connectivity_spec validator "localhost" w) as Hconn.
      match type of Hconn with _ = (inr ?cr, _) =>
        destruct (generate_report_spec validator fr vr cr w) as (t4 & Hreport & _)
      end.
      rewrite (main_phases argv w _ _ _ _ _ _ _ Hroot Hfiles Hvalid Hconn Hreport).
      unfold exit_status. cbn [fst]. now destruct (_ && _).
Qed.

Lemma if_0_iff (b : bool) : (if b then 0 else 1) = 0 <-> b = true.
Proof. destruct b; split; intros; congruence. Qed.

Lemma get_In {V : Type} (d : Dict.t V) k v : Dict.get d k = Some v -> In (k, v) d.
Proof.
  induction d as [|[k0 v0] d IH]; simpl; [discriminate|].
  destruct (k0 =? k)%string eqn:E0.
  - apply String.eqb_eq in E0. intros [= ->]. left. now subst.
  - intros H. right. auto.
Qed.

Lemma ca_not_a_service d : ~ In "ca" (names (init d)).
Proof. exact (proj1 (proj1 (NoDup_cons_iff _ _) service_names_fresh)). Qed.

(** ** Whenever a check comes back *)

Lemma validate_service_comes_back self service r w r' t :
  validate_service self service r w = (inr r', t) ->
  r' = Dict.set r service (validate_entry self w service)
  /\ t = validate_trace self w service.
Proof.
  unfold_script. ask_world; intros Heq; try discriminate Heq;
    injection Heq as <- <-; split; reflexivity.
Qed.

Lemma check_service_comes_back self ca_cert service r w r' t :
  check_service self ca_cert service r w = (inr r', t) ->
  r' = Dict.set r service (check_entry self ca_cert w service)
  /\ t = check_trace self ca_cert w service.
Proof.
  unfold_script. ask_world; intros Heq; try discriminate Heq;
    injection Heq as <- <-; split; reflexivity.
Qed.

(** A loop that comes back, and whose body stores one entry per element
    whenever it comes back, has stored them all. *)
Lemma for_each_comes_back {X V : Type} (body : X -> Dict.t V -> M (Dict.t V))
    (key : X -> string) (entry : X -> V) (tr : X -> Trace) (w : World) :
  (forall x r r' t,
     body x r w = (inr r', t) -> r' = Dict.set r (key x) (entry x) /\ t = tr x) ->
  forall xs r r' t,
    for_each xs body r w = (inr r', t) ->
    r' = fold_left (fun r x => Dict.set r (key x) (entry x)) xs r
    /\ t = List.concat (map tr xs).
Proof.
  intros Hbody. induction xs as [|x xs IH]; intros r r' t; cbn [for_each].
  - intros [= <- <-]. split; reflexivity.
  - unfold bind. destruct (body x r w) as [[e|r1] t1] eqn:Hx; [discriminate|].
    destruct (Hbody _ _ _ _ Hx) as [-> ->].
    destruct (for_each xs body _ w) as [[e|r2] t2] eqn:Hrest; [discriminate|].
    destruct (IH _ _ _ Hrest) as [-> ->]. intros [= <- <-]. split; reflexivity.
Qed.

Lemma check_certificate_validity_comes_back self w vr t :
  stat w (ca_cert_path self) = inr true ->
  check_certificate_validity self w = (inr vr, t) ->
  vr = fold_left (fun r s => Dict.set r s (check_entry self (ca_cert_path self) w s))
         (names self) Dict.empty
  /\ t = EPrint (NL ++ BLUE ++ "Checking certificate validity..." ++ NC)
         :: EStat (ca_cert_path self)
         :: List.concat (map (check_trace self (ca_cert_path self) w) (names self)).
Proof.
  unfold check_certificate_validity, ca_cert_path, names, bind, exists_, print, stat, lift.
  intros ->. cbn.
  destruct (for_each _ _ _ w) as [[e|vr'] t'] eqn:Hloop; [discriminate|].
  intros [= <- <-].
  destruct (for_each_comes_back (check_service self _) (fun s => s) _ _ w
              (fun x r r' t => check_service_comes_back self _ x r w r' t)
              _ _ _ _ Hloop) as [-> ->].
  split; reflexivity.
Qed.

Lemma validate_certificate_files_comes_back self w fr t :
  validate_certificate_files self w = (inr fr, t) ->
  fr = fold_left (fun r s => Dict.set r s (validate_entry self w s)) (names self)
         [("ca", path_exists w (ca_cert_path self) && path_exists w (ca_key_path self))].
Proof.
  assert (Hloop : forall b fr' t',
             for_each (Dict.keys (services self)) (validate_service self)
               [("ca", b)] w = (inr fr', t') ->
             fr' = fold_left (fun r s => Dict.set r s (validate_entry self w s))
                     (Dict.keys (services self)) [("ca", b)]).
  { intros b fr' t' Hfor.
    now destruct (for_each_comes_back (validate_service self) (fun s => s) _ _ w
                    (fun x r r' t => validate_service_comes_back self x r w r' t)
                    _ _ _ _ Hfor) as [-> _]. }
  unfold validate_certificate_files, ca_cert_path, ca_key_path, names, and_then, bind,
    exists_, print, ret, lift, path_exists, stat, Dict.empty.
  cbn [fst snd].
  repeat (cbn;
          match goal with
          | |- context [path_stat w ?s] => destruct (path_stat w s) as [?|[|]]
          end);
    cbn; try discriminate;
    (destruct (for_each _ _ _ w) as [[x|fr'] t'] eqn:Hfor; try discriminate;
     intros [= <- _]; exact (Hloop _ _ _ Hfor)).
Qed.

(** The validity results whenever the check comes back with the CA
    certificate in place: what every iteration stores, in the order of
    the service table. *)
Lemma validity_results_come_back d w vr t :
  stat w (ca_cert_path (init d)) = inr true ->
  check_certificate_validity (init d) w = (inr vr, t) ->
  vr = map (fun s => (s, check_entry (init d) (ca_cert_path (init d)) w s)) service_names
  /\ t = EPrint (NL ++ BLUE ++ "Checking certificate validity..." ++ NC)
         :: EStat (ca_cert_path (init d))
         :: List.concat (map (check_trace (init d) (ca_cert_path (init d)) w)
                           service_names).
Proof.
  intros Hca Hrun.
  destruct (check_certificate_validity_comes_back _ _ _ _ Hca Hrun) as [-> ->].
  rewrite names_init. split; [|reflexivity].
  rewrite (fold_set_fresh (fun s => s) _ service_names).
  - reflexivity.
  - cbn [Dict.keys Dict.empty map fst app]. rewrite map_id.
    exact (proj2 (proj1 (NoDup_cons_iff _ _) service_names_fresh)).
Qed.

(** The file results whenever the check comes back. *)
Lemma file_results_come_back d w fr t :
  validate_certificate_files (init d) w = (inr fr, t) ->
  fr = ("ca", path_exists w (ca_cert_path (init d))
              && path_exists w (ca_key_path (init d)))
       :: map (fun s => (s, validate_entry (init d) w s)) service_names.
Proof.
  intros Hrun. rewrite (validate_certificate_files_comes_back _ _ _ _ Hrun), names_init.
  rewrite (fold_set_fresh (fun s => s) _ service_names); [reflexivity|].
  cbn [Dict.keys map fst app]. rewrite map_id. exact service_names_fresh.
Qed.

(** A check that raises ends the run there. *)
Lemma main_aborts argv w :
  stat w (ssl_dir (init (argv_ssl_dir argv))) = inr true ->
  (forall e t1,
     validate_certificate_files (init (argv_ssl_dir argv)) w = (inl e, t1) ->
     main argv w = (inl e, EStat (ssl_dir (init (argv_ssl_dir argv))) :: t1))
  /\ (forall fr t1 e t2,
        validate_certificate_files (init (argv_ssl_dir argv)) w = (inr fr, t1) ->
        check_certificate_validity (init (argv_ssl_dir argv)) w = (inl e, t2) ->
        main argv w
        = (inl e, (EStat (ssl_dir (init (argv_ssl_dir argv))) :: t1 ++ t2)%list)).
Proof.
  intros Hroot. set (validator := init (argv_ssl_dir argv)) in *.
  assert (Hstat : exists_ (ssl_dir validator) w = (inr true, [EStat (ssl_dir validator)]))
    by (unfold exists_; unfold stat in Hroot; now rewrite Hroot).
  assert (Hskip : ret tt w = (inr tt, @nil Event)) by reflexivity.
  split.
  - intros e t1 Hfiles. unfold main. fold validator.
    rewrite (bind_returns _ _ _ _ _ Hstat). cbn [negb].
    rewrite (bind_returns _ _ _ _ _ Hskip), (bind_raises _ _ _ _ _ Hfiles). reflexivity.
  - intros fr t1 e t2 Hfiles Hvalid. unfold main. fold validator.
    rewrite (bind_returns _ _ _ _ _ Hstat). cbn [negb].
    rewrite (bind_returns _ _ _ _ _ Hskip), (bind_returns _ _ _ _ _ Hfiles),
      (bind_raises _ _ _ _ _ Hvalid). reflexivity.
Qed.

Lemma no_run_no_commands (t : Trace) :
  Forall (fun ev => match ev with ERun _ => False | _ => True end) t -> commands t = [].
Proof.
  intros H. apply flat_map_nil. intros ev Hin.
  rewrite Forall_forall in H. specialize (H ev Hin). now destruct ev.
Qed.

Lemma validate_certificate_files_no_commands self w :
  commands (snd (validate_certificate_files self w)) = [].
Proof.
  apply no_run_no_commands.
  apply (validate_certificate_files_behaves (fun _ => True) _ self w); auto.
Qed.

Lemma no_connect_no_probes (t : Trace) :
  Forall (fun ev => match ev with EConnect _ _ _ => False | _ => True end) t ->
  probes t = [].
Proof.
  intros H. apply flat_map_nil. intros ev Hin.
  rewrite Forall_forall in H. specialize (H ev Hin). now destruct ev.
Qed.

Lemma checks_no_probes self w :
  probes (snd (validate_certificate_files self w)) = []
  /\ probes (snd (check_certificate_validity self w)) = [].
Proof.
  split; apply no_connect_no_probes.
  - apply (validate_certificate_files_behaves (fun _ => True) _ self w); auto.
  - apply (check_certificate_validity_behaves (fun _ => True) _ self w); auto.
Qed.

Lemma check_certificate_validity_raises self w e :
  stat w (ca_cert_path self) = inl e ->
  fst (check_certificate_validity self w) = inl (Exc e).
Proof.
  unfold check_certificate_validity, ca_cert_path, bind, exists_, print, stat, lift.
  intros ->. reflexivity.
Qed.

(** The whole run when the root directory exists and the two checks
    come back: the probes and the report follow, [main] leaves with the
    status the exit test gives, and only the connectivity phase opens
    connections. *)
Lemma main_run_comes_back argv w fr t1 vr t2 :
  let validator := init (argv_ssl_dir argv) in
  stat w (ssl_dir validator) = inr true ->
  validate_certificate_files validator w = (inr fr, t1) ->
  check_certificate_validity validator w = (inr vr, t2) ->
  exists cr t3 t4,
    test_ssl_connectivity validator "localhost" w = (inr cr, t3)
    /\ generate_report validator fr vr cr w = (inr tt, t4)
    /\ (let ok := all (Dict.values fr)
                  && all (map (fun v => truthy (Dict.get_default v "valid" (VBool false)))
                            (Dict.values vr)) in
        main argv w
        = (inl (SystemExit (if ok then 0 else 1)),
           (EStat (ssl_dir validator)
            :: t1 ++ t2 ++ t3 ++ t4
            ++ [EPrint (if ok
                        then NL ++ GREEN ++ "All certificates are valid!" ++ NC
                        else NL ++ YELLOW
                             ++ "Some issues found - check the report above." ++ NC)])%list))
    /\ probes t1 = [] /\ commands t1 = []
    /\ probes t2 = []
    /\ probes t3 = map (fun item => ("localhost", snd item)) (services validator)
    /\ commands t3 = []
    /\ forallb is_print t4 = true.
Proof.
  intros validator Hroot Hfiles Hvalid. subst validator.
  pose proof (connectivity_results_init (argv_ssl_dir argv) "localhost" w) as Hconn.
  match type of Hconn with _ = (inr ?cr, _) =>
    destruct (generate_report_spec (init (argv_ssl_dir argv)) fr vr cr w)
      as (t4 & Hreport & Hprints & _)
  end.
  destruct (checks_no_probes (init (argv_ssl_dir argv)) w) as [Hp1 Hp2].
  pose proof (validate_certificate_files_no_commands (init (argv_ssl_dir argv)) w) as Hc1.
  rewrite Hfiles in Hp1, Hc1. rewrite Hvalid in Hp2. cbn [snd] in Hp1, Hp2, Hc1.
  do 3 eexists.
  split; [exact Hconn|]. split; [exact Hreport|].
  split; [exact (main_phases argv w _ _ _ _ _ _ _ Hroot Hfiles Hvalid Hconn Hreport)|].
  split; [exact Hp1|]. split; [exact Hc1|]. split; [exact Hp2|].
  split; [apply connectivity_trace_probes|]. split; [apply connectivity_trace_quiet|].
  exact Hprints.
Qed.

(** * The claims *)

(** C4.  When the root certificate directory does not exist, [main]
    looks at that directory only, prints two lines and leaves with
    status 1: no asset file is looked for, the verifier is not run and
    no connection is attempted. *)
Theorem missing_root_exits_without_checks argv w :
  stat w (ssl_dir (init (argv_ssl_dir argv))) = inr false ->
  exit_status (main argv w) = 1
  /\ trace_of (main argv w)
     = [EStat (ssl_dir (init (argv_ssl_dir argv)));
        EPrint (RED ++ "SSL directory '" ++ argv_ssl_dir argv ++ "' not found." ++ NC);
        EPrint (YELLOW ++ "Run generate-ssl-certs.sh first to create certificates."
                ++ NC)]
  /\ stats (trace_of (main argv w)) = [ssl_dir (init (argv_ssl_dir argv))]
  /\ commands (trace_of (main argv w)) = []
  /\ probes (trace_of (main argv w)) = [].
Proof.
  intros Hroot.
  assert (Hrun : main argv w
                 = (inl (SystemExit 1),
                    [EStat (ssl_dir (init (argv_ssl_dir argv)));
                     EPrint (RED ++ "SSL directory '" ++ argv_ssl_dir argv
                             ++ "' not found." ++ NC);
                     EPrint (YELLOW
                             ++ "Run generate-ssl-certs.sh first to create certificates."
                             ++ NC)])).
  { unfold main, bind, exists_, print, sys_exit, lift. unfold stat in Hroot.
    rewrite Hroot. reflexivity. }
  rewrite Hrun. repeat split; reflexivity.
Qed.

Lemma missing_root_exits_without_checks_witness :
  stat world_no_root (ssl_dir (init (argv_ssl_dir ["validate-certificates.py"])))
  = inr false
  /\ exit_status (main ["validate-certificates.py"] world_no_root) = 1
  /\ probes (trace_of (main ["validate-certificates.py"] world_no_root)) = [].
Proof.
  split; [reflexivity|].
  pose proof (missing_root_exits_without_checks ["validate-certificates.py"]
                world_no_root eq_refl) as H.
  split; [apply H|apply H].
Defined.

(** C1.  When the root directory exists the process exits with status 0
    exactly when both checks come back, every entry of the file results
    (the CA entry and every service entry) is true and every entry of
    the validity results has [valid] true, and with status 1 otherwise;
    replacing the TLS stack behind the connectivity probes by any other
    leaves the exit status unchanged.  When [exists()] never raises both
    checks do come back, and the file results have the key ["ca"] and
    the five service names. *)
Theorem exit_status_files_and_validity argv w :
  stat w (ssl_dir (init (argv_ssl_dir argv))) = inr true ->
  (exit_status (main argv w) = 0
   <-> exists fr t1 vr t2,
         validate_certificate_files (init (argv_ssl_dir argv)) w = (inr fr, t1)
         /\ check_certificate_validity (init (argv_ssl_dir argv)) w = (inr vr, t2)
         /\ (forall k b, In (k, b) fr -> b = true)
         /\ (forall k e, In (k, e) vr -> Dict.get e "valid" = Some (VBool true)))
  /\ (exit_status (main argv w) = 0 \/ exit_status (main argv w) = 1)
  /\ (forall h, exit_status (main argv (with_tls w h)) = exit_status (main argv w))
  /\ (readable w ->
      exists fr t1 vr t2,
        validate_certificate_files (init (argv_ssl_dir argv)) w = (inr fr, t1)
        /\ check_certificate_validity (init (argv_ssl_dir argv)) w = (inr vr, t2)
        /\ Dict.keys fr = "ca" :: service_names
        /\ (exit_status (main argv w) = 0
            <-> (forall k b, In (k, b) fr -> b = true)
                /\ (forall k e, In (k, e) vr -> Dict.get e "valid" = Some (VBool true)))).
Proof.
  intros Hroot. set (validator := init (argv_ssl_dir argv)) in *.
  assert (Hiff : exit_status (main argv w) = 0
                 <-> exists fr t1 vr t2,
                       validate_certificate_files validator w = (inr fr, t1)
                       /\ check_certificate_validity validator w = (inr vr, t2)
                       /\ (forall k b, In (k, b) fr -> b = true)
                       /\ (forall k e, In (k, e) vr ->
                                       Dict.get e "valid" = Some (VBool true))).
  { rewrite (main_outcome argv w Hroot). fold validator.
    destruct (validate_certificate_files validator w) as [[e|fr] t1] eqn:Hfiles.
    - split; [discriminate|]. intros (fr & t1' & vr & t2 & Hf & _). discriminate Hf.
    - destruct (check_certificate_validity validator w) as [[e|vr] t2] eqn:Hvalid.
      + split; [discriminate|]. intros (fr' & t1' & vr & t2' & _ & Hv & _). discriminate Hv.
      + pose proof (check_returns_valid_flags validator w vr t2 Hvalid) as Hwf.
        rewrite if_0_iff, andb_true_iff, all_true_iff, (all_valid_iff vr Hwf). split.
        * intros [Hf Hv]. exists fr, t1, vr, t2. auto.
        * intros (fr' & t1' & vr' & t2' & Hf & Hv & Hall).
          apply pair_inr_inj in Hf as [<- _]. apply pair_inr_inj in Hv as [<- _].
          exact Hall. }
  split; [exact Hiff|]. split; [|split].
  - rewrite (main_outcome argv w Hroot).
    destruct (validate_certificate_files _ w) as [[e|fr] t1]; auto.
    destruct (check_certificate_validity _ w) as [[e|vr] t2]; auto.
    destruct (_ && _); auto.
  - intros h.
    assert (Hroot' : stat (with_tls w h) (ssl_dir (init (argv_ssl_dir argv))) = inr true)
      by exact Hroot.
    rewrite (main_outcome argv w Hroot), (main_outcome argv (with_tls w h) Hroot').
    destruct (checks_ignore_tls_stack (init (argv_ssl_dir argv)) w h) as [-> ->].
    reflexivity.
  - intros Hr.
    destruct (file_results_init (argv_ssl_dir argv) w Hr) as (t1 & Hfiles & _).
    destruct (validity_results_cases (argv_ssl_dir argv) w Hr) as (vr & t2 & Hvalid & _).
    do 4 eexists. split; [exact Hfiles|]. split; [exact Hvalid|].
    split; [reflexivity|].
    rewrite Hiff. split.
    + intros (fr' & t1' & vr' & t2' & Hf & Hv & Hall).
      fold validator in Hfiles, Hvalid. rewrite Hfiles in Hf. rewrite Hvalid in Hv.
      apply pair_inr_inj in Hf as [<- _]. apply pair_inr_inj in Hv as [<- _].
      exact Hall.
    + intros Hall. do 4 eexists. split; [exact Hfiles|]. split; [exact Hvalid|].
      exact Hall.
Qed.

Lemma exit_status_files_and_validity_witness :
  stat world_healthy (ssl_dir (init (argv_ssl_dir ["validate-certificates.py"])))
  = inr true
  /\ exit_status (main ["validate-certificates.py"] world_healthy) = 0
  /\ (forall h,
        exit_status (main ["validate-certificates.py"] (with_tls world_healthy h))
        = exit_status (main ["validate-certificates.py"] world_healthy)).
Proof.
  split; [reflexivity|]. split; [vm_compute; reflexivity|].
  exact (proj1 (proj2 (proj2 (exit_status_files_and_validity ["validate-certificates.py"]
                                world_healthy eq_refl)))).
Defined.

Lemma false_entry_fails (d : Dict.t bool) k : Dict.get d k = Some false -> all (Dict.values d) = false.
Proof.
  intros Hget. apply get_In in Hget.
  destruct (all (Dict.values d)) eqn:Hall; [|reflexivity].
  apply all_true_iff with (k := k) (b := false) in Hall; [discriminate|exact Hget].
Qed.

(** C9.  When the root directory exists but the CA certificate file is
    absent, the process exits with status 1: the validity results are
    empty, and whenever the file check comes back its entry ["ca"] is
    false (it does come back when [exists()] never raises). *)
Theorem missing_ca_exits_1 argv w :
  stat w (ssl_dir (init (argv_ssl_dir argv))) = inr true ->
  stat w (ca_cert_path (init (argv_ssl_dir argv))) = inr false ->
  exit_status (main argv w) = 1
  /\ (exists t2,
        check_certificate_validity (init (argv_ssl_dir argv)) w = (inr Dict.empty, t2))
  /\ (forall fr t1,
        validate_certificate_files (init (argv_ssl_dir argv)) w = (inr fr, t1) ->
        Dict.get fr "ca" = Some false)
  /\ (readable w ->
      exists fr t1 t2,
        validate_certificate_files (init (argv_ssl_dir argv)) w = (inr fr, t1)
        /\ check_certificate_validity (init (argv_ssl_dir argv)) w = (inr Dict.empty, t2)
        /\ Dict.get fr "ca" = Some false
        /\ exit_status (main argv w) = 1).
Proof.
  intros Hroot Hca.
  pose proof (check_certificate_validity_no_ca _ _ Hca) as Hempty.
  assert (Hfalse : forall fr t1,
             validate_certificate_files (init (argv_ssl_dir argv)) w = (inr fr, t1) ->
             Dict.get fr "ca" = Some false).
  { intros fr t1 Hfiles.
    rewrite (validate_returns_ca _ w fr t1 (ca_not_a_service _) Hfiles).
    now rewrite (stat_false _ _ Hca). }
  assert (Hexit : exit_status (main argv w) = 1).
  { rewrite (main_outcome argv w Hroot), Hempty.
    destruct (validate_certificate_files _ w) as [[e|fr] t1] eqn:Hfiles; [reflexivity|].
    now rewrite (false_entry_fails fr "ca" (Hfalse fr t1 eq_refl)). }
  split; [exact Hexit|]. split; [eexists; exact Hempty|]. split; [exact Hfalse|].
  intros Hr. destruct (file_results_init (argv_ssl_dir argv) w Hr) as (t1 & Hfiles & _).
  do 3 eexists. split; [exact Hfiles|]. split; [exact Hempty|].
  split; [exact (Hfalse _ _ Hfiles)|exact Hexit].
Qed.

Lemma missing_ca_exits_1_witness :
  stat world_no_ca (ssl_dir (init (argv_ssl_dir ["validate-certificates.py"]))) = inr true
  /\ stat world_no_ca (ca_cert_path (init (argv_ssl_dir ["validate-certificates.py"])))
     = inr false
  /\ exit_status (main ["validate-certificates.py"] world_no_ca) = 1.
Proof.
  split; [reflexivity|]. split; [reflexivity|].
  exact (proj1 (missing_ca_exits_1 ["validate-certificates.py"] world_no_ca
                  eq_refl eq_refl)).
Defined.

(** ** Paths and command words *)

Lemma length_append (a b : string) :
  String.length (a ++ b) = (String.length a + String.length b)%nat.
Proof.
  induction a as [|c a IH]; [reflexivity|].
  change (String c a ++ b) with (String c (a ++ b)). cbn [String.length]. now rewrite IH.
Qed.

Lemma concat_length_last (sep : string) (ps : list string) (a : string) :
  (String.length a <= String.length (String.concat sep (ps ++ [a])))%nat.
Proof.
  induction ps as [|x ps IH]; cbn [app String.concat]; [lia|].
  destruct (ps ++ [a])%list as [|y l] eqn:E; [now destruct ps|].
  rewrite !length_append. lia.
Qed.

Lemma Path_str_last (p : Path) (ps : list string) (a : string) :
  parts p = (ps ++ [a])%list ->
  (String.length a <= String.length (Path_str p))%nat.
Proof.
  intros Hparts. unfold Path_str. rewrite Hparts.
  pose proof (concat_length_last "/" ps a) as Hlen.
  destruct (root p) as [|c r]; (destruct (ps ++ [a])%list as [|y l] eqn:E; [now destruct ps|]);
    rewrite ?length_append; cbn [String.length] in *; lia.
Qed.

Lemma cert_path_parts self service :
  In service service_names ->
  parts (cert_path self service)
  = ((parts (ssl_dir self) ++ [service]) ++ [(service ++ ".crt")%string])%list.
Proof.
  intros Hin. unfold service_names in Hin. cbn in Hin.
  repeat (destruct Hin as [<-|Hin]; [reflexivity|]). destruct Hin.
Qed.

(** The text of a certificate path of a configured service is longer
    than any fixed word of the [openssl] command lines. *)
Lemma cert_path_not_keyword self service word :
  In service service_names ->
  (String.length word <= 8)%nat ->
  Path_str (cert_path self service) <> word.
Proof.
  intros Hin Hlen Heq. apply (f_equal String.length) in Heq.
  pose proof (Path_str_last _ _ _ (cert_path_parts self service Hin)) as Hlast.
  rewrite length_append in Hlast. cbn [String.length] in Hlast.
  assert (5 <= String.length service)%nat.
  { unfold service_names in Hin. cbn in Hin.
    repeat (destruct Hin as [<-|Hin]; [cbn; lia|]). destruct Hin. }
  lia.
Qed.

Lemma check_entry_missing_cert self ca_cert w service :
  stat w (cert_path self service) = inr false ->
  check_entry self ca_cert w service
  = [("valid", VBool false); ("reason", VStr "Certificate file not found")]
  /\ check_trace self ca_cert w service = [EStat (cert_path self service)].
Proof.
  unfold cert_path, stat. intros Hcert. unfold_script. rewrite Hcert. cbn.
  rewrite String.eqb_refl. split; reflexivity.
Qed.

Lemma validity_results_get d w service :
  In service service_names ->
  Dict.get (map (fun s => (s, check_entry (init d) (ca_cert_path (init d)) w s))
              service_names) service
  = Some (check_entry (init d) (ca_cert_path (init d)) w service).
Proof.
  intros Hin.
  apply (get_map_entry (fun s => s) (check_entry (init d) (ca_cert_path (init d)) w)).
  - now intros y _ ->.
  - exact Hin.
Qed.

(** C5.  When the CA certificate exists and the certificate file of a
    service is absent, the iteration for that service only looks at the
    file; and whenever the validity check comes back, the entry of that
    service is invalid with the reason "Certificate file not found", and
    no command run during the check has the certificate of that service
    among its arguments.  The check does come back when [exists()] never
    raises. *)
Theorem missing_certificate_not_verified d w service :
  In service service_names ->
  stat w (ca_cert_path (init d)) = inr true ->
  stat w (cert_path (init d) service) = inr false ->
  check_trace (init d) (ca_cert_path (init d)) w service
  = [EStat (cert_path (init d) service)]
  /\ (forall vr t,
        check_certificate_validity (init d) w = (inr vr, t) ->
        Dict.get vr service
        = Some [("valid", VBool false);
                ("reason", VStr ("Certificate " ++ "file not found"))]
        /\ (forall cmd,
              In cmd (commands t) -> ~ In (Path_str (cert_path (init d) service)) cmd))
  /\ (readable w ->
      exists vr t,
        check_certificate_validity (init d) w = (inr vr, t)
        /\ Dict.get vr service
           = Some [("valid", VBool false);
                   ("reason", VStr ("Certificate " ++ "file not found"))]
        /\ check_trace (init d) (ca_cert_path (init d)) w service
           = [EStat (cert_path (init d) service)]
        /\ (forall cmd,
              In cmd (commands t) -> ~ In (Path_str (cert_path (init d) service)) cmd)).
Proof.
  intros Hin Hca Hcert.
  change ("Certificate " ++ "file not found") with "Certificate file not found".
  destruct (check_entry_missing_cert (init d) (ca_cert_path (init d)) w service Hcert)
    as [Hentry Htrace].
  assert (Hcore : forall vr t,
             check_certificate_validity (init d) w = (inr vr, t) ->
             Dict.get vr service
             = Some [("valid", VBool false); ("reason", VStr "Certificate file not found")]
             /\ (forall cmd,
                   In cmd (commands t) ->
                   ~ In (Path_str (cert_path (init d) service)) cmd));
    [|split; [exact Htrace|]; split; [exact Hcore|];
      intros Hr;
      pose proof (validity_results_init d w Hr Hca) as Hrun;
      destruct (Hcore _ _ Hrun) as [Hget Hcmds];
      do 2 eexists; split; [exact Hrun|];
      split; [exact Hget|]; split; [exact Htrace|exact Hcmds]].
  intros vr t Hrun.
  destruct (validity_results_come_back d w vr t Hca Hrun) as [-> ->].
  split.
  - rewrite <- Hentry. apply validity_results_get, Hin.
  - intros cmd Hcmd Hmention.
    change (In cmd (commands (List.concat
              (map (check_trace (init d) (ca_cert_path (init d)) w) service_names))))
      in Hcmd.
    unfold commands in Hcmd.
    rewrite (flat_map_concat_map _ (check_trace (init d) (ca_cert_path (init d)) w)) in Hcmd.
    apply in_flat_map in Hcmd as (other & Hother & Hcmd).
    apply check_trace_commands in Hcmd as [Hexists Hcmd].
    assert (Hword : forall word, (String.length word <= 8)%nat ->
                                 word <> Path_str (cert_path (init d) service)).
    { intros word Hlen Heq. now apply (cert_path_not_keyword (init d) service word Hin Hlen). }
    assert (Hca' : Path_str (ca_cert_path (init d)) <> Path_str (cert_path (init d) service)).
    { intros Heq. unfold stat in Hca, Hcert. rewrite Heq in Hca. congruence. }
    assert (Hother' : Path_str (cert_path (init d) other)
                      <> Path_str (cert_path (init d) service)).
    { intros Heq. unfold path_exists, stat in Hexists. unfold stat in Hcert.
      rewrite Heq, Hcert in Hexists. discriminate. }
    destruct Hcmd as [-> | ->]; simpl in Hmention;
      repeat (destruct Hmention as [Hmention|Hmention];
              [first [ now apply Hca' | now apply Hother'
                     | apply (Hword _) in Hmention; [exact Hmention|simpl; lia] ]|]);
      exact Hmention.
Qed.

Lemma world_no_redis_cert_readable : readable world_no_redis_cert.
Proof. intros s. eexists. reflexivity. Defined.

Lemma missing_certificate_not_verified_witness :
  In "redis" service_names
  /\ stat world_no_redis_cert (ca_cert_path (init "ssl")) = inr true
  /\ stat world_no_redis_cert (cert_path (init "ssl") "redis") = inr false
  /\ exists vr t,
       check_certificate_validity (init "ssl") world_no_redis_cert = (inr vr, t)
       /\ Dict.get vr "redis"
          = Some [("valid", VBool false);
                  ("reason", VStr ("Certificate " ++ "file not found"))]
       /\ check_trace (init "ssl") (ca_cert_path (init "ssl")) world_no_redis_cert "redis"
          = [EStat (cert_path (init "ssl") "redis")]
       /\ (forall cmd,
             In cmd (commands t) -> ~ In (Path_str (cert_path (init "ssl") "redis")) cmd).
Proof.
  split; [simpl; tauto|]. split; [reflexivity|]. split; [reflexivity|].
  destruct (missing_certificate_not_verified "ssl" world_no_redis_cert "redis")
    as (_ & _ & Hread); [simpl; tauto|reflexivity|reflexivity|].
  exact (Hread world_no_redis_cert_readable).
Defined.

(** ** A verified certificate and its expiry date *)

Lemma check_entry_verified self w service out :
  stat w (cert_path self service) = inr true ->
  subprocess_run w (verify_cmd self service) = inr out ->
  returncode out = 0 ->
  (forall exp,
     subprocess_run w (enddate_cmd self service) = inr exp ->
     returncode exp <> 0 ->
     check_entry self (ca_cert_path self) w service
     = [("valid", VBool true); ("expires", VStr "Unknown")])
  /\ (forall exp text e,
        subprocess_run w (enddate_cmd self service) = inr exp ->
        returncode exp = 0 ->
        nth_error (split "=" (strip (stdout exp))) 1 = Some text ->
        strptime w text enddate_format = inl e ->
        check_entry self (ca_cert_path self) w service
        = [("valid", VBool false); ("reason", VStr (exc_text e))])
  /\ (forall exp,
        subprocess_run w (enddate_cmd self service) = inr exp ->
        returncode exp = 0 ->
        nth_error (split "=" (strip (stdout exp))) 1 = None ->
        check_entry self (ca_cert_path self) w service
        = [("valid", VBool false); ("reason", VStr "list index out of range")])
  /\ (forall exp text expiry,
        subprocess_run w (enddate_cmd self service) = inr exp ->
        returncode exp = 0 ->
        nth_error (split "=" (strip (stdout exp))) 1 = Some text ->
        strptime w text enddate_format = inr expiry ->
        check_entry self (ca_cert_path self) w service
        = [("valid", VBool true); ("expires", VStr text);
           ("days_left", VInt ((expiry - datetime_now w) / microseconds_per_day))]).
Proof.
  unfold verify_cmd, enddate_cmd, enddate_format, cert_path, stat.
  intros Hcert Hverify Hrc. destruct out as [rc out err]. cbn in Hrc. subst rc.
  repeat split.
  - intros [rc out' err'] Hexp Hrc. cbn in Hrc. apply Z.eqb_neq in Hrc.
    unfold_script. rewrite Hcert. cbn. rewrite Hverify. cbn. rewrite Hexp. cbn.
    rewrite Hrc. cbn. now rewrite String.eqb_refl.
  - intros [rc out' err'] text e Hexp Hrc Htext Hparse. cbn [returncode] in Hrc. cbn [stdout] in Htext. subst rc.
    unfold_script. rewrite Hcert. cbn. rewrite Hverify. cbn. rewrite Hexp.
    cbn [returncode stdout Z.eqb]. rewrite Htext. cbn. rewrite Hparse. cbn.
    now rewrite String.eqb_refl.
  - intros [rc out' err'] Hexp Hrc Htext. cbn [returncode] in Hrc. cbn [stdout] in Htext. subst rc.
    unfold_script. rewrite Hcert. cbn. rewrite Hverify. cbn. rewrite Hexp.
    cbn [returncode stdout Z.eqb]. rewrite Htext. cbn.
    now rewrite String.eqb_refl.
  - intros [rc out' err'] text expiry Hexp Hrc Htext Hparse. cbn [returncode] in Hrc. cbn [stdout] in Htext. subst rc.
    unfold_script. rewrite Hcert. cbn. rewrite Hverify. cbn. rewrite Hexp.
    cbn [returncode stdout Z.eqb]. rewrite Htext. cbn. rewrite Hparse. cbn.
    now rewrite String.eqb_refl.
Qed.

(** C2, as the specification states it, fails: in [world_bad_date] the
    certificate of redis verifies against the CA and its end date is
    printed, but the text does not parse; the exception lands in the
    handler of the iteration and redis is reported invalid. *)
Lemma unparseable_expiry_reported_invalid :
  stat world_bad_date (ca_cert_path (init "ssl")) = inr true
  /\ subprocess_run world_bad_date (verify_cmd (init "ssl") "redis")
     = inr (mkProc 0 "OK" "")
  /\ subprocess_run world_bad_date (enddate_cmd (init "ssl") "redis")
     = inr (mkProc 0 ("notAfter=30 juin 2027" ++ NL) "")
  /\ (exists e, strptime world_bad_date "30 juin 2027" enddate_format = inl e)
  /\ exists vr t,
       check_certificate_validity (init "ssl") world_bad_date = (inr vr, t)
       /\ Dict.get vr "redis"
          = Some [("valid", VBool false);
                  ("reason",
                   VStr "time data '30 juin 2027' does not match format '%b %d %H:%M:%S %Y %Z'")]
       /\ Dict.get vr "redis" <> Some [("valid", VBool true); ("expires", VStr "Unknown")].
Proof.
  split; [reflexivity|]. split; [reflexivity|]. split; [reflexivity|].
  split; [eexists; reflexivity|].
  do 2 eexists. split; [vm_compute; reflexivity|].
  split; [reflexivity|]. cbn. discriminate.
Qed.

(** C2, amended.  For a service whose certificate verifies against the
    CA, whenever the validity check comes back: when the end-date
    command exits with a non-zero status the service is reported valid
    with [expires = "Unknown"] and no [days_left]; when that command
    succeeds but its output has no text after an [=] sign, or the text
    does not parse as a date, the exception is caught for that service
    and it is reported invalid with the text of the exception as reason.
    The check does come back when [exists()] never raises. *)
Theorem verified_certificate_expiry_cases d w service out :
  In service service_names ->
  stat w (ca_cert_path (init d)) = inr true ->
  stat w (cert_path (init d) service) = inr true ->
  subprocess_run w (verify_cmd (init d) service) = inr out ->
  returncode out = 0 ->
  (forall vr t,
     check_certificate_validity (init d) w = (inr vr, t) ->
     (forall exp,
           subprocess_run w (enddate_cmd (init d) service) = inr exp ->
           returncode exp <> 0 ->
           Dict.get vr service = Some [("valid", VBool true); ("expires", VStr "Unknown")]
           /\ (forall entry, Dict.get vr service = Some entry ->
                             Dict.get entry "days_left" = None))
     /\ (forall exp text e,
           subprocess_run w (enddate_cmd (init d) service) = inr exp ->
           returncode exp = 0 ->
           nth_error (split "=" (strip (stdout exp))) 1 = Some text ->
           strptime w text enddate_format = inl e ->
           Dict.get vr service
           = Some [("valid", VBool false); ("reason", VStr (exc_text e))])
     /\ (forall exp,
           subprocess_run w (enddate_cmd (init d) service) = inr exp ->
           returncode exp = 0 ->
           nth_error (split "=" (strip (stdout exp))) 1 = None ->
           Dict.get vr service
           = Some [("valid", VBool false); ("reason", VStr "list index out of range")]))
  /\ (readable w ->
      exists vr t,
        check_certificate_validity (init d) w = (inr vr, t)
        /\ (forall exp,
              subprocess_run w (enddate_cmd (init d) service) = inr exp ->
              returncode exp <> 0 ->
              Dict.get vr service = Some [("valid", VBool true); ("expires", VStr "Unknown")]
              /\ (forall entry, Dict.get vr service = Some entry ->
                                Dict.get entry "days_left" = None))
        /\ (forall exp text e,
              subprocess_run w (enddate_cmd (init d) service) = inr exp ->
              returncode exp = 0 ->
              nth_error (split "=" (strip (stdout exp))) 1 = Some text ->
              strptime w text enddate_format = inl e ->
              Dict.get vr service
              = Some [("valid", VBool false); ("reason", VStr (exc_text e))])
        /\ (forall exp,
              subprocess_run w (enddate_cmd (init d) service) = inr exp ->
              returncode exp = 0 ->
              nth_error (split "=" (strip (stdout exp))) 1 = None ->
              Dict.get vr service
              = Some [("valid", VBool false); ("reason", VStr "list index out of range")])).
Proof.
  intros Hin Hca Hcert Hverify Hrc.
  destruct (check_entry_verified (init d) w service out Hcert Hverify Hrc)
    as (Hunknown & Hparse & Hindex & _).
  assert (Hget : Dict.get (map (fun s => (s, check_entry (init d) (ca_cert_path (init d)) w s))
                             service_names) service
                 = Some (check_entry (init d) (ca_cert_path (init d)) w service)).
  { apply (get_map_entry (fun s => s) (check_entry (init d) (ca_cert_path (init d)) w)).
    - now intros y _ ->.
    - exact Hin. }
  assert (Hcases : forall vr,
             vr = map (fun s => (s, check_entry (init d) (ca_cert_path (init d)) w s))
                    service_names ->
             (forall exp,
                   subprocess_run w (enddate_cmd (init d) service) = inr exp ->
                   returncode exp <> 0 ->
                   Dict.get vr service = Some [("valid", VBool true); ("expires", VStr "Unknown")]
                   /\ (forall entry, Dict.get vr service = Some entry ->
                                     Dict.get entry "days_left" = None))
             /\ (forall exp text e,
                   subprocess_run w (enddate_cmd (init d) service) = inr exp ->
                   returncode exp = 0 ->
                   nth_error (split "=" (strip (stdout exp))) 1 = Some text ->
                   strptime w text enddate_format = inl e ->
                   Dict.get vr service
                   = Some [("valid", VBool false); ("reason", VStr (exc_text e))])
             /\ (forall exp,
                   subprocess_run w (enddate_cmd (init d) service) = inr exp ->
                   returncode exp = 0 ->
                   nth_error (split "=" (strip (stdout exp))) 1 = None ->
                   Dict.get vr service
                   = Some [("valid", VBool false); ("reason", VStr "list index out of range")])).
  { intros vr ->. rewrite Hget. split; [|split].
    - intros exp Hexp Hnz. rewrite (Hunknown exp Hexp Hnz). split; [reflexivity|].
      intros entry [= <-]. reflexivity.
    - intros exp text e Hexp Hz Htext He. now rewrite (Hparse exp text e Hexp Hz Htext He).
    - intros exp Hexp Hz Htext. now rewrite (Hindex exp Hexp Hz Htext). }
  split.
  - intros vr t Hrun. apply Hcases.
    exact (proj1 (validity_results_come_back d w vr t Hca Hrun)).
  - intros Hr. do 2 eexists. split; [apply (validity_results_init d w Hr), Hca|].
    now apply Hcases.
Qed.

Lemma verified_certificate_expiry_cases_witness :
  In "minio" service_names
  /\ stat world_no_enddate (ca_cert_path (init "ssl")) = inr true
  /\ stat world_no_enddate (cert_path (init "ssl") "minio") = inr true
  /\ subprocess_run world_no_enddate (verify_cmd (init "ssl") "minio")
     = inr (mkProc 0 "OK" "")
  /\ returncode (mkProc 0 "OK" "") = 0
  /\ exists vr t,
       check_certificate_validity (init "ssl") world_no_enddate = (inr vr, t)
       /\ Dict.get vr "minio" = Some [("valid", VBool true); ("expires", VStr "Unknown")].
Proof.
  split; [simpl; tauto|]. do 4 (split; [reflexivity|]).
  destruct (verified_certificate_expiry_cases "ssl" world_no_enddate "minio"
              (mkProc 0 "OK" "")) as (_ & Hread);
    [simpl; tauto|reflexivity|reflexivity|reflexivity|reflexivity|].
  destruct (Hread (fun s => ex_intro _ true eq_refl)) as (vr & t & Hrun & Hunknown & _).
  exists vr, t. split; [exact Hrun|].
  apply (Hunknown (mkProc 1 "" "unable to load certificate")).
  - reflexivity.
  - discriminate.
Defined.

(** C3, as the specification states it, fails: in [world_no_ca] the root
    directory exists but the CA certificate does not, the validity
    results are empty and the connectivity results hold all five
    services. *)
Lemma key_sets_differ_without_ca :
  stat world_no_ca (ssl_dir (init "ssl")) = inr true
  /\ exists vr t2 cr t3,
       check_certificate_validity (init "ssl") world_no_ca = (inr vr, t2)
       /\ test_ssl_connectivity (init "ssl") "localhost" world_no_ca = (inr cr, t3)
       /\ Dict.keys vr = []
       /\ Dict.keys cr = ["redis"; "elasticsearch"; "minio"; "rabbitmq"; "opencti"]
       /\ Dict.keys vr <> Dict.keys cr.
Proof.
  split; [reflexivity|].
  do 4 eexists. split; [vm_compute; reflexivity|]. split; [vm_compute; reflexivity|].
  split; [reflexivity|]. split; [reflexivity|]. cbn. discriminate.
Qed.

(** C3, amended.  Whenever the file check comes back, its results have
    the key ["ca"] followed by the five service names; the connectivity
    results always have the five service names; and whenever the
    validity check comes back, its results have the same five service
    names when the CA certificate exists and no key at all when it does
    not.  All three come back when [exists()] never raises. *)
Theorem result_key_sets d host w :
  (forall fr t1,
     validate_certificate_files (init d) w = (inr fr, t1) ->
     Dict.keys fr = "ca" :: Dict.keys (services (init d)))
  /\ (forall vr t2,
        check_certificate_validity (init d) w = (inr vr, t2) ->
        Dict.keys vr
        = (if path_exists w (ca_cert_path (init d))
           then Dict.keys (services (init d))
           else []))
  /\ (exists cr t3,
        test_ssl_connectivity (init d) host w = (inr cr, t3)
        /\ Dict.keys cr = Dict.keys (services (init d)))
  /\ (readable w ->
      exists fr t1 vr t2 cr t3,
        validate_certificate_files (init d) w = (inr fr, t1)
        /\ check_certificate_validity (init d) w = (inr vr, t2)
        /\ test_ssl_connectivity (init d) host w = (inr cr, t3)
        /\ Dict.keys fr = "ca" :: Dict.keys (services (init d))
        /\ Dict.keys cr = Dict.keys (services (init d))
        /\ Dict.keys vr
           = (if path_exists w (ca_cert_path (init d))
              then Dict.keys (services (init d))
              else [])).
Proof.
  split; [|split; [|split]].
  - intros fr t1 Hrun. rewrite (file_results_come_back d w fr t1 Hrun). reflexivity.
  - intros vr t2 Hrun. unfold path_exists.
    destruct (stat w (ca_cert_path (init d))) as [e|[|]] eqn:Hca.
    + apply check_certificate_validity_raises in Hca. rewrite Hrun in Hca. discriminate Hca.
    + destruct (validity_results_come_back d w vr t2 Hca Hrun) as [-> _]. reflexivity.
    + rewrite (check_certificate_validity_no_ca _ _ Hca) in Hrun.
      apply pair_inr_inj in Hrun as [<- _]. reflexivity.
  - do 2 eexists. split; [apply connectivity_results_init|reflexivity].
  - intros Hr.
    destruct (file_results_init d w Hr) as (t1 & Hfiles & _).
    destruct (validity_results_cases d w Hr) as (vr & t2 & Hvalid & _ & _ & Hkeys & _).
    do 6 eexists. split; [exact Hfiles|]. split; [exact Hvalid|].
    split; [apply connectivity_results_init|].
    split; [reflexivity|]. split; [reflexivity|]. exact Hkeys.
Qed.

Lemma world_healthy_readable : readable world_healthy.
Proof. intros s. eexists. reflexivity. Defined.

Lemma world_no_ca_readable : readable world_no_ca.
Proof. intros s. eexists. reflexivity. Defined.

Lemma result_key_sets_witness :
  exists fr t1 vr t2 cr t3,
    validate_certificate_files (init "ssl") world_healthy = (inr fr, t1)
    /\ check_certificate_validity (init "ssl") world_healthy = (inr vr, t2)
    /\ test_ssl_connectivity (init "ssl") "localhost" world_healthy = (inr cr, t3)
    /\ Dict.keys fr = "ca" :: Dict.keys (services (init "ssl"))
    /\ Dict.keys cr = Dict.keys (services (init "ssl"))
    /\ Dict.keys vr = Dict.keys (services (init "ssl")).
Proof.
  exact (proj2 (proj2 (proj2 (result_key_sets "ssl" "localhost" world_healthy)))
           world_healthy_readable).
Defined.


(** C6.  When the root directory exists and the CA certificate file is
    absent, [check_certificate_validity] returns an empty dictionary
    after one look at the file and one message, and no command is run in
    the whole of [main].  The run is not cut short: once the file check
    before it has come back, [main] goes on to probe every service and
    to print the report before it exits.  The file check does come back
    when [exists()] never raises. *)
Theorem missing_ca_skips_validity_only argv w :
  stat w (ssl_dir (init (argv_ssl_dir argv))) = inr true ->
  stat w (ca_cert_path (init (argv_ssl_dir argv))) = inr false ->
  check_certificate_validity (init (argv_ssl_dir argv)) w
  = (inr Dict.empty,
     [EPrint (NL ++ BLUE ++ "Checking certificate validity..." ++ NC);
      EStat (ca_cert_path (init (argv_ssl_dir argv)));
      EPrint (RED ++ "CA certificate not found" ++ NC)])
  /\ commands (trace_of (main argv w)) = []
  /\ (forall fr t1,
        validate_certificate_files (init (argv_ssl_dir argv)) w = (inr fr, t1) ->
        exists t2 cr t3 t4 code line,
          check_certificate_validity (init (argv_ssl_dir argv)) w = (inr Dict.empty, t2)
          /\ test_ssl_connectivity (init (argv_ssl_dir argv)) "localhost" w = (inr cr, t3)
          /\ generate_report (init (argv_ssl_dir argv)) fr Dict.empty cr w = (inr tt, t4)
          /\ probes t3 = map (fun item => ("localhost", snd item))
                           (services (init (argv_ssl_dir argv)))
          /\ main argv w
             = (inl (SystemExit code),
                (EStat (ssl_dir (init (argv_ssl_dir argv)))
                 :: t1 ++ t2 ++ t3 ++ t4 ++ [EPrint line])%list))
  /\ (readable w ->
      exists fr t1 t2 cr t3 t4 code line,
        validate_certificate_files (init (argv_ssl_dir argv)) w = (inr fr, t1)
        /\ check_certificate_validity (init (argv_ssl_dir argv)) w = (inr Dict.empty, t2)
        /\ test_ssl_connectivity (init (argv_ssl_dir argv)) "localhost" w = (inr cr, t3)
        /\ generate_report (init (argv_ssl_dir argv)) fr Dict.empty cr w = (inr tt, t4)
        /\ probes t3 = map (fun item => ("localhost", snd item))
                         (services (init (argv_ssl_dir argv)))
        /\ main argv w
           = (inl (SystemExit code),
              (EStat (ssl_dir (init (argv_ssl_dir argv)))
               :: t1 ++ t2 ++ t3 ++ t4 ++ [EPrint line])%list)).
Proof.
  intros Hroot Hca.
  pose proof (check_certificate_validity_no_ca _ _ Hca) as Hempty.
  split; [exact Hempty|]. split.
  - pose proof (validate_certificate_files_no_commands (init (argv_ssl_dir argv)) w) as Hc1.
    destruct (validate_certificate_files (init (argv_ssl_dir argv)) w) as [[e|fr] t1]
      eqn:Hfiles; cbn [snd] in Hc1.
    + rewrite (proj1 (main_aborts argv w Hroot) e t1 Hfiles). cbn [trace_of snd].
      now rewrite commands_stat.
    + pose proof (test_ssl_connectivity_spec (init (argv_ssl_dir argv)) "localhost" w)
        as Hconn.
      match type of Hconn with _ = (inr ?cr, _) =>
        destruct (generate_report_spec (init (argv_ssl_dir argv)) fr Dict.empty cr w)
          as (t4 & Hreport & Hprints & _)
      end.
      rewrite (main_phases argv w _ _ _ _ _ _ _ Hroot Hfiles Hempty Hconn Hreport).
      cbn [trace_of snd].
      rewrite commands_stat, !commands_app, Hc1, connectivity_trace_quiet.
      destruct (prints_quiet t4 Hprints) as (_ & -> & _). reflexivity.
  - assert (Hgoes : forall fr t1,
               validate_certificate_files (init (argv_ssl_dir argv)) w = (inr fr, t1) ->
               exists t2 cr t3 t4 code line,
                 check_certificate_validity (init (argv_ssl_dir argv)) w
                 = (inr Dict.empty, t2)
                 /\ test_ssl_connectivity (init (argv_ssl_dir argv)) "localhost" w
                    = (inr cr, t3)
                 /\ generate_report (init (argv_ssl_dir argv)) fr Dict.empty cr w
                    = (inr tt, t4)
                 /\ probes t3 = map (fun item => ("localhost", snd item))
                                  (services (init (argv_ssl_dir argv)))
                 /\ main argv w
                    = (inl (SystemExit code),
                       (EStat (ssl_dir (init (argv_ssl_dir argv)))
                        :: t1 ++ t2 ++ t3 ++ t4 ++ [EPrint line])%list)).
    { intros fr t1 Hfiles.
      destruct (main_run_comes_back argv w fr t1 _ _ Hroot Hfiles Hempty)
        as (cr & t3 & t4 & Hconn & Hreport & Hmain & _ & _ & _ & Hp3 & _).
      cbv zeta in Hmain.
      do 6 eexists. split; [exact Hempty|]. split; [exact Hconn|].
      split; [exact Hreport|]. split; [exact Hp3|]. exact Hmain. }
    split; [exact Hgoes|].
    intros Hr. destruct (file_results_init (argv_ssl_dir argv) w Hr) as (t1 & Hfiles & _).
    destruct (Hgoes _ _ Hfiles)
      as (t2 & cr & t3 & t4 & code & line & Hvalid & Hconn & Hreport & Hp3 & Hmain).
    do 8 eexists. split; [exact Hfiles|]. split; [exact Hvalid|].
    split; [exact Hconn|]. split; [exact Hreport|]. split; [exact Hp3|].
    exact Hmain.
Qed.

Lemma missing_ca_skips_validity_only_witness :
  stat world_no_ca (ssl_dir (init (argv_ssl_dir ["validate-certificates.py"]))) = inr true
  /\ stat world_no_ca (ca_cert_path (init (argv_ssl_dir ["validate-certificates.py"])))
     = inr false
  /\ fst (check_certificate_validity (init (argv_ssl_dir ["validate-certificates.py"]))
            world_no_ca) = inr Dict.empty
  /\ commands (trace_of (main ["validate-certificates.py"] world_no_ca)) = [].
Proof.
  split; [reflexivity|]. split; [reflexivity|].
  destruct (missing_ca_skips_validity_only ["validate-certificates.py"] world_no_ca
              eq_refl eq_refl) as (Hempty & Hquiet & _ & _).
  split; [now rewrite Hempty|exact Hquiet].
Defined.

(** C7.  For a service whose validity entry is valid, the report prints
    one validity line: with an integer [days_left] it is red below 30
    days, yellow from 30 up to 89 days and green from 90 days on, and
    names the number of days; without a [days_left] entry it is the
    plain green tick. *)
Theorem report_expiry_bands self fr vr cr w service validity :
  In service (names self) ->
  Dict.get vr service = Some validity ->
  truthy_get (Dict.get validity "valid") = true ->
  exists line,
    In (EPrint line) (trace_of (generate_report self fr vr cr w))
    /\ line = validity_line validity
    /\ (forall d,
          Dict.get validity "days_left" = Some (VInt d) ->
          (d < 30 ->
           line = "  Validity: " ++ Colors.RED ++ "✓ (expires in " ++ str_of_Z d
                  ++ " days)" ++ Colors.NC)
          /\ (30 <= d < 90 ->
              line = "  Validity: " ++ Colors.YELLOW ++ "✓ (expires in " ++ str_of_Z d
                     ++ " days)" ++ Colors.NC)
          /\ (90 <= d ->
              line = "  Validity: " ++ Colors.GREEN ++ "✓ (expires in " ++ str_of_Z d
                     ++ " days)" ++ Colors.NC))
    /\ (Dict.get validity "days_left" = None ->
        line = "  Validity: " ++ Colors.GREEN ++ "✓" ++ Colors.NC).
Proof.
  intros Hin Hget Hvalid.
  exists (validity_line validity). split; [|split; [reflexivity|split]].
  - destruct (generate_report_spec self fr vr cr w) as (t & Heq & _ & Hlines).
    rewrite Heq. cbn [trace_of snd]. specialize (Hlines service Hin).
    unfold Dict.get_default in Hlines. now rewrite Hget in Hlines.
  - intros d Hdays. unfold validity_line, Dict.get_default, band_color.
    rewrite Hvalid, Hdays. cbn [as_int str_of_value].
    repeat split; intros Hd.
    + assert (E : (d <? 30) = true) by (apply Z.ltb_lt; lia). now rewrite E.
    + assert (E1 : (d <? 30) = false) by (apply Z.ltb_ge; lia).
      assert (E2 : (d <? 90) = true) by (apply Z.ltb_lt; lia). now rewrite E1, E2.
    + assert (E1 : (d <? 30) = false) by (apply Z.ltb_ge; lia).
      assert (E2 : (d <? 90) = false) by (apply Z.ltb_ge; lia). now rewrite E1, E2.
  - intros Hnone. unfold validity_line, Dict.get_default.
    rewrite Hvalid, Hnone. reflexivity.
Qed.

Lemma report_expiry_bands_witness :
  exists line,
    In (EPrint line)
       (trace_of (generate_report (init "ssl") []
                    [("redis", [("valid", VBool true); ("expires", VStr "Jun 30 12:00:00 2027 GMT");
                                ("days_left", VInt 200)])] [] world_healthy))
    /\ line = "  Validity: " ++ Colors.GREEN ++ "✓ (expires in 200 days)" ++ Colors.NC.
Proof.
  destruct (report_expiry_bands (init "ssl") []
              [("redis", [("valid", VBool true); ("expires", VStr "Jun 30 12:00:00 2027 GMT");
                          ("days_left", VInt 200)])] [] world_healthy "redis"
              [("valid", VBool true); ("expires", VStr "Jun 30 12:00:00 2027 GMT");
               ("days_left", VInt 200)])
    as (line & Hin & _ & Hband & _);
    [simpl; tauto|reflexivity|reflexivity|].
  exists line. split; [exact Hin|].
  destruct (Hband 200 eq_refl) as (_ & _ & Hgreen).
  rewrite Hgreen by lia. reflexivity.
Defined.

(** C8.  Whatever the host, [test_ssl_connectivity] comes back with an
    entry for every service: [True] when the handshake of that service
    succeeds and [False] when it raises anything, a timeout and a refused
    connection included.  In [main], once the two checks before it have
    come back, whatever the probes meet the report is then printed with
    these results.  The two checks do come back when [exists()] never
    raises. *)
Theorem probe_result_is_handshake_outcome argv w :
  stat w (ssl_dir (init (argv_ssl_dir argv))) = inr true ->
  (forall host, exists cr t3,
     test_ssl_connectivity (init (argv_ssl_dir argv)) host w = (inr cr, t3)
     /\ Dict.keys cr = service_names
     /\ forall service port,
          In (service, port) (services (init (argv_ssl_dir argv))) ->
          (tls_handshake w host port 5 = None -> Dict.get cr service = Some true)
          /\ (forall e, tls_handshake w host port 5 = Some e ->
                        Dict.get cr service = Some false))
  /\ (forall fr t1 vr t2,
        validate_certificate_files (init (argv_ssl_dir argv)) w = (inr fr, t1) ->
        check_certificate_validity (init (argv_ssl_dir argv)) w = (inr vr, t2) ->
        exists cr t3 t4 code line,
          test_ssl_connectivity (init (argv_ssl_dir argv)) "localhost" w = (inr cr, t3)
          /\ generate_report (init (argv_ssl_dir argv)) fr vr cr w = (inr tt, t4)
          /\ main argv w
             = (inl (SystemExit code),
                (EStat (ssl_dir (init (argv_ssl_dir argv)))
                 :: t1 ++ t2 ++ t3 ++ t4 ++ [EPrint line])%list))
  /\ (readable w ->
      exists fr t1 vr t2 cr t3 t4 code line,
        test_ssl_connectivity (init (argv_ssl_dir argv)) "localhost" w = (inr cr, t3)
        /\ generate_report (init (argv_ssl_dir argv)) fr vr cr w = (inr tt, t4)
        /\ main argv w
           = (inl (SystemExit code),
              (EStat (ssl_dir (init (argv_ssl_dir argv)))
               :: t1 ++ t2 ++ t3 ++ t4 ++ [EPrint line])%list)).
Proof.
  intros Hroot. split; [|split].
  - intros host. do 2 eexists. split; [apply connectivity_results_init|].
    split; [reflexivity|].
    intros service port Hin.
    assert (Hget : Dict.get
                     (map (fun item => (fst item, probe_entry host w item))
                        (services (init (argv_ssl_dir argv)))) service
                   = Some (probe_entry host w (service, port))).
    { apply (get_map_entry fst (probe_entry host w) _ (service, port)); [|exact Hin].
      intros [s p] Hy Hkey. cbn [fst] in Hkey. subst s.
      cbn in Hy, Hin.
      repeat (destruct Hy as [Hy|Hy];
              [injection Hy as <- <-;
               repeat (destruct Hin as [Hin|Hin];
                       [first [discriminate Hin | injection Hin as <-; reflexivity]|]);
               destruct Hin|]).
      destruct Hy. }
    rewrite Hget, probe_entry_handshake.
    split; [intros ->; reflexivity|intros e ->; reflexivity].
  - intros fr t1 vr t2 Hfiles Hvalid.
    destruct (main_run_comes_back argv w fr t1 vr t2 Hroot Hfiles Hvalid)
      as (cr & t3 & t4 & Hconn & Hreport & Hmain & _).
    cbv zeta in Hmain.
    do 5 eexists. split; [exact Hconn|]. split; [exact Hreport|]. exact Hmain.
  - intros Hr.
    destruct (main_run_summary argv w Hr Hroot)
      as (fr & t1 & vr & t2 & cr & t3 & t4 & _ & _ & Hconn & Hreport & Hmain & _).
    cbv zeta in Hmain.
    do 9 eexists. split; [exact Hconn|]. split; [exact Hreport|]. exact Hmain.
Qed.

Lemma probe_result_is_handshake_outcome_witness :
  stat world_no_ca (ssl_dir (init (argv_ssl_dir ["validate-certificates.py"]))) = inr true
  /\ exists cr t3,
       test_ssl_connectivity (init "ssl") "localhost" world_no_ca = (inr cr, t3)
       /\ Dict.keys cr = service_names
       /\ Dict.get cr "rabbitmq" = Some false.
Proof.
  split; [reflexivity|].
  destruct (probe_result_is_handshake_outcome ["validate-certificates.py"] world_no_ca
              eq_refl) as (Hprobe & _ & _).
  destruct (Hprobe "localhost") as (cr & t3 & Hrun & Hkeys & Hentries).
  exists cr, t3. split; [exact Hrun|]. split; [exact Hkeys|].
  destruct (Hentries "rabbitmq" 5671) as [_ Hfail]; [simpl; tauto|].
  eapply Hfail. reflexivity.
Defined.




(** * Further properties of the script *)

(** ** File presence *)

Lemma validate_entry_files self w (Hr : readable w) service :
  validate_entry self w service
  = path_exists w (cert_path self service)
    && path_exists w (key_path self service)
    && path_exists w (ca_copy_path self service).
Proof.
  unfold cert_path, key_path, ca_copy_path. unfold_script.
  ask_world; first [unreadable|reflexivity].
Qed.

Lemma file_results_get d w service :
  In service service_names ->
  Dict.get (("ca", path_exists w (ca_cert_path (init d))
                   && path_exists w (ca_key_path (init d)))
            :: map (fun s => (s, validate_entry (init d) w s)) service_names) service
  = Some (validate_entry (init d) w service).
Proof.
  intros Hin. unfold service_names in *. cbn in Hin.
  repeat (destruct Hin as [<-|Hin]; [reflexivity|]). destruct Hin.
Qed.

(** An iteration of the file check that comes back has stored whether
    the three files of the service are there. *)
Lemma validate_entry_files_come_back self w service r r' t :
  validate_service self service r w = (inr r', t) ->
  validate_entry self w service
  = path_exists w (cert_path self service)
    && path_exists w (key_path self service)
    && path_exists w (ca_copy_path self service).
Proof.
  unfold cert_path, key_path, ca_copy_path. unfold_script.
  ask_world; intros Heq; first [discriminate Heq|reflexivity].
Qed.

(** In a loop that comes back, every iteration has come back. *)
Lemma for_each_each_comes_back {X S : Type} (body : X -> S -> M S) (w : World)
    (xs : list X) :
  forall s s' t,
    for_each xs body s w = (inr s', t) ->
    forall x, In x xs -> exists r r' t', body x r w = (inr r', t').
Proof.
  induction xs as [|y xs IH]; intros s s' t; cbn [for_each]; [intros _ x []|].
  unfold bind. destruct (body y s w) as [[e|s1] t1] eqn:Hy; [discriminate|].
  destruct (for_each xs body s1 w) as [[e|s2] t2] eqn:Hrest; [discriminate|].
  intros _ x [<-|Hx]; [eauto|exact (IH _ _ _ Hrest x Hx)].
Qed.

Lemma validate_services_come_back self w fr t :
  validate_certificate_files self w = (inr fr, t) ->
  forall service,
    In service (names self) ->
    exists r r' t', validate_service self service r w = (inr r', t').
Proof.
  unfold validate_certificate_files, names, and_then, bind, exists_, print, ret, lift,
    Dict.empty.
  cbn [fst snd].
  repeat (cbn;
          match goal with
          | |- context [path_stat w ?s] => destruct (path_stat w s) as [?|[|]]
          end);
    cbn; try discriminate;
    (destruct (for_each _ _ _ w) as [[x|fr'] t'] eqn:Hfor; try discriminate;
     intros _; exact (for_each_each_comes_back _ w _ _ _ _ Hfor)).
Qed.

(** X1.  The file results say what is on disk.  Whenever the file check
    comes back, its entry ["ca"] is true exactly when [exists()] answered
    [True] for both the CA certificate and the CA key, and the entry of
    a service is true exactly when it answered [True] for its
    certificate, its key and its copy of the CA certificate.  The check
    does come back when [exists()] never raises. *)
Theorem file_results_reflect_disk d w service :
  In service service_names ->
  (forall fr t1,
     validate_certificate_files (init d) w = (inr fr, t1) ->
     Dict.get fr "ca"
     = Some (path_exists w (ca_cert_path (init d))
             && path_exists w (ca_key_path (init d)))
     /\ Dict.get fr service
        = Some (path_exists w (cert_path (init d) service)
                && path_exists w (key_path (init d) service)
                && path_exists w (ca_copy_path (init d) service)))
  /\ (readable w ->
      exists fr t1,
        validate_certificate_files (init d) w = (inr fr, t1)
        /\ Dict.get fr "ca"
           = Some (path_exists w (ca_cert_path (init d))
                   && path_exists w (ca_key_path (init d)))
        /\ Dict.get fr service
           = Some (path_exists w (cert_path (init d) service)
                   && path_exists w (key_path (init d) service)
                   && path_exists w (ca_copy_path (init d) service))).
Proof.
  intros Hin.
  assert (Hcore : forall fr t1,
             validate_certificate_files (init d) w = (inr fr, t1) ->
             Dict.get fr "ca"
             = Some (path_exists w (ca_cert_path (init d))
                     && path_exists w (ca_key_path (init d)))
             /\ Dict.get fr service
                = Some (path_exists w (cert_path (init d) service)
                        && path_exists w (key_path (init d) service)
                        && path_exists w (ca_copy_path (init d) service))).
  { intros fr t1 Hrun.
    destruct (validate_services_come_back _ _ _ _ Hrun service)
      as (r & r' & t' & Hbody); [now rewrite names_init|].
    rewrite (file_results_come_back d w fr t1 Hrun). split; [reflexivity|].
    rewrite (file_results_get d w service Hin).
    now rewrite (validate_entry_files_come_back _ _ _ _ _ _ Hbody). }
  split; [exact Hcore|].
  intros Hr. destruct (file_results_init d w Hr) as (t1 & Hfiles & _).
  destruct (Hcore _ _ Hfiles) as [Hca Hservice].
  do 2 eexists. split; [exact Hfiles|]. split; [exact Hca|exact Hservice].
Qed.

Lemma file_results_reflect_disk_witness :
  In "minio" service_names
  /\ exists fr t1,
       validate_certificate_files (init "ssl") world_no_ca_key = (inr fr, t1)
       /\ Dict.get fr "ca" = Some false
       /\ Dict.get fr "minio" = Some true.
Proof.
  split; [simpl; tauto|].
  destruct (file_results_reflect_disk "ssl" world_no_ca_key "minio")
    as (_ & Hread); [simpl; tauto|].
  destruct (Hread (fun s => ex_intro _ _ eq_refl)) as (fr & t1 & Hrun & Hca & Hminio).
  exists fr, t1. split; [exact Hrun|]. split; [exact Hca|exact Hminio].
Defined.

(** The exit status of a run whose root directory exists, from the two
    result dictionaries. *)
Lemma main_exit_status argv w (Hr : readable w) :
  stat w (ssl_dir (init (argv_ssl_dir argv))) = inr true ->
  exists fr t1 vr t2,
    validate_certificate_files (init (argv_ssl_dir argv)) w = (inr fr, t1)
    /\ check_certificate_validity (init (argv_ssl_dir argv)) w = (inr vr, t2)
    /\ exit_status (main argv w)
       = if all (Dict.values fr)
            && all (map (fun v => truthy (Dict.get_default v "valid" (VBool false)))
                      (Dict.values vr))
         then 0 else 1.
Proof.
  intros Hroot.
  destruct (main_run_summary argv w Hr Hroot)
    as (fr & t1 & vr & t2 & cr & t3 & t4 & Hfiles & Hvalid & _ & _ & Hmain & _).
  cbv zeta in Hmain. exists fr, t1, vr, t2.
  split; [exact Hfiles|]. split; [exact Hvalid|].
  unfold exit_status. rewrite Hmain. cbn [fst]. now destruct (_ && _).
Qed.

(** X2.  The validity check is gated on the CA certificate alone: when
    [exists()] never raises and the CA certificate is there but the CA
    key is missing, every service certificate is still examined, yet the
    run ends with status 1 because the file entry ["ca"] is false. *)
Theorem missing_ca_key_still_checks_validity argv w :
  readable w ->
  stat w (ssl_dir (init (argv_ssl_dir argv))) = inr true ->
  stat w (ca_cert_path (init (argv_ssl_dir argv))) = inr true ->
  stat w (ca_key_path (init (argv_ssl_dir argv))) = inr false ->
  exists vr t2,
    check_certificate_validity (init (argv_ssl_dir argv)) w = (inr vr, t2)
    /\ Dict.keys vr = service_names
    /\ stats t2 = ca_cert_path (init (argv_ssl_dir argv))
                  :: map (cert_path (init (argv_ssl_dir argv))) service_names
    /\ exit_status (main argv w) = 1.
Proof.
  intros Hr Hroot Hca Hkey.
  destruct (main_exit_status argv w Hr Hroot)
    as (fr & t1 & vr & t2 & Hfiles & Hvalid & Hexit).
  destruct (file_results_init (argv_ssl_dir argv) w Hr) as (t1' & Hfiles' & _).
  rewrite Hfiles in Hfiles'. apply pair_inr_inj in Hfiles' as [-> _].
  rewrite (stat_true _ _ Hca), (stat_false _ _ Hkey) in Hexit. cbn in Hexit.
  rewrite (validity_results_init _ _ Hr Hca) in Hvalid.
  apply pair_inr_inj in Hvalid as [<- <-].
  do 2 eexists. split; [apply (validity_results_init _ _ Hr), Hca|].
  split; [reflexivity|]. split; [|exact Hexit].
  change (ca_cert_path (init (argv_ssl_dir argv))
          :: stats (List.concat
                      (map (check_trace (init (argv_ssl_dir argv))
                              (ca_cert_path (init (argv_ssl_dir argv))) w) service_names))
          = ca_cert_path (init (argv_ssl_dir argv))
            :: map (cert_path (init (argv_ssl_dir argv))) service_names).
  f_equal. unfold stats.
  rewrite (flat_map_concat_map _ (check_trace (init (argv_ssl_dir argv))
                                    (ca_cert_path (init (argv_ssl_dir argv))) w)).
  apply flat_map_singleton. intros s _. unfold cert_path.
  unfold_script. ask_world; reflexivity.
Qed.

Lemma world_no_ca_key_readable : readable world_no_ca_key.
Proof. intros s. eexists. reflexivity. Defined.

Lemma missing_ca_key_still_checks_validity_witness :
  stat world_no_ca_key (ssl_dir (init (argv_ssl_dir ["validate-certificates.py"])))
  = inr true
  /\ stat world_no_ca_key (ca_cert_path (init "ssl")) = inr true
  /\ stat world_no_ca_key (ca_key_path (init "ssl")) = inr false
  /\ exit_status (main ["validate-certificates.py"] world_no_ca_key) = 1.
Proof.
  do 3 (split; [reflexivity|]).
  destruct (missing_ca_key_still_checks_validity ["validate-certificates.py"]
              world_no_ca_key world_no_ca_key_readable eq_refl eq_refl eq_refl)
    as (vr & t2 & _ & _ & _ & Hexit).
  exact Hexit.
Defined.


(** ** The validity check *)

Lemma check_entry_rejected self w service :
  stat w (cert_path self service) = inr true ->
  (forall out,
     subprocess_run w (verify_cmd self service) = inr out ->
     returncode out <> 0 ->
     check_entry self (ca_cert_path self) w service
     = [("valid", VBool false); ("reason", VStr (strip (stderr out)))])
  /\ (forall e,
        subprocess_run w (verify_cmd self service) = inl e ->
        check_entry self (ca_cert_path self) w service
        = [("valid", VBool false); ("reason", VStr (exc_text e))])
  /\ (forall out e,
        subprocess_run w (verify_cmd self service) = inr out ->
        returncode out = 0 ->
        subprocess_run w (enddate_cmd self service) = inl e ->
        check_entry self (ca_cert_path self) w service
        = [("valid", VBool false); ("reason", VStr (exc_text e))]).
Proof.
  unfold verify_cmd, enddate_cmd, cert_path, stat. intros Hcert.
  repeat split.
  - intros [rc out err] Hverify Hrc. cbn [returncode stderr] in *.
    apply Z.eqb_neq in Hrc.
    unfold_script. rewrite Hcert. cbn. rewrite Hverify. cbn.
    rewrite Hrc. cbn. now rewrite String.eqb_refl.
  - intros e Hverify.
    unfold_script. rewrite Hcert. cbn. rewrite Hverify. cbn.
    now rewrite String.eqb_refl.
  - intros [rc out err] e Hverify Hrc Hexp. cbn [returncode] in Hrc. subst rc.
    unfold_script. rewrite Hcert. cbn. rewrite Hverify. cbn.
    rewrite Hexp. cbn. now rewrite String.eqb_refl.
Qed.

(** [strip] on a text that starts with a no-break space (U+00A0) and
    ends with an em space (U+2003) and a line feed. *)
Lemma strip_unicode_spaces :
  strip (String (ascii_of_nat 194) (String (ascii_of_nat 160)
           ("unable to load certificate"
            ++ String (ascii_of_nat 226) (String (ascii_of_nat 128)
                 (String (ascii_of_nat 131) NL)))))
  = "unable to load certificate".
Proof. vm_compute. reflexivity. Qed.

(** X3.  A certificate the verifier rejects (non-zero exit status) is
    reported invalid, with the verifier's diagnostic output as the
    reason, stripped of the white space around it as [str.strip] does:
    every character for which [str.isspace] holds, the no-break space
    and the other Unicode spaces included.  This holds whenever the
    validity check comes back, and it does when [exists()] never
    raises. *)
Theorem rejected_certificate_reason d w service out :
  In service service_names ->
  stat w (ca_cert_path (init d)) = inr true ->
  stat w (cert_path (init d) service) = inr true ->
  subprocess_run w (verify_cmd (init d) service) = inr out ->
  returncode out <> 0 ->
  (forall vr t,
     check_certificate_validity (init d) w = (inr vr, t) ->
     Dict.get vr service
     = Some [("valid", VBool false); ("reason", VStr (strip (stderr out)))])
  /\ (readable w ->
      exists vr t,
        check_certificate_validity (init d) w = (inr vr, t)
        /\ Dict.get vr service
           = Some [("valid", VBool false); ("reason", VStr (strip (stderr out)))]).
Proof.
  intros Hin Hca Hcert Hverify Hrc.
  destruct (check_entry_rejected (init d) w service Hcert) as (Hrej & _).
  assert (Hcore : forall vr t,
             check_certificate_validity (init d) w = (inr vr, t) ->
             Dict.get vr service
             = Some [("valid", VBool false); ("reason", VStr (strip (stderr out)))]).
  { intros vr t Hrun.
    destruct (validity_results_come_back d w vr t Hca Hrun) as [-> _].
    rewrite (validity_results_get d w service Hin). f_equal. eapply Hrej; eauto. }
  split; [exact Hcore|].
  intros Hr. pose proof (validity_results_init d w Hr Hca) as Hrun.
  do 2 eexists. split; [exact Hrun|exact (Hcore _ _ Hrun)].
Qed.

Lemma rejected_certificate_reason_witness :
  In "opencti" service_names
  /\ returncode
       (mkProc 2 ""
          ("error 20 at 0 depth lookup: unable to get local issuer certificate" ++ NL))
     <> 0
  /\ exists vr t,
       check_certificate_validity (init "ssl") world_verify_fails = (inr vr, t)
       /\ Dict.get vr "opencti"
          = Some [("valid", VBool false);
                  ("reason",
                   VStr "error 20 at 0 depth lookup: unable to get local issuer certificate")].
Proof.
  split; [simpl; tauto|]. split; [discriminate|].
  destruct (rejected_certificate_reason "ssl" world_verify_fails "opencti"
              (mkProc 2 ""
                 ("error 20 at 0 depth lookup: unable to get local issuer certificate"
                  ++ NL)))
    as (_ & Hread);
    [simpl; tauto|reflexivity|reflexivity|reflexivity|discriminate|].
  destruct (Hread (fun s => ex_intro _ true eq_refl)) as (vr & t & Hrun & Hget).
  exists vr, t. split; [exact Hrun|]. rewrite Hget. reflexivity.
Defined.

(** X4.  When [exists()] never raises and one of the two [openssl]
    invocations for a service cannot be run at all (the call raises),
    that service is reported invalid with the text of the exception as
    reason, and the loop goes on: the results still hold every
    service. *)
Theorem spawn_failure_reported_invalid d w service e :
  readable w ->
  In service service_names ->
  stat w (ca_cert_path (init d)) = inr true ->
  stat w (cert_path (init d) service) = inr true ->
  subprocess_run w (verify_cmd (init d) service) = inl e
  \/ (exists out,
        subprocess_run w (verify_cmd (init d) service) = inr out
        /\ returncode out = 0
        /\ subprocess_run w (enddate_cmd (init d) service) = inl e) ->
  exists vr t,
    check_certificate_validity (init d) w = (inr vr, t)
    /\ Dict.keys vr = service_names
    /\ Dict.get vr service
       = Some [("valid", VBool false); ("reason", VStr (exc_text e))].
Proof.
  intros Hr Hin Hca Hcert Hraise.
  destruct (check_entry_rejected (init d) w service Hcert) as (_ & Hverify & Hexp).
  do 2 eexists. split; [apply (validity_results_init d w Hr), Hca|].
  split; [apply (keys_map_entry (fun s => s))|].
  rewrite (validity_results_get d w service Hin). f_equal.
  destruct Hraise as [Hraise|(out & Hout & Hrc & Hraise)]; eauto.
Qed.

Lemma spawn_failure_reported_invalid_witness :
  In "redis" service_names
  /\ exists vr t,
       check_certificate_validity (init "ssl") world_no_openssl = (inr vr, t)
       /\ Dict.keys vr = service_names
       /\ Dict.get vr "redis"
          = Some [("valid", VBool false);
                  ("reason", VStr "[Errno 2] No such file or directory: 'openssl'")].
Proof.
  split; [simpl; tauto|].
  apply (spawn_failure_reported_invalid "ssl" world_no_openssl "redis"
           (mkExc OtherException "[Errno 2] No such file or directory: 'openssl'"));
    [intros s; eexists; reflexivity|simpl; tauto|reflexivity|reflexivity
    |left; reflexivity].
Defined.

(** X5.  When [exists()] never raises, for a certificate that verifies
    and whose end date parses, the entry is valid, carries the date
    text, and [days_left] is the number of whole days from now to the
    expiry, rounded down: it is negative once the expiry lies in the
    past. *)
Theorem days_left_is_floor d w service out exp text expiry :
  readable w ->
  In service service_names ->
  stat w (ca_cert_path (init d)) = inr true ->
  stat w (cert_path (init d) service) = inr true ->
  subprocess_run w (verify_cmd (init d) service) = inr out ->
  returncode out = 0 ->
  subprocess_run w (enddate_cmd (init d) service) = inr exp ->
  returncode exp = 0 ->
  nth_error (split "=" (strip (stdout exp))) 1 = Some text ->
  strptime w text enddate_format = inr expiry ->
  exists vr t days,
    check_certificate_validity (init d) w = (inr vr, t)
    /\ Dict.get vr service
       = Some [("valid", VBool true); ("expires", VStr text); ("days_left", VInt days)]
    /\ days * microseconds_per_day <= expiry - datetime_now w
       < (days + 1) * microseconds_per_day
    /\ (expiry < datetime_now w -> days < 0).
Proof.
  intros Hr Hin Hca Hcert Hverify Hrc Hexp Hrc' Htext Hparse.
  destruct (check_entry_verified (init d) w service out Hcert Hverify Hrc)
    as (_ & _ & _ & Hok).
  exists (map (fun s => (s, check_entry (init d) (ca_cert_path (init d)) w s)) service_names).
  eexists. exists ((expiry - datetime_now w) / microseconds_per_day).
  split; [apply (validity_results_init d w Hr), Hca|].
  split.
  { rewrite (validity_results_get d w service Hin). f_equal. eapply Hok; eauto. }
  assert (Hday : 0 < microseconds_per_day) by (unfold microseconds_per_day; lia).
  pose proof (Z.div_mod (expiry - datetime_now w) microseconds_per_day ltac:(lia)) as Hdiv.
  pose proof (Z.mod_pos_bound (expiry - datetime_now w) microseconds_per_day Hday) as Hmod.
  split; [nia|]. intros Hpast. nia.
Qed.

Lemma days_left_is_floor_witness :
  exists vr t,
    check_certificate_validity (init "ssl") world_expiring = (inr vr, t)
    /\ Dict.get vr "rabbitmq"
       = Some [("valid", VBool true); ("expires", VStr "Jun 30 12:00:00 2027 GMT");
               ("days_left", VInt 10)].
Proof.
  destruct (days_left_is_floor "ssl" world_expiring "rabbitmq" (mkProc 0 "OK" "")
              (mkProc 0 ("notAfter=Jun 30 12:00:00 2027 GMT" ++ NL) "")
              "Jun 30 12:00:00 2027 GMT" (11 * microseconds_per_day))
    as (vr & t & days & Hrun & Hget & Hfloor & _);
    [intros s; eexists; reflexivity|simpl; tauto|reflexivity|reflexivity|reflexivity
    |reflexivity|reflexivity|reflexivity|reflexivity|reflexivity|].
  exists vr, t. split; [exact Hrun|]. rewrite Hget.
  assert (days = 10) as ->; [|reflexivity].
  cbn [datetime_now world_expiring] in Hfloor. unfold microseconds_per_day in Hfloor. lia.
Defined.

Lemma check_entry_shape self ca_cert w (Hr : readable w) service :
  valid_shape (check_entry self ca_cert w service)
  \/ invalid_shape (check_entry self ca_cert w service).
Proof.
  unfold valid_shape, invalid_shape. unfold_script.
  ask_world; cbn;
    first [ unreadable
          | left; repeat split; eauto; fail
          | right; repeat split; eauto; fail ].
Qed.

(** X6.  When [exists()] never raises, every entry of the validity
    results has one of two shapes: valid with an [expires] text, no
    [reason] and at most an integer [days_left]; or invalid with a
    [reason] text and neither [expires] nor [days_left]. *)
Theorem validity_entries_well_shaped d w :
  readable w ->
  exists vr t,
    check_certificate_validity (init d) w = (inr vr, t)
    /\ forall service entry,
         In (service, entry) vr -> valid_shape entry \/ invalid_shape entry.
Proof.
  intros Hr. pose proof (stat_readable w Hr (ca_cert_path (init d))) as Hstat.
  destruct (path_exists w (ca_cert_path (init d))) eqn:Hca.
  - do 2 eexists. split; [apply (validity_results_init d w Hr), Hstat|].
    intros service entry Hin. apply in_map_iff in Hin as (s & [= <- <-] & _).
    apply check_entry_shape, Hr.
  - do 2 eexists. split; [apply check_certificate_validity_no_ca, Hstat|].
    intros service entry [].
Qed.

Lemma validity_entries_well_shaped_witness :
  exists vr t,
    check_certificate_validity (init "ssl") world_bad_date = (inr vr, t)
    /\ forall service entry,
         In (service, entry) vr -> valid_shape entry \/ invalid_shape entry.
Proof.
  apply (validity_entries_well_shaped "ssl" world_bad_date).
  intros s. eexists. reflexivity.
Defined.

Lemma check_trace_expected_commands self w service :
  commands (check_trace self (ca_cert_path self) w service)
  = expected_commands self w service.
Proof.
  unfold expected_commands, verify_cmd, enddate_cmd, cert_path.
  unfold_script. ask_world; reflexivity.
Qed.

(** X7.  When [exists()] never raises, the commands of the validity
    check are, in order: for each service of the table in turn, nothing
    when its certificate file is absent, the verification alone when it
    fails or cannot be started, the verification followed by the
    end-date query when it succeeds.  No other command is run, and none
    at all without the CA certificate. *)
Theorem validity_check_commands d w :
  readable w ->
  exists vr t,
    check_certificate_validity (init d) w = (inr vr, t)
    /\ commands t
       = if path_exists w (ca_cert_path (init d))
         then flat_map (expected_commands (init d) w) service_names
         else [].
Proof.
  intros Hr. pose proof (stat_readable w Hr (ca_cert_path (init d))) as Hstat.
  destruct (path_exists w (ca_cert_path (init d))) eqn:Hca.
  - do 2 eexists. split; [apply (validity_results_init d w Hr), Hstat|].
    change (commands (List.concat
                        (map (check_trace (init d) (ca_cert_path (init d)) w) service_names))
            = flat_map (expected_commands (init d) w) service_names).
    unfold commands.
    rewrite (flat_map_concat_map _ (check_trace (init d) (ca_cert_path (init d)) w)).
    apply flat_map_ext. intros s. apply check_trace_expected_commands.
  - do 2 eexists. split; [apply check_certificate_validity_no_ca, Hstat|]. reflexivity.
Qed.

Lemma validity_check_commands_witness :
  exists vr t,
    check_certificate_validity (init "ssl") world_verify_fails = (inr vr, t)
    /\ commands t
       = [verify_cmd (init "ssl") "redis"; verify_cmd (init "ssl") "elasticsearch";
          verify_cmd (init "ssl") "minio"; verify_cmd (init "ssl") "rabbitmq";
          verify_cmd (init "ssl") "opencti"].
Proof.
  destruct (validity_check_commands "ssl" world_verify_fails) as (vr & t & Hrun & Hcmds);
    [intros s; eexists; reflexivity|].
  exists vr, t. split; [exact Hrun|]. rewrite Hcmds. reflexivity.
Defined.

(** ** The text of the end date *)

Lemma split_no_equals s : no_equals s = true -> split "=" s = [s].
Proof.
  induction s as [|c s IH]; simpl; intros H; [reflexivity|].
  apply andb_true_iff in H as [Hc Hs]. apply negb_true_iff in Hc.
  rewrite Hc, (IH Hs). reflexivity.
Qed.

Lemma split_at_equals key rest :
  no_equals key = true ->
  split "=" (key ++ String "=" rest) = key :: split "=" rest.
Proof.
  induction key as [|c key IH]; simpl; intros H; [reflexivity|].
  apply andb_true_iff in H as [Hc Hs]. apply negb_true_iff in Hc.
  rewrite Hc, (IH Hs). reflexivity.
Qed.

Lemma split_nonempty s : split "=" s <> [].
Proof.
  destruct s as [|c s]; simpl; [discriminate|].
  destruct (Ascii.eqb c "="); [discriminate|]. destruct (split "=" s); discriminate.
Qed.

(** X8.  When [exists()] never raises, the [expires] text is what the
    end-date query printed between its first and its second [=] sign:
    for output that reads
    [key=date] once stripped, with no [=] in the key, it is the whole
    date when the date has no [=] sign, and the part of the date before
    its first [=] otherwise. *)
Theorem expires_text_after_first_equals d w service out exp key date expiry :
  readable w ->
  In service service_names ->
  stat w (ca_cert_path (init d)) = inr true ->
  stat w (cert_path (init d) service) = inr true ->
  subprocess_run w (verify_cmd (init d) service) = inr out ->
  returncode out = 0 ->
  subprocess_run w (enddate_cmd (init d) service) = inr exp ->
  returncode exp = 0 ->
  strip (stdout exp) = key ++ String "=" date ->
  no_equals key = true ->
  strptime w (hd "" (split "=" date)) enddate_format = inr expiry ->
  exists vr t entry,
    check_certificate_validity (init d) w = (inr vr, t)
    /\ Dict.get vr service = Some entry
    /\ Dict.get entry "expires" = Some (VStr (hd "" (split "=" date)))
    /\ (no_equals date = true -> Dict.get entry "expires" = Some (VStr date)).
Proof.
  intros Hr Hin Hca Hcert Hverify Hrc Hexp Hrc' Hstrip Hkey Hparse.
  destruct (check_entry_verified (init d) w service out Hcert Hverify Hrc)
    as (_ & _ & _ & Hok).
  assert (Htext : nth_error (split "=" (strip (stdout exp))) 1
                  = Some (hd "" (split "=" date))).
  { rewrite Hstrip, (split_at_equals key date Hkey).
    pose proof (split_nonempty date). destruct (split "=" date); [congruence|reflexivity]. }
  do 2 eexists.
  exists [("valid", VBool true); ("expires", VStr (hd "" (split "=" date)));
          ("days_left", VInt ((expiry - datetime_now w) / microseconds_per_day))].
  split; [apply (validity_results_init d w Hr), Hca|].
  split.
  { rewrite (validity_results_get d w service Hin). f_equal.
    eapply Hok; eauto. }
  split; [reflexivity|].
  intros Hdate. rewrite (split_no_equals date Hdate). reflexivity.
Qed.

Lemma expires_text_after_first_equals_witness :
  exists vr t entry,
    check_certificate_validity (init "ssl") world_healthy = (inr vr, t)
    /\ Dict.get vr "elasticsearch" = Some entry
    /\ Dict.get entry "expires" = Some (VStr "Jun 30 12:00:00 2027 GMT").
Proof.
  destruct (expires_text_after_first_equals "ssl" world_healthy "elasticsearch"
              (mkProc 0 "OK" "")
              (mkProc 0 ("notAfter=Jun 30 12:00:00 2027 GMT" ++ NL) "")
              "notAfter" "Jun 30 12:00:00 2027 GMT" (201 * microseconds_per_day))
    as (vr & t & entry & Hrun & Hget & _ & Hdate);
    [intros s; eexists; reflexivity|simpl; tauto|reflexivity|reflexivity|reflexivity
    |reflexivity|reflexivity|reflexivity|reflexivity|reflexivity|reflexivity|].
  exists vr, t, entry. split; [exact Hrun|]. split; [exact Hget|].
  apply Hdate. reflexivity.
Defined.


(** ** The exit status, end to end *)

Lemma all_values_map {V : Type} (p : V -> bool) (entry : string -> V) (ks : list string) :
  forallb p (Dict.values (map (fun s => (s, entry s)) ks)) = true
  <-> (forall s, In s ks -> p (entry s) = true).
Proof.
  unfold Dict.values. rewrite map_map. cbn [snd]. rewrite forallb_forall. split.
  - intros H s Hin. apply H. apply in_map_iff. eauto.
  - intros H x Hin. apply in_map_iff in Hin as (s & <- & Hin). auto.
Qed.

Lemma all_valid_map (f : Dict.t Value -> bool) (entry : string -> Dict.t Value)
    (ks : list string) :
  all (map f (Dict.values (map (fun s => (s, entry s)) ks))) = true
  <-> (forall s, In s ks -> f (entry s) = true).
Proof.
  unfold all, Dict.values. rewrite !map_map. cbn [snd]. rewrite forallb_forall. split.
  - intros H s Hin. apply H. apply in_map_iff. eauto.
  - intros H x Hin. apply in_map_iff in Hin as (s & <- & Hin). auto.
Qed.

Lemma check_entry_truthy self w service :
  truthy (Dict.get_default (check_entry self (ca_cert_path self) w service) "valid"
            (VBool false)) = true ->
  stat w (cert_path self service) = inr true
  /\ exists out,
       subprocess_run w (verify_cmd self service) = inr out /\ returncode out = 0.
Proof.
  unfold verify_cmd, cert_path. unfold_script.
  ask_world; cbn; intros H; try discriminate H;
    (split; [reflexivity|eexists; split; [reflexivity|cbn; now apply Z.eqb_eq]]).
Qed.

(** The exit test of a run whose root directory and CA certificate
    exist, service by service. *)
Lemma exit_0_iff_entries argv w (Hr : readable w) :
  stat w (ssl_dir (init (argv_ssl_dir argv))) = inr true ->
  exit_status (main argv w) = 0
  <-> path_exists w (ca_cert_path (init (argv_ssl_dir argv))) = true
      /\ path_exists w (ca_key_path (init (argv_ssl_dir argv))) = true
      /\ forall service,
           In service service_names ->
           validate_entry (init (argv_ssl_dir argv)) w service = true
           /\ truthy (Dict.get_default
                        (check_entry (init (argv_ssl_dir argv))
                           (ca_cert_path (init (argv_ssl_dir argv))) w service)
                        "valid" (VBool false)) = true.
Proof.
  intros Hroot.
  destruct (main_exit_status argv w Hr Hroot)
    as (fr & t1 & vr & t2 & Hfiles & Hvalid & Hexit).
  destruct (file_results_init (argv_ssl_dir argv) w Hr) as (t1' & Hfiles' & _).
  rewrite Hfiles in Hfiles'. apply pair_inr_inj in Hfiles' as [-> _].
  rewrite Hexit, if_0_iff, andb_true_iff. clear Hexit Hfiles.
  unfold all at 1.
  change (Dict.values ((?k, ?c) :: ?rest)) with (c :: Dict.values rest).
  cbn [forallb]. rewrite !andb_true_iff, (all_values_map (fun b => b)).
  pose proof (stat_readable w Hr (ca_cert_path (init (argv_ssl_dir argv)))) as Hstat.
  destruct (path_exists w (ca_cert_path (init (argv_ssl_dir argv)))) eqn:Hca.
  - rewrite (validity_results_init _ _ Hr Hstat) in Hvalid.
    apply pair_inr_inj in Hvalid as [<- _].
    rewrite all_valid_map. split.
    + intros [[[_ Hkey] Hf] Hv]. repeat split; auto.
    + intros (_ & Hkey & H). repeat split; auto; intros s Hs; apply H, Hs.
  - split; [intros [[[H _] _] _]; discriminate|intros [H _]; discriminate].
Qed.

(** *** From a world in which [exists()] may raise to one in which it
    answers *)

Lemma repair_readable w : readable (repair w).
Proof. intros s. eexists. reflexivity. Qed.

Lemma stat_repair w p : stat (repair w) p = inr (path_exists w p).
Proof. reflexivity. Qed.

Lemma path_exists_stat w p : path_exists w p = true -> stat w p = inr true.
Proof. unfold path_exists. destruct (stat w p) as [e|[|]]; congruence. Qed.

(** An iteration that comes back does the same once [exists()] is made
    to answer: it never saw it raise. *)
Lemma validate_service_repair self service r w r' t :
  validate_service self service r w = (inr r', t) ->
  validate_service self service r (repair w) = (inr r', t).
Proof.
  unfold repair. unfold_script.
  ask_world; intros Heq; first [discriminate Heq|exact Heq].
Qed.

Lemma check_service_repair self ca_cert service r w r' t :
  check_service self ca_cert service r w = (inr r', t) ->
  check_service self ca_cert service r (repair w) = (inr r', t).
Proof.
  unfold repair. unfold_script.
  ask_world; intros Heq; first [discriminate Heq|exact Heq].
Qed.

Lemma for_each_returns_transfer {X S : Type} (body : X -> S -> M S) (w w' : World) :
  (forall x s s' t, body x s w = (inr s', t) -> body x s w' = (inr s', t)) ->
  forall xs s s' t,
    for_each xs body s w = (inr s', t) -> for_each xs body s w' = (inr s', t).
Proof.
  intros Hbody. induction xs as [|x xs IH]; intros s s' t; cbn [for_each];
    [intros H; exact H|].
  unfold bind. destruct (body x s w) as [[e|s1] t1] eqn:Hx; [discriminate|].
  rewrite (Hbody _ _ _ _ Hx).
  destruct (for_each xs body s1 w) as [[e|s2] t2] eqn:Hrest; [discriminate|].
  rewrite (IH _ _ _ Hrest). intros H; exact H.
Qed.

Lemma validate_certificate_files_repair self w fr t :
  validate_certificate_files self w = (inr fr, t) ->
  validate_certificate_files self (repair w) = (inr fr, t).
Proof.
  pose proof (for_each_returns_transfer (validate_service self) w (repair w)
                (fun x s s' t => validate_service_repair self x s w s' t)) as Hloop.
  unfold validate_certificate_files, and_then, bind, exists_, print, ret, lift.
  unfold repair at 1 2. cbn [path_stat].
  repeat (cbn;
          match goal with
          | |- context [path_stat w ?s] => destruct (path_stat w s) as [?|[|]]
          end);
    cbn; try discriminate;
    (destruct (for_each _ _ _ w) as [[x|fr'] t'] eqn:Hfor; try discriminate;
     rewrite (Hloop _ _ _ _ Hfor); intros H; exact H).
Qed.

Lemma check_certificate_validity_repair self w vr t :
  check_certificate_validity self w = (inr vr, t) ->
  check_certificate_validity self (repair w) = (inr vr, t).
Proof.
  pose proof (for_each_returns_transfer (check_service self (ssl_dir self // "ca" // "ca.crt"))
                w (repair w)
                (fun x s s' t => check_service_repair self _ x s w s' t)) as Hloop.
  unfold check_certificate_validity, bind, exists_, print, ret, lift.
  unfold repair at 1. cbn [path_stat].
  repeat (cbn;
          match goal with
          | |- context [path_stat w ?s] => destruct (path_stat w s) as [?|[|]]
          end);
    cbn; try discriminate; try (intros H; exact H);
    (destruct (for_each _ _ _ w) as [[x|vr'] t'] eqn:Hfor; try discriminate;
     rewrite (Hloop _ _ _ _ Hfor); intros H; exact H).
Qed.

(** A run that exits with status 0 still does so once [exists()] is
    made to answer. *)
Lemma exit_0_repair argv w :
  stat w (ssl_dir (init (argv_ssl_dir argv))) = inr true ->
  exit_status (main argv w) = 0 ->
  exit_status (main argv (repair w)) = 0.
Proof.
  intros Hroot. rewrite (main_outcome argv w Hroot).
  rewrite (main_outcome argv (repair w))
    by (rewrite stat_repair; f_equal; now apply stat_true).
  destruct (validate_certificate_files _ w) as [[e|fr] t1] eqn:Hfiles; [discriminate|].
  destruct (check_certificate_validity _ w) as [[e|vr] t2] eqn:Hvalid; [discriminate|].
  rewrite (validate_certificate_files_repair _ _ _ _ Hfiles),
    (check_certificate_validity_repair _ _ _ _ Hvalid).
  intros H; exact H.
Qed.

Lemma validate_entry_repair self w service :
  validate_entry self (repair w) service = true ->
  stat w (cert_path self service) = inr true
  /\ stat w (key_path self service) = inr true
  /\ stat w (ca_copy_path self service) = inr true.
Proof.
  rewrite (validate_entry_files self (repair w) (repair_readable w)).
  unfold path_exists at 1 2 3. rewrite !stat_repair.
  intros H. apply andb_true_iff in H as [H Hcopy]. apply andb_true_iff in H as [Hcert Hkey].
  repeat split; now apply path_exists_stat.
Qed.

(** X9.  A run can only exit with status 0 if the CA certificate and key
    exist and, for every service, the certificate, the key and the CA
    copy exist and the verifier accepted the certificate with status 0:
    each of these [exists()] calls answered [True].  This holds in every
    world, also where [exists()] may raise. *)
Theorem exit_0_needs_assets_and_verification argv w service :
  stat w (ssl_dir (init (argv_ssl_dir argv))) = inr true ->
  exit_status (main argv w) = 0 ->
  In service service_names ->
  stat w (ca_cert_path (init (argv_ssl_dir argv))) = inr true
  /\ stat w (ca_key_path (init (argv_ssl_dir argv))) = inr true
  /\ stat w (cert_path (init (argv_ssl_dir argv)) service) = inr true
  /\ stat w (key_path (init (argv_ssl_dir argv)) service) = inr true
  /\ stat w (ca_copy_path (init (argv_ssl_dir argv)) service) = inr true
  /\ exists out,
       subprocess_run w (verify_cmd (init (argv_ssl_dir argv)) service) = inr out
       /\ returncode out = 0.
Proof.
  intros Hroot Hexit Hin.
  apply (exit_0_repair argv w Hroot) in Hexit.
  apply (exit_0_iff_entries argv (repair w) (repair_readable w)) in Hexit
      as (Hca & Hkey & Hall);
    [|rewrite stat_repair; f_equal; now apply stat_true].
  destruct (Hall service Hin) as [Hfiles Hvalid].
  apply validate_entry_repair in Hfiles as (Hcert & Hk & Hcopy).
  apply check_entry_truthy in Hvalid as [_ Hout].
  unfold path_exists in Hca, Hkey. rewrite stat_repair in Hca, Hkey.
  repeat split; try assumption; now apply path_exists_stat.
Qed.

Lemma exit_0_needs_assets_and_verification_witness :
  stat world_healthy (ssl_dir (init (argv_ssl_dir ["validate-certificates.py"])))
  = inr true
  /\ exit_status (main ["validate-certificates.py"] world_healthy) = 0
  /\ In "redis" service_names
  /\ stat world_healthy (key_path (init "ssl") "redis") = inr true.
Proof.
  split; [reflexivity|]. split; [vm_compute; reflexivity|]. split; [simpl; tauto|].
  destruct (exit_0_needs_assets_and_verification ["validate-certificates.py"]
              world_healthy "redis" eq_refl) as (_ & _ & _ & Hkey & _);
    [vm_compute; reflexivity|simpl; tauto|exact Hkey].
Defined.

Lemma for_each_ext_in {X S : Type} (body : X -> S -> M S) (w w' : World) (xs : list X) :
  (forall x s, In x xs -> body x s w = body x s w') ->
  forall s, for_each xs body s w = for_each xs body s w'.
Proof.
  induction xs as [|x xs IH]; intros Hbody s; cbn [for_each]; [reflexivity|].
  unfold bind. rewrite (Hbody x s (or_introl eq_refl)).
  destruct (body x s w') as [[e|s'] t]; [reflexivity|].
  rewrite (IH (fun y u Hy => Hbody y u (or_intror Hy))). reflexivity.
Qed.

(** Where the files an iteration asks about are known to exist,
    [exists()] does not raise in it. *)
Lemma validate_service_present self service r w :
  stat w (cert_path self service) = inr true ->
  stat w (key_path self service) = inr true ->
  stat w (ca_copy_path self service) = inr true ->
  validate_service self service r w = validate_service self service r (repair w).
Proof.
  unfold cert_path, key_path, ca_copy_path, stat. intros Hcert Hkey Hcopy.
  unfold repair. unfold_script. repeat (cbn; rewrite ?Hcert, ?Hkey, ?Hcopy).
  reflexivity.
Qed.

Lemma check_service_present self ca_cert service r w :
  stat w (cert_path self service) = inr true ->
  check_service self ca_cert service r w = check_service self ca_cert service r (repair w).
Proof.
  unfold cert_path, stat. intros Hcert.
  unfold repair. unfold_script. repeat (cbn; rewrite ?Hcert).
  ask_world; reflexivity.
Qed.

Lemma checks_present self w :
  stat w (ca_cert_path self) = inr true ->
  stat w (ca_key_path self) = inr true ->
  (forall service,
     In service (names self) ->
     stat w (cert_path self service) = inr true
     /\ stat w (key_path self service) = inr true
     /\ stat w (ca_copy_path self service) = inr true) ->
  validate_certificate_files self w = validate_certificate_files self (repair w)
  /\ check_certificate_validity self w = check_certificate_validity self (repair w).
Proof.
  unfold ca_cert_path, ca_key_path, stat, names. intros Hca Hkey Hall. split.
  - unfold validate_certificate_files, and_then, bind, exists_, print, ret, lift.
    unfold repair at 1 2. repeat (cbn; rewrite ?Hca, ?Hkey).
    rewrite (for_each_ext_in (validate_service self) w (repair w)); [reflexivity|].
    intros x s Hx. destruct (Hall x Hx) as (H1 & H2 & H3).
    now apply validate_service_present.
  - unfold check_certificate_validity, bind, exists_, print, ret, lift.
    unfold repair at 1. repeat (cbn; rewrite ?Hca).
    rewrite (for_each_ext_in (check_service self _) w (repair w)); [reflexivity|].
    intros x s Hx. destruct (Hall x Hx) as (H1 & _).
    now apply check_service_present.
Qed.

Lemma complete_deployment_readable argv w (Hr : readable w) :
  stat w (ssl_dir (init (argv_ssl_dir argv))) = inr true ->
  stat w (ca_cert_path (init (argv_ssl_dir argv))) = inr true ->
  stat w (ca_key_path (init (argv_ssl_dir argv))) = inr true ->
  (forall service,
     In service service_names ->
     stat w (cert_path (init (argv_ssl_dir argv)) service) = inr true
     /\ stat w (key_path (init (argv_ssl_dir argv)) service) = inr true
     /\ stat w (ca_copy_path (init (argv_ssl_dir argv)) service) = inr true
     /\ exists out exp,
          subprocess_run w (verify_cmd (init (argv_ssl_dir argv)) service) = inr out
          /\ returncode out = 0
          /\ subprocess_run w (enddate_cmd (init (argv_ssl_dir argv)) service) = inr exp
          /\ (returncode exp <> 0
              \/ exists text expiry,
                   returncode exp = 0
                   /\ nth_error (split "=" (strip (stdout exp))) 1 = Some text
                   /\ strptime w text enddate_format = inr expiry)) ->
  exit_status (main argv w) = 0.
Proof.
  intros Hroot Hca Hkey Hall.
  apply (exit_0_iff_entries argv w Hr Hroot).
  split; [now apply stat_true|]. split; [now apply stat_true|].
  intros service Hin.
  destruct (Hall service Hin) as (Hcert & Hk & Hcopy & out & exp & Hverify & Hrc & Hexp & Hdate).
  split.
  - rewrite (validate_entry_files _ w Hr).
    rewrite (stat_true _ _ Hcert), (stat_true _ _ Hk), (stat_true _ _ Hcopy). reflexivity.
  - destruct (check_entry_verified _ w service out Hcert Hverify Hrc)
      as (Hunknown & _ & _ & Hok).
    destruct Hdate as [Hnz|(text & expiry & Hz & Htext & Hparse)].
    + rewrite (Hunknown exp Hexp Hnz). reflexivity.
    + rewrite (Hok exp text expiry Hexp Hz Htext Hparse). reflexivity.
Qed.

(** X10.  A complete deployment passes: when the root, the CA
    certificate and key and the three files of every service exist, and
    every certificate verifies with status 0 and its end date either
    cannot be queried (non-zero status) or is printed and parses, the run
    exits with status 0.  Nothing is assumed about [exists()] on other
    paths: the run asks about no other. *)
Theorem complete_deployment_exits_0 argv w :
  stat w (ssl_dir (init (argv_ssl_dir argv))) = inr true ->
  stat w (ca_cert_path (init (argv_ssl_dir argv))) = inr true ->
  stat w (ca_key_path (init (argv_ssl_dir argv))) = inr true ->
  (forall service,
     In service service_names ->
     stat w (cert_path (init (argv_ssl_dir argv)) service) = inr true
     /\ stat w (key_path (init (argv_ssl_dir argv)) service) = inr true
     /\ stat w (ca_copy_path (init (argv_ssl_dir argv)) service) = inr true
     /\ exists out exp,
          subprocess_run w (verify_cmd (init (argv_ssl_dir argv)) service) = inr out
          /\ returncode out = 0
          /\ subprocess_run w (enddate_cmd (init (argv_ssl_dir argv)) service) = inr exp
          /\ (returncode exp <> 0
              \/ exists text expiry,
                   returncode exp = 0
                   /\ nth_error (split "=" (strip (stdout exp))) 1 = Some text
                   /\ strptime w text enddate_format = inr expiry)) ->
  exit_status (main argv w) = 0.
Proof.
  intros Hroot Hca Hkey Hall.
  assert (Hsame : exit_status (main argv w) = exit_status (main argv (repair w))).
  { rewrite (main_outcome argv w Hroot).
    rewrite (main_outcome argv (repair w))
      by (rewrite stat_repair; f_equal; now apply stat_true).
    destruct (checks_present (init (argv_ssl_dir argv)) w Hca Hkey) as [<- <-];
      [|reflexivity].
    intros service Hin. rewrite names_init in Hin.
    destruct (Hall service Hin) as (H1 & H2 & H3 & _). auto. }
  rewrite Hsame.
  apply (complete_deployment_readable argv (repair w) (repair_readable w));
    try (rewrite stat_repair; f_equal; now apply stat_true).
  intros service Hin.
  destruct (Hall service Hin) as (H1 & H2 & H3 & H4).
  repeat split; try (rewrite stat_repair; f_equal; now apply stat_true).
  exact H4.
Qed.

Lemma complete_deployment_exits_0_witness :
  exit_status (main ["validate-certificates.py"] world_healthy) = 0.
Proof.
  apply complete_deployment_exits_0; [reflexivity|reflexivity|reflexivity|].
  intros service Hin. unfold service_names in Hin. cbn in Hin.
  repeat (destruct Hin as [<-|Hin];
          [do 3 (split; [reflexivity|]);
           exists (mkProc 0 "OK" ""),
                  (mkProc 0 ("notAfter=Jun 30 12:00:00 2027 GMT" ++ NL) "");
           do 3 (split; [reflexivity|]);
           right; exists "Jun 30 12:00:00 2027 GMT", (201 * microseconds_per_day);
           repeat split; reflexivity|]).
  destruct Hin.
Defined.

(** ** The log of the connectivity probes *)

Lemma probe_trace_lines host w item :
  probe_trace host w item
  = [EConnect host (snd item) 5; EPrint (probe_line host w item)].
Proof.
  destruct item as [service port].
  unfold probe_line, probe_failure_line. unfold_script. ask_world; reflexivity.
Qed.

Lemma concat_map_flat_map {A B : Type} (f g : A -> list B) (xs : list A) :
  (forall x, f x = g x) -> List.concat (map f xs) = flat_map g xs.
Proof.
  intros Hfg. induction xs as [|x xs IH]; simpl; [reflexivity|]. now rewrite Hfg, IH.
Qed.

Lemma infix_flat_map {A B : Type} (f : A -> list B) (xs : list A) x (pre : list B) :
  In x xs -> infix (f x) (pre ++ flat_map f xs)%list.
Proof.
  intros Hin. apply in_split in Hin as (l1 & l2 & ->).
  exists (pre ++ flat_map f l1)%list, (flat_map f l2).
  rewrite flat_map_app. simpl. now rewrite <- !app_assoc.
Qed.

(** X11.  The log of the connectivity check is the header followed, for
    each service of the table in turn, by one connection attempt and
    exactly one line.  The line tells the outcomes apart: a success
    line, the "connection timeout" warning for a timeout, the
    "connection refused" warning for a refused connection, and for any
    other exception an error line with its text. *)
Theorem probe_log_classifies_outcome d host w service port :
  In (service, port) (services (init d)) ->
  exists cr t,
    test_ssl_connectivity (init d) host w = (inr cr, t)
    /\ t = EPrint (NL ++ Colors.BLUE ++ "Testing SSL connectivity..." ++ Colors.NC)
           :: flat_map (fun item => [EConnect host (snd item) 5;
                                     EPrint (probe_line host w item)])
                (services (init d))
    /\ infix [EConnect host port 5; EPrint (probe_line host w (service, port))] t
    /\ (tls_handshake w host port 5 = None ->
        probe_line host w (service, port)
        = Colors.GREEN ++ "✓ " ++ service ++ " SSL connection successful" ++ Colors.NC)
    /\ (forall e,
          tls_handshake w host port 5 = Some e ->
          (exc_class e = SocketTimeout ->
           probe_line host w (service, port)
           = Colors.YELLOW ++ "⚠ " ++ service
             ++ " connection timeout (service may be down)" ++ Colors.NC)
          /\ (exc_class e = ConnectionRefusedError ->
              probe_line host w (service, port)
              = Colors.YELLOW ++ "⚠ " ++ service
                ++ " connection refused (service not running)" ++ Colors.NC)
          /\ (exc_class e <> SocketTimeout ->
              exc_class e <> ConnectionRefusedError ->
              probe_line host w (service, port)
              = Colors.RED ++ "✗ " ++ service ++ " SSL connection failed: "
                ++ exc_text e ++ Colors.NC)).
Proof.
  intros Hin. do 2 eexists. split; [apply connectivity_results_init|].
  rewrite (concat_map_flat_map _ _ _ (probe_trace_lines host w)).
  split; [reflexivity|]. split.
  { apply (infix_flat_map
             (fun item => [EConnect host (snd item) 5; EPrint (probe_line host w item)])
             (services (init d)) (service, port) [EPrint _] Hin). }
  unfold probe_line, probe_failure_line. cbn [fst snd]. split.
  - intros ->. reflexivity.
  - intros e ->. repeat split.
    + intros ->. reflexivity.
    + intros ->. reflexivity.
    + intros Hn1 Hn2. destruct (exc_class e); try reflexivity; congruence.
Qed.

Lemma probe_log_classifies_outcome_witness :
  In ("minio", 9000) (services (init "ssl"))
  /\ exists cr t,
       test_ssl_connectivity (init "ssl") "localhost" world_expiring = (inr cr, t)
       /\ infix [EConnect "localhost" 9000 5;
                 EPrint (Colors.YELLOW ++ "⚠ minio connection timeout (service may be down)"
                         ++ Colors.NC)] t.
Proof.
  split; [simpl; tauto|].
  destruct (probe_log_classifies_outcome "ssl" "localhost" world_expiring "minio" 9000)
    as (cr & t & Hrun & _ & Hinfix & _ & Hfail); [simpl; tauto|].
  exists cr, t. split; [exact Hrun|].
  destruct (Hfail (mkExc SocketTimeout "timed out") eq_refl) as (Htimeout & _).
  rewrite (Htimeout eq_refl) in Hinfix. exact Hinfix.
Defined.

(** ** The report, line by line *)

Lemma generate_report_trace self fr vr cr w :
  generate_report self fr vr cr w
  = (inr tt,
     ([EPrint (NL ++ BLUE ++ "Certificate Validation Report" ++ NC);
       EPrint (BLUE ++ "============================" ++ NC);
       EPrint (NL ++ "Summary:");
       EPrint ("Certificate files: " ++ str_of_Z (files_ok fr) ++ "/"
               ++ str_of_Z (total_services self + 1));
       EPrint ("Valid certificates: " ++ str_of_Z (certs_valid vr) ++ "/"
               ++ str_of_Z (total_services self));
       EPrint ("SSL connections: " ++ str_of_Z (connections_ok cr) ++ "/"
               ++ str_of_Z (total_services self));
       EPrint (NL ++ "Detailed Results:")]
      ++ List.concat (map (fun service => trace_of (report_service fr vr cr service tt w))
                        (names self))
      ++ [EPrint (NL ++ BLUE ++ "Recommendations:" ++ NC)]
      ++ (if files_ok fr <? total_services self + 1
          then [EPrint (YELLOW
                        ++ "• Run generate-ssl-certs.sh to create missing certificates"
                        ++ NC)]
          else [])
      ++ (if certs_valid vr <? total_services self
          then [EPrint (YELLOW
                        ++ "• Some certificates are invalid - check OpenSSL errors above"
                        ++ NC)]
          else [])
      ++ (if connections_ok cr <? total_services self
          then [EPrint (YELLOW
                        ++ "• Some services are not accessible - check if Docker containers are running"
                        ++ NC)]
          else [])
      ++ List.concat (map (fun item => trace_of (report_expiring item tt w)) vr))%list).
Proof.
  unfold generate_report, names, files_ok, certs_valid, connections_ok, total_services.
  set (n_files := count_if _ (Dict.values fr)).
  set (n_valid := count_if _ (Dict.values vr)).
  set (n_conn := count_if _ (Dict.values cr)).
  set (total := Z.of_nat _).
  pose proof (for_each_unit (report_service fr vr cr)
                (fun service => trace_of (report_service fr vr cr service tt w)) w
                (fun x => report_service_acts fr vr cr x w)) as Hblocks.
  pose proof (for_each_unit report_expiring _ w
                (fun x => proj1 (report_expiring_acts x w))) as Hexp.
  unfold Dict.items, bind, when, print, ret.
  rewrite Hblocks, Hexp.
  destruct (n_files <? total + 1), (n_valid <? total), (n_conn <? total);
    cbn [fst snd app]; reflexivity.
Qed.

Lemma report_block_in self fr vr cr w service ev :
  In service (names self) ->
  In ev [EPrint (NL ++ upper service ++ ":");
         EPrint ("  Files: " ++ glyph (flag_get (Dict.get fr service)));
         EPrint (validity_line (Dict.get_default vr service Dict.empty));
         EPrint ("  Connection: " ++ glyph (flag_get (Dict.get cr service)))] ->
  In ev (trace_of (generate_report self fr vr cr w)).
Proof.
  intros Hin Hev. rewrite generate_report_trace. cbn [trace_of snd].
  apply in_or_app. right. apply in_or_app. left.
  apply in_concat. eexists. split; [apply in_map; exact Hin|].
  rewrite report_service_acts. exact Hev.
Qed.

Lemma report_expiring_in self fr vr cr w item ev :
  In item vr ->
  In ev (trace_of (report_expiring item tt w)) ->
  In ev (trace_of (generate_report self fr vr cr w)).
Proof.
  intros Hin Hev. rewrite generate_report_trace. cbn [trace_of snd].
  do 6 (apply in_or_app; right).
  apply in_concat. eexists. split; [|exact Hev].
  apply (in_map (fun item => trace_of (report_expiring item tt w))). exact Hin.
Qed.

(** X12.  The report copes with results that lack a service: a service
    with no file entry or no connectivity entry is marked with the
    cross, and a service with no validity entry, or with an entry that is
    not valid, gets the red cross on its validity line. *)
Theorem report_marks_missing_results self fr vr cr w service :
  In service (names self) ->
  (Dict.get fr service = None ->
   In (EPrint "  Files: ✗") (trace_of (generate_report self fr vr cr w)))
  /\ (Dict.get cr service = None ->
      In (EPrint "  Connection: ✗") (trace_of (generate_report self fr vr cr w)))
  /\ (Dict.get vr service = None ->
      In (EPrint ("  Validity: " ++ Colors.RED ++ "✗" ++ Colors.NC))
         (trace_of (generate_report self fr vr cr w)))
  /\ (forall entry,
        Dict.get vr service = Some entry ->
        truthy_get (Dict.get entry "valid") = false ->
        In (EPrint ("  Validity: " ++ Colors.RED ++ "✗" ++ Colors.NC))
           (trace_of (generate_report self fr vr cr w))).
Proof.
  intros Hin. repeat split.
  - intros Hnone. apply (report_block_in self fr vr cr w service _ Hin).
    rewrite Hnone. cbn. tauto.
  - intros Hnone. apply (report_block_in self fr vr cr w service _ Hin).
    rewrite Hnone. cbn. tauto.
  - intros Hnone. apply (report_block_in self fr vr cr w service _ Hin).
    unfold Dict.get_default. rewrite Hnone. cbn. tauto.
  - intros entry Hsome Hinvalid. apply (report_block_in self fr vr cr w service _ Hin).
    unfold Dict.get_default. rewrite Hsome. unfold validity_line. rewrite Hinvalid.
    cbn. tauto.
Qed.

Lemma report_marks_missing_results_witness :
  In "redis" (names (init "ssl"))
  /\ In (EPrint ("  Validity: " ++ Colors.RED ++ "✗" ++ Colors.NC))
        (trace_of (generate_report (init "ssl") [] [] [] world_healthy)).
Proof.
  split; [simpl; tauto|].
  destruct (report_marks_missing_results (init "ssl") [] [] [] world_healthy "redis")
    as (_ & _ & Hvalidity & _); [simpl; tauto|].
  apply Hvalidity. reflexivity.
Defined.

(** X13.  The closing loop of the report warns about every valid entry
    whose integer [days_left] is below 30, naming the service and the
    number of days, and prints nothing for an entry with 30 days or more
    or without [days_left]. *)
Theorem report_warns_about_expiring self fr vr cr w service validity :
  In (service, validity) vr ->
  truthy_get (Dict.get validity "valid") = true ->
  (forall days,
     Dict.get validity "days_left" = Some (VInt days) ->
     (days < 30 ->
      In (EPrint (Colors.RED ++ "• " ++ service ++ " certificate expires in "
                  ++ str_of_Z days ++ " days - renew soon!" ++ Colors.NC))
         (trace_of (generate_report self fr vr cr w)))
     /\ (30 <= days -> trace_of (report_expiring (service, validity) tt w) = []))
  /\ (Dict.get validity "days_left" = None ->
      trace_of (report_expiring (service, validity) tt w) = []).
Proof.
  intros Hin Hvalid. split.
  - intros days Hdays. split.
    + intros Hlt. apply (report_expiring_in self fr vr cr w _ _ Hin).
      unfold report_expiring, when, trace_of. rewrite Hvalid, Hdays. cbn [as_int].
      assert (E : (days <? 30) = true) by (apply Z.ltb_lt; lia). rewrite E.
      cbn. tauto.
    + intros Hge. unfold report_expiring, when, trace_of. rewrite Hvalid, Hdays.
      cbn [as_int].
      assert (E : (days <? 30) = false) by (apply Z.ltb_ge; lia). now rewrite E.
  - intros Hnone. unfold report_expiring, trace_of. now rewrite Hvalid, Hnone.
Qed.

Lemma report_warns_about_expiring_witness :
  In (EPrint (Colors.RED ++ "• minio certificate expires in 10 days - renew soon!"
              ++ Colors.NC))
     (trace_of (generate_report (init "ssl") []
                  [("minio", [("valid", VBool true); ("expires", VStr "Jun 30 12:00:00 2027 GMT");
                              ("days_left", VInt 10)])] [] world_healthy)).
Proof.
  destruct (report_warns_about_expiring (init "ssl") []
              [("minio", [("valid", VBool true); ("expires", VStr "Jun 30 12:00:00 2027 GMT");
                          ("days_left", VInt 10)])] [] world_healthy "minio"
              [("valid", VBool true); ("expires", VStr "Jun 30 12:00:00 2027 GMT");
               ("days_left", VInt 10)])
    as (Hwarn & _); [simpl; tauto|reflexivity|].
  destruct (Hwarn 10 eq_refl) as (Hlt & _). apply Hlt. lia.
Defined.

(** ** The report inside a run *)

Lemma main_report_in argv w (Hr : readable w) :
  stat w (ssl_dir (init (argv_ssl_dir argv))) = inr true ->
  exists fr t1 vr t2 cr t3,
    validate_certificate_files (init (argv_ssl_dir argv)) w = (inr fr, t1)
    /\ check_certificate_validity (init (argv_ssl_dir argv)) w = (inr vr, t2)
    /\ test_ssl_connectivity (init (argv_ssl_dir argv)) "localhost" w = (inr cr, t3)
    /\ forall ev,
         In ev (trace_of (generate_report (init (argv_ssl_dir argv)) fr vr cr w)) ->
         In ev (trace_of (main argv w)).
Proof.
  intros Hroot.
  destruct (main_run_summary argv w Hr Hroot)
    as (fr & t1 & vr & t2 & cr & t3 & t4 & Hfiles & Hvalid & Hconn & Hreport & Hmain & _).
  cbv zeta in Hmain. exists fr, t1, vr, t2, cr, t3.
  split; [exact Hfiles|]. split; [exact Hvalid|]. split; [exact Hconn|].
  intros ev Hev. rewrite Hreport in Hev. rewrite Hmain. cbn [trace_of snd] in *.
  right. do 3 (apply in_or_app; right). apply in_or_app. left. exact Hev.
Qed.

Lemma count_if_below {A : Type} (p : A -> bool) (xs : list A) x :
  In x xs -> p x = false -> count_if p xs < Z.of_nat (List.length xs).
Proof.
  intros Hin Hp. unfold count_if. apply inj_lt.
  induction xs as [|y xs IH]; [destruct Hin|].
  cbn [filter List.length]. pose proof (filter_length_le p xs) as Hle.
  destruct Hin as [->|Hin].
  - rewrite Hp. lia.
  - specialize (IH Hin). destruct (p y); cbn [List.length]; lia.
Qed.

Lemma in_values {V : Type} (d : Dict.t V) k v : In (k, v) d -> In v (Dict.values d).
Proof. intros Hin. unfold Dict.values. apply (in_map snd) in Hin. exact Hin. Qed.

(** X14.  In a run in which [exists()] never raises, each kind of
    failure brings its recommendation: a false file entry the advice to
    run the certificate generator, an invalid validity entry (or no
    validity results at all) the advice to check the OpenSSL errors, and
    a failed probe the advice to check the containers. *)
Theorem recommendations_follow_failures argv w :
  readable w ->
  stat w (ssl_dir (init (argv_ssl_dir argv))) = inr true ->
  exists fr t1 vr t2 cr t3,
    validate_certificate_files (init (argv_ssl_dir argv)) w = (inr fr, t1)
    /\ check_certificate_validity (init (argv_ssl_dir argv)) w = (inr vr, t2)
    /\ test_ssl_connectivity (init (argv_ssl_dir argv)) "localhost" w = (inr cr, t3)
    /\ ((exists k, In (k, false) fr) ->
        In (EPrint (Colors.YELLOW
                    ++ "• Run generate-ssl-certs.sh to create missing certificates"
                    ++ Colors.NC)) (trace_of (main argv w)))
    /\ ((vr = [] \/ exists k e, In (k, e) vr /\ Dict.get e "valid" = Some (VBool false)) ->
        In (EPrint (Colors.YELLOW
                    ++ "• Some certificates are invalid - check OpenSSL errors above"
                    ++ Colors.NC)) (trace_of (main argv w)))
    /\ ((exists k, In (k, false) cr) ->
        In (EPrint (Colors.YELLOW
                    ++ "• Some services are not accessible - check if Docker containers are running"
                    ++ Colors.NC)) (trace_of (main argv w))).
Proof.
  intros Hr Hroot.
  destruct (main_report_in argv w Hr Hroot)
    as (fr & t1 & vr & t2 & cr & t3 & Hfiles & Hvalid & Hconn & Hin).
  exists fr, t1, vr, t2, cr, t3.
  split; [exact Hfiles|]. split; [exact Hvalid|]. split; [exact Hconn|].
  destruct (file_results_init (argv_ssl_dir argv) w Hr) as (t1' & Hfiles' & _).
  rewrite Hfiles in Hfiles'. apply pair_inr_inj in Hfiles' as [Efr _].
  pose proof (connectivity_results_init (argv_ssl_dir argv) "localhost" w) as Hconn'.
  rewrite Hconn in Hconn'. apply pair_inr_inj in Hconn' as [Ecr _].
  assert (Hlen_vr : vr = [] \/ List.length vr = 5%nat).
  { pose proof (stat_readable w Hr (ca_cert_path (init (argv_ssl_dir argv)))) as Hstat.
    destruct (path_exists w (ca_cert_path (init (argv_ssl_dir argv)))) eqn:Hca.
    - rewrite (validity_results_init _ _ Hr Hstat) in Hvalid.
      apply pair_inr_inj in Hvalid as [<- _]. right. reflexivity.
    - rewrite (check_certificate_validity_no_ca _ _ Hstat) in Hvalid.
      apply pair_inr_inj in Hvalid as [<- _]. left. reflexivity. }
  repeat split.
  - intros [k Hk]. apply Hin. rewrite generate_report_trace. cbn [trace_of snd].
    assert (E : (files_ok fr <? total_services (init (argv_ssl_dir argv)) + 1) = true).
    { apply Z.ltb_lt. unfold files_ok.
      pose proof (count_if_below (fun v => v) (Dict.values fr) false
                    (in_values fr k false Hk) eq_refl) as Hlt.
      replace (List.length (Dict.values fr)) with 6%nat in Hlt
        by (rewrite Efr; reflexivity).
      unfold total_services. cbn [init services List.length]. lia. }
    rewrite E. do 3 (apply in_or_app; right). apply in_or_app. left. left. reflexivity.
  - intros Hbad. apply Hin. rewrite generate_report_trace. cbn [trace_of snd].
    assert (E : (certs_valid vr <? total_services (init (argv_ssl_dir argv))) = true).
    { apply Z.ltb_lt. unfold total_services. cbn [init services List.length].
      assert (Hnil : vr = [] -> certs_valid vr < Z.of_nat 5) by (intros ->; cbn; lia).
      destruct Hbad as [->|(k & e & Hk & He)]; [now apply Hnil|].
      destruct Hlen_vr as [->|Hlen]; [destruct Hk|].
      unfold certs_valid.
      pose proof (count_if_below
                    (fun v => truthy (Dict.get_default v "valid" (VBool false)))
                    (Dict.values vr) e (in_values vr k e Hk)) as Hlt.
      unfold Dict.values in Hlt at 2. rewrite length_map, Hlen in Hlt.
      apply Hlt. unfold Dict.get_default. now rewrite He. }
    rewrite E. do 4 (apply in_or_app; right). apply in_or_app. left. left. reflexivity.
  - intros [k Hk]. apply Hin. rewrite generate_report_trace. cbn [trace_of snd].
    assert (E : (connections_ok cr <? total_services (init (argv_ssl_dir argv))) = true).
    { apply Z.ltb_lt. unfold connections_ok.
      pose proof (count_if_below (fun v => v) (Dict.values cr) false
                    (in_values cr k false Hk) eq_refl) as Hlt.
      replace (List.length (Dict.values cr)) with 5%nat in Hlt
        by (rewrite Ecr; reflexivity).
      unfold total_services. cbn [init services List.length]. lia. }
    rewrite E. do 5 (apply in_or_app; right). apply in_or_app. left. left. reflexivity.
Qed.

Lemma recommendations_follow_failures_witness :
  stat world_no_ca (ssl_dir (init (argv_ssl_dir ["validate-certificates.py"]))) = inr true
  /\ In (EPrint (Colors.YELLOW
                 ++ "• Some certificates are invalid - check OpenSSL errors above"
                 ++ Colors.NC))
        (trace_of (main ["validate-certificates.py"] world_no_ca)).
Proof.
  split; [reflexivity|].
  destruct (recommendations_follow_failures ["validate-certificates.py"] world_no_ca
              world_no_ca_readable eq_refl)
    as (fr & t1 & vr & t2 & cr & t3 & _ & Hvalid & _ & _ & Hrec & _).
  apply Hrec. left.
  assert (E : check_certificate_validity (init (argv_ssl_dir ["validate-certificates.py"]))
                world_no_ca
              = (inr [], [EPrint (NL ++ BLUE ++ "Checking certificate validity..." ++ NC);
                          EStat (ca_cert_path (init "ssl"));
                          EPrint (RED ++ "CA certificate not found" ++ NC)]))
    by reflexivity.
  rewrite E in Hvalid. now injection Hvalid as <- _.
Defined.

(** X15.  When the root directory exists and [exists()] never raises,
    the last line a run prints is its verdict, and it agrees with the
    exit status: "All certificates are valid!" with status 0, "Some
    issues found" with status 1. *)
Theorem final_line_matches_exit_status argv w :
  readable w ->
  stat w (ssl_dir (init (argv_ssl_dir argv))) = inr true ->
  (exit_status (main argv w) = 0
   /\ last (trace_of (main argv w)) (EPrint "")
      = EPrint (NL ++ Colors.GREEN ++ "All certificates are valid!" ++ Colors.NC))
  \/ (exit_status (main argv w) = 1
      /\ last (trace_of (main argv w)) (EPrint "")
         = EPrint (NL ++ Colors.YELLOW ++ "Some issues found - check the report above."
                   ++ Colors.NC)).
Proof.
  intros Hr Hroot.
  destruct (main_run_summary argv w Hr Hroot)
    as (fr & t1 & vr & t2 & cr & t3 & t4 & _ & _ & _ & _ & Hmain & _).
  cbv zeta in Hmain. unfold exit_status. rewrite Hmain. cbn [trace_of fst snd].
  rewrite app_comm_cons, !app_assoc, last_last.
  destruct (_ && _); [left|right]; split; reflexivity.
Qed.

Lemma final_line_matches_exit_status_witness :
  stat world_verify_fails
    (ssl_dir (init (argv_ssl_dir ["validate-certificates.py"; "ssl"]))) = inr true
  /\ exit_status (main ["validate-certificates.py"; "ssl"] world_verify_fails) = 1
  /\ last (trace_of (main ["validate-certificates.py"; "ssl"] world_verify_fails)) (EPrint "")
     = EPrint (NL ++ Colors.YELLOW ++ "Some issues found - check the report above."
               ++ Colors.NC).
Proof.
  split; [reflexivity|].
  destruct (final_line_matches_exit_status ["validate-certificates.py"; "ssl"]
              world_verify_fails (fun s => ex_intro _ true eq_refl) eq_refl)
    as [[Hexit _]|[Hexit Hlast]].
  - exfalso. vm_compute in Hexit. discriminate Hexit.
  - split; [exact Hexit|exact Hlast].
Defined.

(** A run of consecutive events of the report is one of the run. *)
Lemma infix_app {A : Type} (xs l pre post : list A) :
  infix xs l -> infix xs (pre ++ l ++ post)%list.
Proof.
  intros (a & b & ->). exists (pre ++ a)%list, (b ++ post)%list.
  now rewrite <- !app_assoc.
Qed.

Lemma infix_concat_map {A B : Type} (f : A -> list B) (xs : list A) x :
  In x xs -> infix (f x) (List.concat (map f xs)).
Proof.
  intros Hin. apply in_split in Hin as (l1 & l2 & ->).
  exists (List.concat (map f l1)), (List.concat (map f l2)).
  now rewrite map_app, concat_app.
Qed.

Lemma report_block_infix self fr vr cr w service :
  In service (names self) ->
  infix [EPrint (NL ++ upper service ++ ":");
         EPrint ("  Files: " ++ glyph (flag_get (Dict.get fr service)));
         EPrint (validity_line (Dict.get_default vr service Dict.empty));
         EPrint ("  Connection: " ++ glyph (flag_get (Dict.get cr service)))]
    (trace_of (generate_report self fr vr cr w)).
Proof.
  intros Hin. rewrite generate_report_trace. cbn [trace_of snd].
  apply infix_app.
  apply (infix_concat_map (fun service => trace_of (report_service fr vr cr service tt w))
           (names self) service Hin).
Qed.

Lemma main_report_infix argv w (Hr : readable w) :
  stat w (ssl_dir (init (argv_ssl_dir argv))) = inr true ->
  exists fr t1 vr t2 cr t3,
    validate_certificate_files (init (argv_ssl_dir argv)) w = (inr fr, t1)
    /\ check_certificate_validity (init (argv_ssl_dir argv)) w = (inr vr, t2)
    /\ test_ssl_connectivity (init (argv_ssl_dir argv)) "localhost" w = (inr cr, t3)
    /\ forall evs,
         infix evs (trace_of (generate_report (init (argv_ssl_dir argv)) fr vr cr w)) ->
         infix evs (trace_of (main argv w)).
Proof.
  intros Hroot.
  destruct (main_run_summary argv w Hr Hroot)
    as (fr & t1 & vr & t2 & cr & t3 & t4 & Hfiles & Hvalid & Hconn & Hreport & Hmain & _).
  cbv zeta in Hmain. exists fr, t1, vr, t2, cr, t3.
  split; [exact Hfiles|]. split; [exact Hvalid|]. split; [exact Hconn|].
  intros evs Hev. rewrite Hreport in Hev. rewrite Hmain. cbn [trace_of snd] in *.
  match goal with
  | |- infix _ (?e :: t1 ++ t2 ++ t3 ++ t4 ++ ?post)%list =>
      replace (e :: t1 ++ t2 ++ t3 ++ t4 ++ post)%list
        with ((e :: t1 ++ t2 ++ t3) ++ t4 ++ post)%list
        by (cbn [app]; now rewrite <- !app_assoc)
  end.
  now apply infix_app.
Qed.

(** X16.  When [exists()] never raises and the CA certificate is
    missing, the report of the run counts 0 valid certificates out of 5,
    and the block of every service -- its name in capitals, its files
    line, its validity line, its connection line, in this order -- has
    the red cross on the validity line. *)
Theorem missing_ca_report argv w service :
  readable w ->
  stat w (ssl_dir (init (argv_ssl_dir argv))) = inr true ->
  stat w (ca_cert_path (init (argv_ssl_dir argv))) = inr false ->
  In service service_names ->
  exists fr t1 cr t3,
    validate_certificate_files (init (argv_ssl_dir argv)) w = (inr fr, t1)
    /\ test_ssl_connectivity (init (argv_ssl_dir argv)) "localhost" w = (inr cr, t3)
    /\ In (EPrint "Valid certificates: 0/5") (trace_of (main argv w))
    /\ infix [EPrint (NL ++ upper service ++ ":");
              EPrint ("  Files: " ++ glyph (flag_get (Dict.get fr service)));
              EPrint ("  Validity: " ++ Colors.RED ++ "✗" ++ Colors.NC);
              EPrint ("  Connection: " ++ glyph (flag_get (Dict.get cr service)))]
         (trace_of (main argv w)).
Proof.
  intros Hr Hroot Hca Hservice.
  destruct (main_report_infix argv w Hr Hroot)
    as (fr & t1 & vr & t2 & cr & t3 & Hfiles & Hvalid & Hconn & Hin).
  rewrite (check_certificate_validity_no_ca _ _ Hca) in Hvalid.
  apply pair_inr_inj in Hvalid as [<- _].
  exists fr, t1, cr, t3. split; [exact Hfiles|]. split; [exact Hconn|]. split.
  - assert (Hone : infix [EPrint "Valid certificates: 0/5"] (trace_of (main argv w))).
    { apply Hin. rewrite generate_report_trace. cbn [trace_of snd].
      eexists [_; _; _; _], _. reflexivity. }
    destruct Hone as (pre & post & ->). apply in_or_app. right. now left.
  - apply Hin.
    exact (report_block_infix (init (argv_ssl_dir argv)) fr Dict.empty cr w service
             Hservice).
Qed.

Lemma missing_ca_report_witness :
  exists fr t1 cr t3,
    validate_certificate_files (init "ssl") world_no_ca = (inr fr, t1)
    /\ test_ssl_connectivity (init "ssl") "localhost" world_no_ca = (inr cr, t3)
    /\ infix [EPrint (NL ++ "REDIS:");
              EPrint ("  Files: " ++ glyph (flag_get (Dict.get fr "redis")));
              EPrint ("  Validity: " ++ Colors.RED ++ "✗" ++ Colors.NC);
              EPrint ("  Connection: " ++ glyph (flag_get (Dict.get cr "redis")))]
         (trace_of (main ["validate-certificates.py"] world_no_ca)).
Proof.
  destruct (missing_ca_report ["validate-certificates.py"] world_no_ca "redis"
              world_no_ca_readable eq_refl eq_refl (or_introl eq_refl))
    as (fr & t1 & cr & t3 & Hfiles & Hconn & _ & Hblock).
  exists fr, t1, cr, t3. split; [exact Hfiles|]. split; [exact Hconn|exact Hblock].
Defined.

(** ** Where a run looks and what it runs *)

Lemma strict_prefix_app (xs ys : list string) :
  ys <> [] -> strict_prefix xs (xs ++ ys)%list = true.
Proof.
  intros Hys. induction xs as [|x xs IH]; cbn [app strict_prefix].
  - destruct ys; [contradiction|reflexivity].
  - now rewrite String.eqb_refl, IH.
Qed.

Lemma Path_join_plain (p : Path) (c : string) :
  plain c -> p // c = {| root := root p; parts := (parts p ++ [c])%list |}.
Proof. unfold plain, Path_join. intros ->. reflexivity. Qed.

Lemma under_join (dir : Path) (a b : string) :
  plain a -> plain b -> under dir (dir // a // b) = true.
Proof.
  intros Ha Hb. rewrite (Path_join_plain _ b Hb), (Path_join_plain _ a Ha).
  unfold under. cbn [root parts]. rewrite String.eqb_refl, <- app_assoc.
  apply strict_prefix_app. discriminate.
Qed.

(** The names of the table and the file names made from them are single
    path components. *)
Lemma service_names_plain service :
  In service service_names ->
  plain service /\ plain (service ++ ".crt") /\ plain (service ++ ".key").
Proof.
  unfold service_names. cbn. intros Hin.
  repeat (destruct Hin as [<-|Hin]; [repeat split; reflexivity|]). destruct Hin.
Qed.

Lemma validate_service_confined E self service r w :
  plain service -> plain (service ++ ".crt") -> plain (service ++ ".key") ->
  behaves E (confined (ssl_dir self)) (validate_service self service r) w.
Proof.
  intros Hs Hc Hk. unfold validate_service, and_then.
  behave; cbn [confined]; auto; right; apply under_join; auto; reflexivity.
Qed.

Lemma check_service_confined E self service r w :
  plain service -> plain (service ++ ".crt") ->
  behaves E (confined (ssl_dir self))
    (check_service self (ssl_dir self // "ca" // "ca.crt") service r) w.
Proof.
  intros Hs Hc. unfold check_service.
  behave; cbn [confined hd]; auto; right; apply under_join; auto.
Qed.

Lemma probe_service_confined E dir host item r w :
  behaves E (confined dir) (probe_service host item r) w.
Proof. unfold probe_service. behave; exact I. Qed.

Lemma generate_report_confined E dir self fr vr cr w :
  behaves E (confined dir) (generate_report self fr vr cr) w.
Proof.
  unfold generate_report, when.
  behave; try exact I; apply behaves_for_each; intros x [] _.
  - unfold report_service. behave; exact I.
  - unfold report_expiring, when. behave; exact I.
Qed.

(** Every step of a run stays with the root directory and [openssl], and
    [sys.exit] is called with 0 or 1 only. *)
Lemma main_confined argv w :
  behaves (fun code => code = 0 \/ code = 1)
    (confined (ssl_dir (init (argv_ssl_dir argv)))) (main argv) w.
Proof.
  unfold main. set (validator := init (argv_ssl_dir argv)).
  assert (Hnames : forall x, In x (Dict.keys (services validator)) ->
                     plain x /\ plain (x ++ ".crt") /\ plain (x ++ ".key")).
  { intros x Hx. apply service_names_plain.
    change (In x (names validator)) in Hx. unfold validator in Hx.
    now rewrite names_init in Hx. }
  apply behaves_bind; [apply behaves_exists; now left|intros root_ok].
  apply behaves_bind; [destruct root_ok; cbn [negb]; behave; cbn [confined]; auto|intros _].
  apply behaves_bind; [|intros fr].
  { unfold validate_certificate_files, and_then.
    behave; cbn [confined]; auto;
      try (right; apply under_join; reflexivity);
      apply behaves_for_each; intros x s Hx; destruct (Hnames x Hx) as (H1 & H2 & H3);
      now apply validate_service_confined. }
  apply behaves_bind; [|intros vr].
  { unfold check_certificate_validity.
    behave; cbn [confined]; auto;
      try (right; apply under_join; reflexivity);
      apply behaves_for_each; intros x s Hx; destruct (Hnames x Hx) as (H1 & H2 & H3);
      now apply check_service_confined. }
  apply behaves_bind; [|intros cr].
  { unfold test_ssl_connectivity.
    apply behaves_bind; [apply behaves_print; exact I|intros _].
    apply behaves_for_each. intros x s _. apply probe_service_confined. }
  apply behaves_bind; [apply generate_report_confined|intros _].
  behave; cbn [confined]; auto.
Qed.

Lemma stats_In (t : Trace) p : In p (stats t) -> In (EStat p) t.
Proof.
  unfold stats. intros H. apply in_flat_map in H as ([] & Hev & Hp); cbn in Hp;
    try contradiction.
  destruct Hp as [<-|[]]. exact Hev.
Qed.

Lemma commands_In (t : Trace) cmd : In cmd (commands t) -> In (ERun cmd) t.
Proof.
  unfold commands. intros H. apply in_flat_map in H as ([] & Hev & Hp); cbn in Hp;
    try contradiction.
  destruct Hp as [<-|[]]. exact Hev.
Qed.

(** X17.  A run never looks outside its root directory and never runs
    anything but [openssl], whatever the world answers and also when
    [exists()] raises: every path it tests is the root itself or the
    root followed by further components, and every command it starts
    has [openssl] as its program.  Paths are compared as [pathlib] builds
    them, a root and a list of components, so that the root may be given
    in any spelling (["ssl/"], ["./ssl"], [""]). *)
Theorem run_stays_under_root argv w :
  (forall p,
     In p (stats (trace_of (main argv w))) ->
     p = ssl_dir (init (argv_ssl_dir argv))
     \/ under (ssl_dir (init (argv_ssl_dir argv))) p = true)
  /\ (forall cmd, In cmd (commands (trace_of (main argv w))) -> hd "" cmd = "openssl").
Proof.
  destruct (main_confined argv w) as [Hall _].
  rewrite Forall_forall in Hall. split.
  - intros p Hp. exact (Hall _ (stats_In _ _ Hp)).
  - intros cmd Hcmd. exact (Hall _ (commands_In _ _ Hcmd)).
Qed.

Lemma run_stays_under_root_witness :
  In (Path_of "./certs/" // "rabbitmq" // "rabbitmq.key")
     (stats (trace_of (main ["validate-certificates.py"; "./certs/"] world_healthy)))
  /\ under (Path_of "certs") (Path_of "certs/rabbitmq/rabbitmq.key") = true
  /\ Path_str (Path_of "./certs/" // "rabbitmq" // "rabbitmq.key")
     = "certs/rabbitmq/rabbitmq.key".
Proof.
  assert (Hin : In (Path_of "./certs/" // "rabbitmq" // "rabbitmq.key")
                   (stats (trace_of (main ["validate-certificates.py"; "./certs/"]
                                       world_healthy))))
    by (vm_compute; tauto).
  split; [exact Hin|]. split; [|reflexivity].
  destruct (proj1 (run_stays_under_root ["validate-certificates.py"; "./certs/"]
                     world_healthy) _ Hin) as [Heq|Hunder];
    [discriminate Heq|exact Hunder].
Defined.

(** ** What a result depends on *)

Lemma check_entry_local self w w' service :
  stat w (cert_path self service) = stat w' (cert_path self service) ->
  subprocess_run w (verify_cmd self service) = subprocess_run w' (verify_cmd self service) ->
  subprocess_run w (enddate_cmd self service) = subprocess_run w' (enddate_cmd self service) ->
  (forall text, strptime w text enddate_format = strptime w' text enddate_format) ->
  datetime_now w = datetime_now w' ->
  check_entry self (ca_cert_path self) w service
  = check_entry self (ca_cert_path self) w' service.
Proof.
  unfold verify_cmd, enddate_cmd, enddate_format, cert_path, stat.
  intros Hcert Hverify Hend Hparse Hnow.
  unfold_script.
  repeat (cbn;
          match goal with
          | |- context [path_stat w ?p] => rewrite Hcert
          | |- context [subprocess_run w ?c] => first [rewrite Hverify|rewrite Hend]
          | |- context [datetime_now w] => rewrite Hnow
          | |- context [strptime w ?s ?f] => rewrite (Hparse s)
          | |- context [path_stat w' ?p] => destruct (path_stat w' p) as [?|[|]] eqn:?
          | |- context [subprocess_run w' ?c] =>
              destruct (subprocess_run w' c) as [?|[? ? ?]] eqn:?
          | |- context [(?rc =? 0)%Z] => destruct (rc =? 0)%Z eqn:?
          | |- context [nth_error (split ?c ?s) ?i] =>
              destruct (nth_error (split c s) i) eqn:?
          | |- context [strptime w' ?s ?f] => destruct (strptime w' s f) eqn:?
          end);
    reflexivity.
Qed.

(** X18.  The validity entry of a service is decided by that service
    alone: two worlds in which [exists()] never raises and that agree on
    its certificate file, on its two [openssl] invocations, on date
    parsing and on the clock give it the same entry, whatever happens to
    the other services. *)
Theorem validity_entry_isolated d w w' service :
  readable w ->
  readable w' ->
  In service service_names ->
  stat w (ca_cert_path (init d)) = inr true ->
  stat w' (ca_cert_path (init d)) = inr true ->
  stat w (cert_path (init d) service) = stat w' (cert_path (init d) service) ->
  subprocess_run w (verify_cmd (init d) service)
  = subprocess_run w' (verify_cmd (init d) service) ->
  subprocess_run w (enddate_cmd (init d) service)
  = subprocess_run w' (enddate_cmd (init d) service) ->
  (forall text, strptime w text enddate_format = strptime w' text enddate_format) ->
  datetime_now w = datetime_now w' ->
  exists vr t vr' t',
    check_certificate_validity (init d) w = (inr vr, t)
    /\ check_certificate_validity (init d) w' = (inr vr', t')
    /\ Dict.get vr service = Dict.get vr' service
    /\ exists entry, Dict.get vr service = Some entry.
Proof.
  intros Hr Hr' Hin Hca Hca' Hcert Hverify Hend Hparse Hnow.
  do 4 eexists. split; [apply (validity_results_init d w Hr), Hca|].
  split; [apply (validity_results_init d w' Hr'), Hca'|].
  rewrite !(validity_results_get d _ service Hin).
  split; [|eexists; reflexivity].
  f_equal. now apply check_entry_local.
Qed.

Lemma validity_entry_isolated_witness :
  exists vr t vr' t',
    check_certificate_validity (init "ssl") world_healthy = (inr vr, t)
    /\ check_certificate_validity (init "ssl") world_no_redis_cert = (inr vr', t')
    /\ Dict.get vr "minio" = Dict.get vr' "minio"
    /\ exists entry, Dict.get vr "minio" = Some entry.
Proof.
  apply (validity_entry_isolated "ssl" world_healthy world_no_redis_cert "minio"
           world_healthy_readable world_no_redis_cert_readable);
    try reflexivity.
  simpl; tauto.
Defined.

Lemma fold_left_ext {A B : Type} (f g : A -> B -> A) (l : list B) :
  (forall a b, f a b = g a b) -> forall a, fold_left f l a = fold_left g l a.
Proof.
  intros H. induction l as [|b l IH]; intros a; simpl; [reflexivity|].
  now rewrite H, IH.
Qed.

(** X19.  The connectivity results and the log of the probes depend on
    the TLS stack alone: two worlds whose handshakes with the host agree
    give the same results and the same trace, whatever is on disk and
    whatever [openssl] answers.  The probe neither looks at a file nor
    runs a command. *)
Theorem connectivity_depends_on_tls_only self host w w' :
  (forall port timeout, tls_handshake w host port timeout = tls_handshake w' host port timeout) ->
  test_ssl_connectivity self host w = test_ssl_connectivity self host w'
  /\ stats (trace_of (test_ssl_connectivity self host w)) = []
  /\ commands (trace_of (test_ssl_connectivity self host w)) = [].
Proof.
  intros Htls. rewrite !test_ssl_connectivity_spec. split; [|split].
  - f_equal.
    + f_equal. apply fold_left_ext. intros r [service port]. cbn [fst].
      now rewrite !probe_entry_handshake, Htls.
    + f_equal. f_equal. apply map_ext. intros [service port].
      rewrite !probe_trace_lines. unfold probe_line. cbn [fst snd]. now rewrite Htls.
  - cbn [trace_of snd].
    change (stats (List.concat (map (probe_trace host w) (services self))) = []).
    unfold stats. rewrite (flat_map_concat_map _ (probe_trace host w)).
    apply flat_map_nil. intros item _. apply probe_trace_quiet.
  - cbn [trace_of snd]. apply connectivity_trace_quiet.
Qed.

Lemma connectivity_depends_on_tls_only_witness :
  test_ssl_connectivity (init "ssl") "localhost" world_healthy
  = test_ssl_connectivity (init "ssl") "localhost" world_no_root.
Proof.
  apply (connectivity_depends_on_tls_only (init "ssl") "localhost" world_healthy
           world_no_root).
  intros port timeout. reflexivity.
Defined.

(** ** Runs that end in an exception *)

(** X20.  Nothing catches what [exists()] raises inside the file check
    or the validity check: when one of the two raises, the run of [main]
    ends with that very exception, hence with status 1, and without
    having attempted any connection. *)
Theorem raising_check_ends_run argv w e t :
  stat w (ssl_dir (init (argv_ssl_dir argv))) = inr true ->
  validate_certificate_files (init (argv_ssl_dir argv)) w = (inl e, t)
  \/ ((exists fr t1, validate_certificate_files (init (argv_ssl_dir argv)) w = (inr fr, t1))
      /\ check_certificate_validity (init (argv_ssl_dir argv)) w = (inl e, t)) ->
  (exists x, e = Exc x)
  /\ fst (main argv w) = inl e
  /\ exit_status (main argv w) = 1
  /\ probes (trace_of (main argv w)) = [].
Proof.
  intros Hroot Hraise.
  destruct (main_aborts argv w Hroot) as [Hfirst Hsecond].
  destruct (checks_raise_exceptions (init (argv_ssl_dir argv)) w) as [Hnx1 Hnx2].
  destruct (checks_no_probes (init (argv_ssl_dir argv)) w) as [Hp1 Hp2].
  assert (Hexc : exists x, e = Exc x).
  { destruct e as [x|code]; [now exists x|exfalso].
    destruct Hraise as [H|[_ H]]; [exact (Hnx1 _ _ H)|exact (Hnx2 _ _ H)]. }
  split; [exact Hexc|]. destruct Hexc as [x ->].
  destruct Hraise as [Hfiles|[(fr & t1 & Hfiles) Hvalid]].
  - rewrite (Hfirst _ _ Hfiles). unfold exit_status, trace_of. cbn [fst snd].
    repeat split. rewrite Hfiles in Hp1. exact Hp1.
  - rewrite (Hsecond _ _ _ _ Hfiles Hvalid). unfold exit_status, trace_of. cbn [fst snd].
    repeat split. rewrite probes_stat, probes_app.
    rewrite Hfiles in Hp1. rewrite Hvalid in Hp2. cbn [snd] in Hp1, Hp2.
    now rewrite Hp1, Hp2.
Qed.

Lemma raising_check_ends_run_witness :
  fst (main ["validate-certificates.py"] world_denied)
  = inl (Exc (mkExc PermissionError "[Errno 13] Permission denied: 'ssl/redis/redis.crt'"))
  /\ exit_status (main ["validate-certificates.py"] world_denied) = 1
  /\ probes (trace_of (main ["validate-certificates.py"] world_denied)) = [].
Proof.
  destruct (raising_check_ends_run ["validate-certificates.py"] world_denied
              (Exc (mkExc PermissionError
                      "[Errno 13] Permission denied: 'ssl/redis/redis.crt'"))
              (snd (validate_certificate_files (init "ssl") world_denied)) eq_refl)
    as (_ & Hfst & Hexit & Hprobes); [left; vm_compute; reflexivity|].
  split; [exact Hfst|]. split; [exact Hexit|exact Hprobes].
Defined.


